(** * Virtual Slope depth controller: a shallow embedding and its properties

    The development follows the Python sources of the repository:
    - [src/config.py]                 the configuration record,
    - [src/backseat_api_overload.py]  the depth-command client with its
                                      envelope memory,
    - [src/VS_controller.py]          the five-state depth controller,
    - [main.py]                       the fixed-cadence loop, the step
                                      hand-over and the monitor loop,
    - [src/DesBridge_api.py]          the NAVIGATION telegram parser and
                                      its receive loop,
    - [src/backseat_api_get.py]       the cache of the phase information,
    - [src/check_line_start.py]       the line-start test,
    - [src/test_altitude_source.py]   the simulated altitude,
    - [src/phase_manager.py]          the phase manager.

    Python floats are read in two ways.  Module [Arith] is the interface of
    the operations the sources use on them, with two instances: [exact],
    the rationals [Q] with exact operations, and [binary64], the IEEE 754
    double-precision numbers of the standard library's [SpecFloat], with
    rounding, infinities and NaN.  The depth-command client and module
    [Float], the controller tick by tick, are written over the interface;
    what is proved of them holds in both instances, and the special values
    are run in [binary64].  Module [Controller] is the controller read over
    [Q] alone: every comparison and every arithmetic operation of the
    source is kept, rounding and the special values are left out; it
    carries the properties that rest on comparisons and assignments.  What
    rounding decides, the end of the plan and the error compensation, is
    stated over [Float].  The wall clock [time.time()] is an input [now] of
    the functions that read it. *)

From Stdlib Require Import QArith Qround Qabs Lqa Lia ZArith Bool List.
From Stdlib Require Import String Ascii SpecFloat.
Import ListNotations.

Local Open Scope Q_scope.

(** ** Comparisons on rationals, as booleans *)

Definition Qleb (x y : Q) : bool := Qle_bool x y.
Definition Qltb (x y : Q) : bool := negb (Qle_bool y x).
Definition Qgeb (x y : Q) : bool := Qle_bool y x.
Definition Qgtb (x y : Q) : bool := negb (Qle_bool x y).

Lemma Qleb_le x y : Qleb x y = true <-> x <= y.
Proof. apply Qle_bool_iff. Qed.

Lemma Qltb_lt x y : Qltb x y = true <-> x < y.
Proof.
  unfold Qltb. rewrite negb_true_iff, <- not_true_iff_false, Qle_bool_iff.
  split; intro H; [apply Qnot_le_lt | apply Qlt_not_le]; exact H.
Qed.

Lemma Qgeb_ge x y : Qgeb x y = true <-> y <= x.
Proof. apply Qle_bool_iff. Qed.

Lemma Qgtb_gt x y : Qgtb x y = true <-> y < x.
Proof. unfold Qgtb. apply (Qltb_lt y x). Qed.

Lemma Qltb_ge x y : Qltb x y = false <-> y <= x.
Proof.
  unfold Qltb. rewrite negb_false_iff. apply Qle_bool_iff.
Qed.

Lemma Qgtb_le x y : Qgtb x y = false <-> x <= y.
Proof. apply (Qltb_ge y x). Qed.

Lemma Qleb_gt x y : Qleb x y = false <-> y < x.
Proof.
  unfold Qleb. rewrite <- not_true_iff_false, Qle_bool_iff.
  split; intro H; [apply Qnot_le_lt | apply Qlt_not_le]; exact H.
Qed.

Lemma Qgeb_lt x y : Qgeb x y = false <-> x < y.
Proof. apply (Qleb_gt y x). Qed.

(** Turns every boolean comparison among the hypotheses into its
    proposition, so that [lra] can use it. *)
Ltac qbool :=
  repeat match goal with
  | H : Qleb _ _ = true |- _ => apply Qleb_le in H
  | H : Qleb _ _ = false |- _ => apply Qleb_gt in H
  | H : Qltb _ _ = true |- _ => apply Qltb_lt in H
  | H : Qltb _ _ = false |- _ => apply Qltb_ge in H
  | H : Qgeb _ _ = true |- _ => apply Qgeb_ge in H
  | H : Qgeb _ _ = false |- _ => apply Qgeb_lt in H
  | H : Qgtb _ _ = true |- _ => apply Qgtb_gt in H
  | H : Qgtb _ _ = false |- _ => apply Qgtb_le in H
  end.

(** ** The arithmetic of Python floats *)

Module Arith.

(** What the sources do with floats: the four operations, [abs], [==], [<]
    and [<=], the conversion of an [int] that meets a float in an operation,
    and [math.ceil], which raises on an infinity ([OverflowError]) and on
    NaN ([ValueError]): [None].  Every division of the code modelled over
    this interface has a divisor that a test has shown not to be zero. *)
Record t := {
  F : Type;
  of_Z : Z -> F;
  add : F -> F -> F;
  sub : F -> F -> F;
  mul : F -> F -> F;
  div : F -> F -> F;
  abs : F -> F;
  eqb : F -> F -> bool;
  ltb : F -> F -> bool;
  leb : F -> F -> bool;
  ceil : F -> option Z
}.

(** [x > y] is [y < x] and [x >= y] is [y <= x], for NaN as well. *)
Definition gtb (A : t) (x y : F A) : bool := ltb A y x.
Definition geb (A : t) (x y : F A) : bool := leb A y x.

(** Python's two-argument [min] and [max]: the first argument stays unless
    the second is strictly beyond it. *)
Definition min (A : t) (a b : F A) : F A := if ltb A b a then b else a.
Definition max (A : t) (a b : F A) : F A := if gtb A b a then b else a.

End Arith.

(** The rationals with exact operations. *)
Definition exact : Arith.t :=
  {| Arith.F := Q;
     Arith.of_Z := inject_Z;
     Arith.add := Qplus;
     Arith.sub := Qminus;
     Arith.mul := Qmult;
     Arith.div := Qdiv;
     Arith.abs := Qabs;
     Arith.eqb := Qeq_bool;
     Arith.ltb := Qltb;
     Arith.leb := Qleb;
     Arith.ceil := fun x => Some (Qceiling x) |}.

Canonical Structure exact.

(** IEEE 754 double precision: 53 bits of mantissa, infinities at exponent
    1024, every operation rounded to nearest, ties to even. *)
Module Binary64.

Definition prec : Z := 53.
Definition emax : Z := 1024.

Definition nan : spec_float := S754_nan.

(** [float(n)] for an [int] [n]. *)
Definition of_Z (n : Z) : spec_float := binary_normalize prec emax n 0 false.

(** The float that a decimal literal [n/d] denotes, for instance [0.2] as
    [literal 1 5]: the quotient of two integers that are floats themselves,
    rounded once. *)
Definition literal (n d : Z) : spec_float :=
  SFdiv prec emax (of_Z n) (of_Z d).

(** [2 ** e] for an [int] [e]. *)
Definition power_of_two (e : Z) : spec_float :=
  SFldexp prec emax (of_Z 1) e.

(** [math.ceil]: the smallest integer that is not below the float. *)
Definition ceil (x : spec_float) : option Z :=
  match x with
  | S754_zero _ => Some 0%Z
  | S754_infinity _ => None
  | S754_nan => None
  | S754_finite s m e =>
      let v := if s then Zneg m else Zpos m in
      Some (if (0 <=? e)%Z then (v * 2 ^ e)%Z
            else (- ((- v) / 2 ^ (- e)))%Z)
  end.

(** The rational a finite float stands for, in lowest terms. *)
Definition to_Q (x : spec_float) : option Q :=
  match x with
  | S754_zero _ => Some 0
  | S754_infinity _ => None
  | S754_nan => None
  | S754_finite s m e =>
      let v := if s then Zneg m else Zpos m in
      Some (Qred (if (0 <=? e)%Z then inject_Z (v * 2 ^ e)
                  else v # Z.to_pos (2 ^ (- e))))
  end.

End Binary64.

Definition binary64 : Arith.t :=
  {| Arith.F := spec_float;
     Arith.of_Z := Binary64.of_Z;
     Arith.add := SFadd Binary64.prec Binary64.emax;
     Arith.sub := SFsub Binary64.prec Binary64.emax;
     Arith.mul := SFmul Binary64.prec Binary64.emax;
     Arith.div := SFdiv Binary64.prec Binary64.emax;
     Arith.abs := SFabs;
     Arith.eqb := SFeqb;
     Arith.ltb := SFltb;
     Arith.leb := SFleb;
     Arith.ceil := Binary64.ceil |}.

Canonical Structure binary64.

(** ** [src/config.py]: the part of the configuration the code below reads *)

Module config.

(** The settings over the number type [F].  [transition_time] is the sample
    count given to [numpy.linspace], which refuses a negative one: a natural
    number. *)
Record settings (F : Type) := {
  min_depth : F;
  max_depth : F;
  altitude_threshold_level : F;
  altitude_threshold_ascend : F;
  wait_time : F;
  command_period : F;
  transition_time : nat
}.

Arguments min_depth {F} _.
Arguments max_depth {F} _.
Arguments altitude_threshold_level {F} _.
Arguments altitude_threshold_ascend {F} _.
Arguments wait_time {F} _.
Arguments command_period {F} _.
Arguments transition_time {F} _.

(** The settings read over the rationals. *)
Definition t : Type := settings Q.

End config.

(** The configured vertical envelope [[min_depth, max_depth]]. *)
Definition in_envelope (cfg : config.t) (z : Q) : Prop :=
  config.min_depth cfg <= z /\ z <= config.max_depth cfg.

(** ** [src/backseat_api_overload.py] *)

Module Backseat.

(** What [requests.post] does with one request: it answers with a status
    code, or it raises. *)
Inductive Reply := Status (code : Z) | Raises.

Section Client.

Variable A : Arith.t.

(** The module-level [_last_valid_depth] together with the log of the
    [zSetpoint] values handed to [requests.post], oldest first. *)
Record Store := {
  _last_valid_depth : option (Arith.F A);
  posted : list (Arith.F A)
}.

Definition initial : Store :=
  {| _last_valid_depth := None; posted := [] |}.

Definition post (reply : Reply) (z : Arith.F A) (lvd : option (Arith.F A))
    (s : Store) : bool * Store :=
  (match reply with Status code => Z.eqb code 200 | Raises => false end,
   {| _last_valid_depth := lvd; posted := posted s ++ [z] |}).

Definition send_z_command (cfg : config.settings (Arith.F A))
    (reply : Reply) (z_value : Arith.F A) (s : Store) : bool * Store :=
  let min_depth := config.min_depth cfg in
  let max_depth := config.max_depth cfg in
  if Arith.ltb A z_value min_depth || Arith.gtb A z_value max_depth then
    match _last_valid_depth s with
    | Some last => post reply last (Some last) s
    | None => (false, s)
    end
  else post reply z_value (Some z_value) s.

(** A sequence of calls, each with the reply its request will get. *)
Fixpoint send_all (cfg : config.settings (Arith.F A))
    (calls : list (Arith.F A * Reply)) (s : Store) : Store :=
  match calls with
  | [] => s
  | (z, reply) :: rest =>
      send_all cfg rest (snd (send_z_command cfg reply z s))
  end.

End Client.

Arguments _last_valid_depth {A} _.
Arguments posted {A} _.
Arguments Build_Store {A} _ _.

End Backseat.

(** ** [src/VS_controller.py] *)

Module Controller.

(** Safety states for depth control. *)
Inductive State := NORMAL | HOLD | ASCEND | WAIT | RETURN.

Definition State_eqb (a b : State) : bool :=
  match a, b with
  | NORMAL, NORMAL | HOLD, HOLD | ASCEND, ASCEND | WAIT, WAIT
  | RETURN, RETURN => true
  | _, _ => false
  end.

(** The attributes of a [DepthController] object.  [step_iterator] is the
    part of [transition_list] that [iter] has not handed out yet. *)
Record DepthController := {
  current_z : Q;
  end_z : Q;
  step : Q;
  end_z_reached : bool;
  target_step : Q;
  current_step : Q;
  max_angle_step : Q;
  trajectory_down : bool;
  altitude_threshold_level : Q;
  altitude_threshold_ascend : Q;
  wait_time : Q;
  command_depth : Q;
  state : State;
  state_start_time : option Q;
  _wait_from_ascend : bool;
  planned_z : Q;
  error_compensation_active : bool;
  original_target_step : Q;
  original_previous_step : Q;
  transition_list : list Q;
  step_iterator : list Q;
  step_transition_active : bool
}.

(** Attribute assignment [self.f = v], one function per assigned attribute. *)

Definition set_current_z (v : Q) (c : DepthController) : DepthController :=
  {| current_z := v; end_z := end_z c; step := step c;
     end_z_reached := end_z_reached c; target_step := target_step c;
     current_step := current_step c; max_angle_step := max_angle_step c;
     trajectory_down := trajectory_down c;
     altitude_threshold_level := altitude_threshold_level c;
     altitude_threshold_ascend := altitude_threshold_ascend c;
     wait_time := wait_time c; command_depth := command_depth c;
     state := state c; state_start_time := state_start_time c;
     _wait_from_ascend := _wait_from_ascend c; planned_z := planned_z c;
     error_compensation_active := error_compensation_active c;
     original_target_step := original_target_step c;
     original_previous_step := original_previous_step c;
     transition_list := transition_list c; step_iterator := step_iterator c;
     step_transition_active := step_transition_active c |}.

Definition set_end_z_reached (v : bool) (c : DepthController)
  : DepthController :=
  {| current_z := current_z c; end_z := end_z c; step := step c;
     end_z_reached := v; target_step := target_step c;
     current_step := current_step c; max_angle_step := max_angle_step c;
     trajectory_down := trajectory_down c;
     altitude_threshold_level := altitude_threshold_level c;
     altitude_threshold_ascend := altitude_threshold_ascend c;
     wait_time := wait_time c; command_depth := command_depth c;
     state := state c; state_start_time := state_start_time c;
     _wait_from_ascend := _wait_from_ascend c; planned_z := planned_z c;
     error_compensation_active := error_compensation_active c;
     original_target_step := original_target_step c;
     original_previous_step := original_previous_step c;
     transition_list := transition_list c; step_iterator := step_iterator c;
     step_transition_active := step_transition_active c |}.

Definition set_target_step (v : Q) (c : DepthController) : DepthController :=
  {| current_z := current_z c; end_z := end_z c; step := step c;
     end_z_reached := end_z_reached c; target_step := v;
     current_step := current_step c; max_angle_step := max_angle_step c;
     trajectory_down := trajectory_down c;
     altitude_threshold_level := altitude_threshold_level c;
     altitude_threshold_ascend := altitude_threshold_ascend c;
     wait_time := wait_time c; command_depth := command_depth c;
     state := state c; state_start_time := state_start_time c;
     _wait_from_ascend := _wait_from_ascend c; planned_z := planned_z c;
     error_compensation_active := error_compensation_active c;
     original_target_step := original_target_step c;
     original_previous_step := original_previous_step c;
     transition_list := transition_list c; step_iterator := step_iterator c;
     step_transition_active := step_transition_active c |}.

Definition set_current_step (v : Q) (c : DepthController) : DepthController :=
  {| current_z := current_z c; end_z := end_z c; step := step c;
     end_z_reached := end_z_reached c; target_step := target_step c;
     current_step := v; max_angle_step := max_angle_step c;
     trajectory_down := trajectory_down c;
     altitude_threshold_level := altitude_threshold_level c;
     altitude_threshold_ascend := altitude_threshold_ascend c;
     wait_time := wait_time c; command_depth := command_depth c;
     state := state c; state_start_time := state_start_time c;
     _wait_from_ascend := _wait_from_ascend c; planned_z := planned_z c;
     error_compensation_active := error_compensation_active c;
     original_target_step := original_target_step c;
     original_previous_step := original_previous_step c;
     transition_list := transition_list c; step_iterator := step_iterator c;
     step_transition_active := step_transition_active c |}.

Definition set_command_depth (v : Q) (c : DepthController) : DepthController :=
  {| current_z := current_z c; end_z := end_z c; step := step c;
     end_z_reached := end_z_reached c; target_step := target_step c;
     current_step := current_step c; max_angle_step := max_angle_step c;
     trajectory_down := trajectory_down c;
     altitude_threshold_level := altitude_threshold_level c;
     altitude_threshold_ascend := altitude_threshold_ascend c;
     wait_time := wait_time c; command_depth := v; state := state c;
     state_start_time := state_start_time c;
     _wait_from_ascend := _wait_from_ascend c; planned_z := planned_z c;
     error_compensation_active := error_compensation_active c;
     original_target_step := original_target_step c;
     original_previous_step := original_previous_step c;
     transition_list := transition_list c; step_iterator := step_iterator c;
     step_transition_active := step_transition_active c |}.

Definition set_state (v : State) (c : DepthController) : DepthController :=
  {| current_z := current_z c; end_z := end_z c; step := step c;
     end_z_reached := end_z_reached c; target_step := target_step c;
     current_step := current_step c; max_angle_step := max_angle_step c;
     trajectory_down := trajectory_down c;
     altitude_threshold_level := altitude_threshold_level c;
     altitude_threshold_ascend := altitude_threshold_ascend c;
     wait_time := wait_time c; command_depth := command_depth c; state := v;
     state_start_time := state_start_time c;
     _wait_from_ascend := _wait_from_ascend c; planned_z := planned_z c;
     error_compensation_active := error_compensation_active c;
     original_target_step := original_target_step c;
     original_previous_step := original_previous_step c;
     transition_list := transition_list c; step_iterator := step_iterator c;
     step_transition_active := step_transition_active c |}.

Definition set_state_start_time (v : option Q) (c : DepthController)
  : DepthController :=
  {| current_z := current_z c; end_z := end_z c; step := step c;
     end_z_reached := end_z_reached c; target_step := target_step c;
     current_step := current_step c; max_angle_step := max_angle_step c;
     trajectory_down := trajectory_down c;
     altitude_threshold_level := altitude_threshold_level c;
     altitude_threshold_ascend := altitude_threshold_ascend c;
     wait_time := wait_time c; command_depth := command_depth c;
     state := state c; state_start_time := v;
     _wait_from_ascend := _wait_from_ascend c; planned_z := planned_z c;
     error_compensation_active := error_compensation_active c;
     original_target_step := original_target_step c;
     original_previous_step := original_previous_step c;
     transition_list := transition_list c; step_iterator := step_iterator c;
     step_transition_active := step_transition_active c |}.

Definition set_wait_from_ascend (v : bool) (c : DepthController)
  : DepthController :=
  {| current_z := current_z c; end_z := end_z c; step := step c;
     end_z_reached := end_z_reached c; target_step := target_step c;
     current_step := current_step c; max_angle_step := max_angle_step c;
     trajectory_down := trajectory_down c;
     altitude_threshold_level := altitude_threshold_level c;
     altitude_threshold_ascend := altitude_threshold_ascend c;
     wait_time := wait_time c; command_depth := command_depth c;
     state := state c; state_start_time := state_start_time c;
     _wait_from_ascend := v; planned_z := planned_z c;
     error_compensation_active := error_compensation_active c;
     original_target_step := original_target_step c;
     original_previous_step := original_previous_step c;
     transition_list := transition_list c; step_iterator := step_iterator c;
     step_transition_active := step_transition_active c |}.

Definition set_error_compensation_active (v : bool) (c : DepthController)
  : DepthController :=
  {| current_z := current_z c; end_z := end_z c; step := step c;
     end_z_reached := end_z_reached c; target_step := target_step c;
     current_step := current_step c; max_angle_step := max_angle_step c;
     trajectory_down := trajectory_down c;
     altitude_threshold_level := altitude_threshold_level c;
     altitude_threshold_ascend := altitude_threshold_ascend c;
     wait_time := wait_time c; command_depth := command_depth c;
     state := state c; state_start_time := state_start_time c;
     _wait_from_ascend := _wait_from_ascend c; planned_z := planned_z c;
     error_compensation_active := v;
     original_target_step := original_target_step c;
     original_previous_step := original_previous_step c;
     transition_list := transition_list c; step_iterator := step_iterator c;
     step_transition_active := step_transition_active c |}.

Definition set_step_iterator (v : list Q) (c : DepthController)
  : DepthController :=
  {| current_z := current_z c; end_z := end_z c; step := step c;
     end_z_reached := end_z_reached c; target_step := target_step c;
     current_step := current_step c; max_angle_step := max_angle_step c;
     trajectory_down := trajectory_down c;
     altitude_threshold_level := altitude_threshold_level c;
     altitude_threshold_ascend := altitude_threshold_ascend c;
     wait_time := wait_time c; command_depth := command_depth c;
     state := state c; state_start_time := state_start_time c;
     _wait_from_ascend := _wait_from_ascend c; planned_z := planned_z c;
     error_compensation_active := error_compensation_active c;
     original_target_step := original_target_step c;
     original_previous_step := original_previous_step c;
     transition_list := transition_list c; step_iterator := v;
     step_transition_active := step_transition_active c |}.

Definition set_step_transition_active (v : bool) (c : DepthController)
  : DepthController :=
  {| current_z := current_z c; end_z := end_z c; step := step c;
     end_z_reached := end_z_reached c; target_step := target_step c;
     current_step := current_step c; max_angle_step := max_angle_step c;
     trajectory_down := trajectory_down c;
     altitude_threshold_level := altitude_threshold_level c;
     altitude_threshold_ascend := altitude_threshold_ascend c;
     wait_time := wait_time c; command_depth := command_depth c;
     state := state c; state_start_time := state_start_time c;
     _wait_from_ascend := _wait_from_ascend c; planned_z := planned_z c;
     error_compensation_active := error_compensation_active c;
     original_target_step := original_target_step c;
     original_previous_step := original_previous_step c;
     transition_list := transition_list c; step_iterator := step_iterator c;
     step_transition_active := v |}.

(** [numpy.linspace(start, stop, num)] with its default [endpoint=True]:
    [num] evenly spaced samples, the first being [0 * step + start] and, when
    there are at least two, the last being [stop] itself. *)
Definition linspace (start stop : Q) (num : nat) : list Q :=
  match num with
  | O => []
  | S O => [start]
  | S div =>
      let step := (stop - start) / inject_Z (Z.of_nat div) in
      map (fun i => inject_Z (Z.of_nat i) * step + start) (seq 0 div)
        ++ [stop]
  end.

(** Python's [sum]: starts from [0] and adds the items from the left. *)
Definition sum (l : list Q) : Q := fold_left Qplus l 0.

(** Python's two-argument [min] and [max]: the first argument wins ties. *)
Definition min (a b : Q) : Q := if Qltb b a then b else a.
Definition max (a b : Q) : Q := if Qgtb b a then b else a.

Definition __init__ (cfg : config.t) (start_z end_z step max_angle_step : Q)
    (trajectory_down : bool) (previous_step : Q) : DepthController :=
  let transition_list :=
    linspace previous_step step (config.transition_time cfg) in
  {| current_z := start_z;
     end_z := end_z;
     step := step;
     end_z_reached := false;
     target_step := step;
     current_step := previous_step;
     max_angle_step := max_angle_step;
     trajectory_down := trajectory_down;
     altitude_threshold_level := config.altitude_threshold_level cfg;
     altitude_threshold_ascend := config.altitude_threshold_ascend cfg;
     wait_time := config.wait_time cfg;
     command_depth := start_z;
     state := NORMAL;
     state_start_time := None;
     _wait_from_ascend := false;
     planned_z := start_z;
     error_compensation_active := false;
     original_target_step := step;
     original_previous_step := previous_step;
     transition_list := transition_list;
     step_iterator := transition_list;
     step_transition_active := negb (Qeq_bool previous_step step) |}.

Definition _calculate_error_compensation (c : DepthController)
  : DepthController :=
  let smoothed_movement := sum (transition_list c) in
  let linear_movement :=
    original_target_step c
    * inject_Z (Z.of_nat (List.length (transition_list c))) in
  let accumulated_error := linear_movement - smoothed_movement in
  let total_trajectory := end_z c - planned_z c in
  let remaining_trajectory := total_trajectory - linear_movement in
  if Qgtb (Qabs remaining_trajectory) 0
     && Qgtb (Qabs (original_target_step c)) 0 then
    let remaining_steps :=
      Qceiling (Qabs (remaining_trajectory / original_target_step c)) in
    if (remaining_steps >? 0)%Z then
      let error_compensation_per_step :=
        accumulated_error / inject_Z remaining_steps in
      let c1 :=
        set_current_step
          (original_target_step c + error_compensation_per_step) c in
      let c2 := set_target_step (current_step c1) c1 in
      set_error_compensation_active true c2
    else set_current_step (original_target_step c) c
  else set_current_step (original_target_step c) c.

(** [next(self.step_iterator)] either hands out the head of what is left or
    raises [StopIteration]. *)
Definition _update_step_transition (c : DepthController) : DepthController :=
  if negb (step_transition_active c) then c
  else
    match step_iterator c with
    | x :: rest => set_current_step x (set_step_iterator rest c)
    | [] => _calculate_error_compensation (set_step_transition_active false c)
    end.

Definition _on_enter_state (now : Q) (st from_state : State)
    (c : DepthController) : DepthController :=
  match st with
  | ASCEND => set_command_depth (current_z c) (set_state_start_time None c)
  | HOLD => set_state_start_time None c
  | WAIT =>
      set_wait_from_ascend (State_eqb from_state ASCEND)
        (set_state_start_time (Some now) c)
  | RETURN => c
  | NORMAL => set_state_start_time None c
  end.

Definition _set_state (now : Q) (new_state : State) (c : DepthController)
  : DepthController :=
  if State_eqb (state c) new_state then c
  else
    let old_state := state c in
    _on_enter_state now new_state old_state (set_state new_state c).

Definition _wait_finished (now : Q) (c : DepthController) : bool :=
  match state_start_time c with
  | None => false
  | Some t0 => let elapsed := now - t0 in Qgeb elapsed (wait_time c)
  end.

Definition _return_caught_vs (c : DepthController) : bool :=
  Qgeb (command_depth c) (current_z c).

Definition _handle_transitions (now : Q) (altitude : option Q)
    (c : DepthController) : DepthController :=
  match altitude with
  | None =>
      if negb (State_eqb (state c) NORMAL) then _set_state now NORMAL c else c
  | Some altitude =>
      if Qltb altitude (altitude_threshold_ascend c) then
        _set_state now ASCEND c
      else if trajectory_down c && Qltb altitude (altitude_threshold_level c)
      then _set_state now HOLD c
      else
        match state c with
        | ASCEND => _set_state now WAIT c
        | HOLD => _set_state now WAIT c
        | WAIT => if _wait_finished now c then _set_state now RETURN c else c
        | RETURN =>
            if _return_caught_vs c then _set_state now NORMAL c else c
        | NORMAL => c
        end
  end.

Definition _clamp_depth (cfg : config.t) (depth : Q) : Q :=
  max (config.min_depth cfg) (min depth (config.max_depth cfg)).

(** The state bodies return the controller together with the depth they
    pass to [_send_command]; its boolean result is never looked at. *)
Definition _state_normal (c : DepthController) : DepthController * Q :=
  let '(c1, command_z) :=
    if end_z_reached c then (c, end_z c)
    else
      let next_z := current_z c + current_step c in
      if trajectory_down c then
        if Qgeb next_z (end_z c) then
          (set_end_z_reached true (set_current_z (end_z c) c), end_z c)
        else (c, current_z c)
      else
        if Qleb next_z (end_z c) then
          (set_end_z_reached true (set_current_z (end_z c) c), end_z c)
        else (c, current_z c) in
  (set_command_depth command_z c1, command_z).

Definition _state_hold (c : DepthController) : DepthController * Q :=
  (c, command_depth c).

Definition _state_ascend (cfg : config.t) (c : DepthController)
  : DepthController * Q :=
  let c1 := set_command_depth (command_depth c - max_angle_step c) c in
  let c2 := set_command_depth (_clamp_depth cfg (command_depth c1)) c1 in
  (c2, command_depth c2).

Definition _state_wait (cfg : config.t) (c : DepthController)
  : DepthController * Q :=
  let c2 :=
    if _wait_from_ascend c then
      let c1 := set_command_depth (command_depth c - max_angle_step c) c in
      set_command_depth (_clamp_depth cfg (command_depth c1)) c1
    else c in
  (c2, command_depth c2).

Definition _state_return (cfg : config.t) (now : Q) (c : DepthController)
  : DepthController * Q :=
  if trajectory_down c then
    let next_return_depth := command_depth c + max_angle_step c in
    let next_return_depth := _clamp_depth cfg next_return_depth in
    if Qgeb next_return_depth (current_z c) then
      let c1 := set_command_depth (current_z c) c in (c1, command_depth c1)
    else
      let c1 := set_command_depth next_return_depth c in
      (c1, command_depth c1)
  else
    let sent := command_depth c in
    (if Qleb (current_z c) (command_depth c) then _set_state now NORMAL c
     else c, sent).

Definition _execute_current_state (cfg : config.t) (now : Q)
    (c : DepthController) : DepthController * Q :=
  match state c with
  | NORMAL => _state_normal c
  | HOLD => _state_hold c
  | ASCEND => _state_ascend cfg c
  | WAIT => _state_wait cfg c
  | RETURN => _state_return cfg now c
  end.

(** [background] only selects a log line. *)
Definition _advance_vs (c : DepthController) : DepthController :=
  if end_z_reached c then c
  else
    let end_reached :=
      if trajectory_down c then Qgeb (current_z c) (end_z c)
      else Qleb (current_z c) (end_z c) in
    if end_reached then set_end_z_reached true (set_current_z (end_z c) c)
    else set_current_z (current_z c + current_step c) c.

(** One tick.  The result pairs the controller after the tick with the depth
    sent during it; the boolean that the method returns is [end_z_reached] of
    the controller after the tick. *)
Definition update (cfg : config.t) (now : Q) (altitude : option Q)
    (c : DepthController) : DepthController * Q :=
  let c1 := _update_step_transition c in
  let c2 := _handle_transitions now altitude c1 in
  let active_state := state c2 in
  let '(c3, sent) := _execute_current_state cfg now c2 in
  let c4 := _advance_vs c3 in
  let c5 :=
    if State_eqb active_state RETURN && negb (trajectory_down c4) then
      if Qleb (current_z c4) (command_depth c4) then _set_state now NORMAL c4
      else c4
    else c4 in
  (c5, sent).

(** The controller after [n] ticks; tick [k] (counted from 0) reads the clock
    value [nows k] and the altitude [alts k]. *)
Fixpoint run (cfg : config.t) (nows : nat -> Q) (alts : nat -> option Q)
    (n : nat) (c : DepthController) : DepthController :=
  match n with
  | O => c
  | S k => fst (update cfg (nows k) (alts k) (run cfg nows alts k c))
  end.

(** The depth sent during tick [k]. *)
Definition sent_at (cfg : config.t) (nows : nat -> Q) (alts : nat -> option Q)
    (k : nat) (c : DepthController) : Q :=
  snd (update cfg (nows k) (alts k) (run cfg nows alts k c)).

End Controller.

(** ** [src/VS_controller.py] in the arithmetic of the machine *)

Module Float.

Import Controller.

Section Ticks.

Variable A : Arith.t.

Local Abbreviation F := (Arith.F A).
Local Abbreviation zero := (Arith.of_Z A 0).

(** The attributes of a [DepthController] object.  [step_iterator] is the
    part of [transition_list] that [iter] has not handed out yet. *)
Record DepthController := {
  current_z : F;
  end_z : F;
  step : F;
  end_z_reached : bool;
  target_step : F;
  current_step : F;
  max_angle_step : F;
  trajectory_down : bool;
  altitude_threshold_level : F;
  altitude_threshold_ascend : F;
  wait_time : F;
  command_depth : F;
  state : State;
  state_start_time : option F;
  _wait_from_ascend : bool;
  planned_z : F;
  error_compensation_active : bool;
  original_target_step : F;
  original_previous_step : F;
  transition_list : list F;
  step_iterator : list F;
  step_transition_active : bool
}.

(** Attribute assignment [self.f = v], one function per assigned attribute. *)

Definition set_current_z (v : F) (c : DepthController) : DepthController :=
  {| current_z := v; end_z := end_z c; step := step c;
     end_z_reached := end_z_reached c; target_step := target_step c;
     current_step := current_step c; max_angle_step := max_angle_step c;
     trajectory_down := trajectory_down c;
     altitude_threshold_level := altitude_threshold_level c;
     altitude_threshold_ascend := altitude_threshold_ascend c;
     wait_time := wait_time c; command_depth := command_depth c;
     state := state c; state_start_time := state_start_time c;
     _wait_from_ascend := _wait_from_ascend c; planned_z := planned_z c;
     error_compensation_active := error_compensation_active c;
     original_target_step := original_target_step c;
     original_previous_step := original_previous_step c;
     transition_list := transition_list c; step_iterator := step_iterator c;
     step_transition_active := step_transition_active c |}.

Definition set_end_z_reached (v : bool) (c : DepthController)
  : DepthController :=
  {| current_z := current_z c; end_z := end_z c; step := step c;
     end_z_reached := v; target_step := target_step c;
     current_step := current_step c; max_angle_step := max_angle_step c;
     trajectory_down := trajectory_down c;
     altitude_threshold_level := altitude_threshold_level c;
     altitude_threshold_ascend := altitude_threshold_ascend c;
     wait_time := wait_time c; command_depth := command_depth c;
     state := state c; state_start_time := state_start_time c;
     _wait_from_ascend := _wait_from_ascend c; planned_z := planned_z c;
     error_compensation_active := error_compensation_active c;
     original_target_step := original_target_step c;
     original_previous_step := original_previous_step c;
     transition_list := transition_list c; step_iterator := step_iterator c;
     step_transition_active := step_transition_active c |}.

Definition set_target_step (v : F) (c : DepthController) : DepthController :=
  {| current_z := current_z c; end_z := end_z c; step := step c;
     end_z_reached := end_z_reached c; target_step := v;
     current_step := current_step c; max_angle_step := max_angle_step c;
     trajectory_down := trajectory_down c;
     altitude_threshold_level := altitude_threshold_level c;
     altitude_threshold_ascend := altitude_threshold_ascend c;
     wait_time := wait_time c; command_depth := command_depth c;
     state := state c; state_start_time := state_start_time c;
     _wait_from_ascend := _wait_from_ascend c; planned_z := planned_z c;
     error_compensation_active := error_compensation_active c;
     original_target_step := original_target_step c;
     original_previous_step := original_previous_step c;
     transition_list := transition_list c; step_iterator := step_iterator c;
     step_transition_active := step_transition_active c |}.

Definition set_current_step (v : F) (c : DepthController) : DepthController :=
  {| current_z := current_z c; end_z := end_z c; step := step c;
     end_z_reached := end_z_reached c; target_step := target_step c;
     current_step := v; max_angle_step := max_angle_step c;
     trajectory_down := trajectory_down c;
     altitude_threshold_level := altitude_threshold_level c;
     altitude_threshold_ascend := altitude_threshold_ascend c;
     wait_time := wait_time c; command_depth := command_depth c;
     state := state c; state_start_time := state_start_time c;
     _wait_from_ascend := _wait_from_ascend c; planned_z := planned_z c;
     error_compensation_active := error_compensation_active c;
     original_target_step := original_target_step c;
     original_previous_step := original_previous_step c;
     transition_list := transition_list c; step_iterator := step_iterator c;
     step_transition_active := step_transition_active c |}.

Definition set_command_depth (v : F) (c : DepthController) : DepthController :=
  {| current_z := current_z c; end_z := end_z c; step := step c;
     end_z_reached := end_z_reached c; target_step := target_step c;
     current_step := current_step c; max_angle_step := max_angle_step c;
     trajectory_down := trajectory_down c;
     altitude_threshold_level := altitude_threshold_level c;
     altitude_threshold_ascend := altitude_threshold_ascend c;
     wait_time := wait_time c; command_depth := v; state := state c;
     state_start_time := state_start_time c;
     _wait_from_ascend := _wait_from_ascend c; planned_z := planned_z c;
     error_compensation_active := error_compensation_active c;
     original_target_step := original_target_step c;
     original_previous_step := original_previous_step c;
     transition_list := transition_list c; step_iterator := step_iterator c;
     step_transition_active := step_transition_active c |}.

Definition set_state (v : State) (c : DepthController) : DepthController :=
  {| current_z := current_z c; end_z := end_z c; step := step c;
     end_z_reached := end_z_reached c; target_step := target_step c;
     current_step := current_step c; max_angle_step := max_angle_step c;
     trajectory_down := trajectory_down c;
     altitude_threshold_level := altitude_threshold_level c;
     altitude_threshold_ascend := altitude_threshold_ascend c;
     wait_time := wait_time c; command_depth := command_depth c; state := v;
     state_start_time := state_start_time c;
     _wait_from_ascend := _wait_from_ascend c; planned_z := planned_z c;
     error_compensation_active := error_compensation_active c;
     original_target_step := original_target_step c;
     original_previous_step := original_previous_step c;
     transition_list := transition_list c; step_iterator := step_iterator c;
     step_transition_active := step_transition_active c |}.

Definition set_state_start_time (v : option F) (c : DepthController)
  : DepthController :=
  {| current_z := current_z c; end_z := end_z c; step := step c;
     end_z_reached := end_z_reached c; target_step := target_step c;
     current_step := current_step c; max_angle_step := max_angle_step c;
     trajectory_down := trajectory_down c;
     altitude_threshold_level := altitude_threshold_level c;
     altitude_threshold_ascend := altitude_threshold_ascend c;
     wait_time := wait_time c; command_depth := command_depth c;
     state := state c; state_start_time := v;
     _wait_from_ascend := _wait_from_ascend c; planned_z := planned_z c;
     error_compensation_active := error_compensation_active c;
     original_target_step := original_target_step c;
     original_previous_step := original_previous_step c;
     transition_list := transition_list c; step_iterator := step_iterator c;
     step_transition_active := step_transition_active c |}.

Definition set_wait_from_ascend (v : bool) (c : DepthController)
  : DepthController :=
  {| current_z := current_z c; end_z := end_z c; step := step c;
     end_z_reached := end_z_reached c; target_step := target_step c;
     current_step := current_step c; max_angle_step := max_angle_step c;
     trajectory_down := trajectory_down c;
     altitude_threshold_level := altitude_threshold_level c;
     altitude_threshold_ascend := altitude_threshold_ascend c;
     wait_time := wait_time c; command_depth := command_depth c;
     state := state c; state_start_time := state_start_time c;
     _wait_from_ascend := v; planned_z := planned_z c;
     error_compensation_active := error_compensation_active c;
     original_target_step := original_target_step c;
     original_previous_step := original_previous_step c;
     transition_list := transition_list c; step_iterator := step_iterator c;
     step_transition_active := step_transition_active c |}.

Definition set_error_compensation_active (v : bool) (c : DepthController)
  : DepthController :=
  {| current_z := current_z c; end_z := end_z c; step := step c;
     end_z_reached := end_z_reached c; target_step := target_step c;
     current_step := current_step c; max_angle_step := max_angle_step c;
     trajectory_down := trajectory_down c;
     altitude_threshold_level := altitude_threshold_level c;
     altitude_threshold_ascend := altitude_threshold_ascend c;
     wait_time := wait_time c; command_depth := command_depth c;
     state := state c; state_start_time := state_start_time c;
     _wait_from_ascend := _wait_from_ascend c; planned_z := planned_z c;
     error_compensation_active := v;
     original_target_step := original_target_step c;
     original_previous_step := original_previous_step c;
     transition_list := transition_list c; step_iterator := step_iterator c;
     step_transition_active := step_transition_active c |}.

Definition set_step_iterator (v : list F) (c : DepthController)
  : DepthController :=
  {| current_z := current_z c; end_z := end_z c; step := step c;
     end_z_reached := end_z_reached c; target_step := target_step c;
     current_step := current_step c; max_angle_step := max_angle_step c;
     trajectory_down := trajectory_down c;
     altitude_threshold_level := altitude_threshold_level c;
     altitude_threshold_ascend := altitude_threshold_ascend c;
     wait_time := wait_time c; command_depth := command_depth c;
     state := state c; state_start_time := state_start_time c;
     _wait_from_ascend := _wait_from_ascend c; planned_z := planned_z c;
     error_compensation_active := error_compensation_active c;
     original_target_step := original_target_step c;
     original_previous_step := original_previous_step c;
     transition_list := transition_list c; step_iterator := v;
     step_transition_active := step_transition_active c |}.

Definition set_step_transition_active (v : bool) (c : DepthController)
  : DepthController :=
  {| current_z := current_z c; end_z := end_z c; step := step c;
     end_z_reached := end_z_reached c; target_step := target_step c;
     current_step := current_step c; max_angle_step := max_angle_step c;
     trajectory_down := trajectory_down c;
     altitude_threshold_level := altitude_threshold_level c;
     altitude_threshold_ascend := altitude_threshold_ascend c;
     wait_time := wait_time c; command_depth := command_depth c;
     state := state c; state_start_time := state_start_time c;
     _wait_from_ascend := _wait_from_ascend c; planned_z := planned_z c;
     error_compensation_active := error_compensation_active c;
     original_target_step := original_target_step c;
     original_previous_step := original_previous_step c;
     transition_list := transition_list c; step_iterator := step_iterator c;
     step_transition_active := v |}.

(** [numpy.linspace(start, stop, num)] with its default [endpoint=True],
    operation by operation: the samples are [i * step + start] with
    [step = (stop - start) / (num - 1)], or [(i / (num - 1)) * (stop -
    start) + start] when that step is zero; the single sample of [num = 1]
    is [0 * (stop - start) + start]; with two samples or more the last one
    is replaced by [stop]. *)
Definition linspace (start stop : F) (num : nat) : list F :=
  let delta := Arith.sub A stop start in
  let index (i : nat) : F := Arith.of_Z A (Z.of_nat i) in
  match num with
  | O => []
  | S O => [Arith.add A (Arith.mul A (index 0%nat) delta) start]
  | S div =>
      let step := Arith.div A delta (index div) in
      let sample (i : nat) : F :=
        if Arith.eqb A step zero
        then Arith.add A
               (Arith.mul A (Arith.div A (index i) (index div)) delta) start
        else Arith.add A (Arith.mul A (index i) step) start in
      map sample (seq 0 div) ++ [stop]
  end.

(** Python's [sum]: starts from the [int] [0] and adds the items from the
    left. *)
Definition sum (l : list F) : F := fold_left (Arith.add A) l zero.

Definition __init__ (cfg : config.settings F)
    (start_z end_z step max_angle_step : F) (trajectory_down : bool)
    (previous_step : F) : DepthController :=
  let transition_list :=
    linspace previous_step step (config.transition_time cfg) in
  {| current_z := start_z;
     end_z := end_z;
     step := step;
     end_z_reached := false;
     target_step := step;
     current_step := previous_step;
     max_angle_step := max_angle_step;
     trajectory_down := trajectory_down;
     altitude_threshold_level := config.altitude_threshold_level cfg;
     altitude_threshold_ascend := config.altitude_threshold_ascend cfg;
     wait_time := config.wait_time cfg;
     command_depth := start_z;
     state := NORMAL;
     state_start_time := None;
     _wait_from_ascend := false;
     planned_z := start_z;
     error_compensation_active := false;
     original_target_step := step;
     original_previous_step := previous_step;
     transition_list := transition_list;
     step_iterator := transition_list;
     step_transition_active := negb (Arith.eqb A previous_step step) |}.

(** [None] stands for the exception of [math.ceil]: the method has
    assigned nothing when it is raised. *)
Definition _calculate_error_compensation (c : DepthController)
  : option DepthController :=
  let smoothed_movement := sum (transition_list c) in
  let linear_movement :=
    Arith.mul A (original_target_step c)
      (Arith.of_Z A (Z.of_nat (List.length (transition_list c)))) in
  let accumulated_error := Arith.sub A linear_movement smoothed_movement in
  let total_trajectory := Arith.sub A (end_z c) (planned_z c) in
  let remaining_trajectory :=
    Arith.sub A total_trajectory linear_movement in
  if Arith.gtb A (Arith.abs A remaining_trajectory) zero
     && Arith.gtb A (Arith.abs A (original_target_step c)) zero then
    match
      Arith.ceil A
        (Arith.abs A
           (Arith.div A remaining_trajectory (original_target_step c)))
    with
    | None => None
    | Some remaining_steps =>
        if (remaining_steps >? 0)%Z then
          let error_compensation_per_step :=
            Arith.div A accumulated_error (Arith.of_Z A remaining_steps) in
          let c1 :=
            set_current_step
              (Arith.add A (original_target_step c)
                 error_compensation_per_step) c in
          let c2 := set_target_step (current_step c1) c1 in
          Some (set_error_compensation_active true c2)
        else Some (set_current_step (original_target_step c) c)
    end
  else Some (set_current_step (original_target_step c) c).

(** [next(self.step_iterator)] either hands out the head of what is left or
    raises [StopIteration]. *)
Definition _update_step_transition (c : DepthController)
  : option DepthController :=
  if negb (step_transition_active c) then Some c
  else
    match step_iterator c with
    | x :: rest => Some (set_current_step x (set_step_iterator rest c))
    | [] => _calculate_error_compensation (set_step_transition_active false c)
    end.

Definition _on_enter_state (now : F) (st from_state : State)
    (c : DepthController) : DepthController :=
  match st with
  | ASCEND => set_command_depth (current_z c) (set_state_start_time None c)
  | HOLD => set_state_start_time None c
  | WAIT =>
      set_wait_from_ascend (State_eqb from_state ASCEND)
        (set_state_start_time (Some now) c)
  | RETURN => c
  | NORMAL => set_state_start_time None c
  end.

Definition _set_state (now : F) (new_state : State) (c : DepthController)
  : DepthController :=
  if State_eqb (state c) new_state then c
  else
    let old_state := state c in
    _on_enter_state now new_state old_state (set_state new_state c).

Definition _wait_finished (now : F) (c : DepthController) : bool :=
  match state_start_time c with
  | None => false
  | Some t0 =>
      let elapsed := Arith.sub A now t0 in Arith.geb A elapsed (wait_time c)
  end.

Definition _return_caught_vs (c : DepthController) : bool :=
  Arith.geb A (command_depth c) (current_z c).

Definition _handle_transitions (now : F) (altitude : option F)
    (c : DepthController) : DepthController :=
  match altitude with
  | None =>
      if negb (State_eqb (state c) NORMAL) then _set_state now NORMAL c else c
  | Some altitude =>
      if Arith.ltb A altitude (altitude_threshold_ascend c) then
        _set_state now ASCEND c
      else if trajectory_down c
              && Arith.ltb A altitude (altitude_threshold_level c)
      then _set_state now HOLD c
      else
        match state c with
        | ASCEND => _set_state now WAIT c
        | HOLD => _set_state now WAIT c
        | WAIT => if _wait_finished now c then _set_state now RETURN c else c
        | RETURN =>
            if _return_caught_vs c then _set_state now NORMAL c else c
        | NORMAL => c
        end
  end.

Definition _clamp_depth (cfg : config.settings F) (depth : F) : F :=
  Arith.max A (config.min_depth cfg)
    (Arith.min A depth (config.max_depth cfg)).

(** The state bodies return the controller together with the depth they
    pass to [_send_command]; its boolean result is never looked at. *)
Definition _state_normal (c : DepthController) : DepthController * F :=
  let '(c1, command_z) :=
    if end_z_reached c then (c, end_z c)
    else
      let next_z := Arith.add A (current_z c) (current_step c) in
      if trajectory_down c then
        if Arith.geb A next_z (end_z c) then
          (set_end_z_reached true (set_current_z (end_z c) c), end_z c)
        else (c, current_z c)
      else
        if Arith.leb A next_z (end_z c) then
          (set_end_z_reached true (set_current_z (end_z c) c), end_z c)
        else (c, current_z c) in
  (set_command_depth command_z c1, command_z).

Definition _state_hold (c : DepthController) : DepthController * F :=
  (c, command_depth c).

Definition _state_ascend (cfg : config.settings F) (c : DepthController)
  : DepthController * F :=
  let c1 :=
    set_command_depth (Arith.sub A (command_depth c) (max_angle_step c)) c in
  let c2 := set_command_depth (_clamp_depth cfg (command_depth c1)) c1 in
  (c2, command_depth c2).

Definition _state_wait (cfg : config.settings F) (c : DepthController)
  : DepthController * F :=
  let c2 :=
    if _wait_from_ascend c then
      let c1 :=
        set_command_depth
          (Arith.sub A (command_depth c) (max_angle_step c)) c in
      set_command_depth (_clamp_depth cfg (command_depth c1)) c1
    else c in
  (c2, command_depth c2).

Definition _state_return (cfg : config.settings F) (now : F)
    (c : DepthController) : DepthController * F :=
  if trajectory_down c then
    let next_return_depth :=
      Arith.add A (command_depth c) (max_angle_step c) in
    let next_return_depth := _clamp_depth cfg next_return_depth in
    if Arith.geb A next_return_depth (current_z c) then
      let c1 := set_command_depth (current_z c) c in (c1, command_depth c1)
    else
      let c1 := set_command_depth next_return_depth c in
      (c1, command_depth c1)
  else
    let sent := command_depth c in
    (if Arith.leb A (current_z c) (command_depth c)
     then _set_state now NORMAL c
     else c, sent).

Definition _execute_current_state (cfg : config.settings F) (now : F)
    (c : DepthController) : DepthController * F :=
  match state c with
  | NORMAL => _state_normal c
  | HOLD => _state_hold c
  | ASCEND => _state_ascend cfg c
  | WAIT => _state_wait cfg c
  | RETURN => _state_return cfg now c
  end.

(** [background] only selects a log line. *)
Definition _advance_vs (c : DepthController) : DepthController :=
  if end_z_reached c then c
  else
    let end_reached :=
      if trajectory_down c then Arith.geb A (current_z c) (end_z c)
      else Arith.leb A (current_z c) (end_z c) in
    if end_reached then set_end_z_reached true (set_current_z (end_z c) c)
    else set_current_z (Arith.add A (current_z c) (current_step c)) c.

(** One tick.  The result pairs the controller after the tick with the depth
    sent during it; [None] when the tick raises.  The boolean that the
    method returns is [end_z_reached] of the controller after the tick. *)
Definition update (cfg : config.settings F) (now : F) (altitude : option F)
    (c : DepthController) : option (DepthController * F) :=
  match _update_step_transition c with
  | None => None
  | Some c1 =>
      let c2 := _handle_transitions now altitude c1 in
      let active_state := state c2 in
      let '(c3, sent) := _execute_current_state cfg now c2 in
      let c4 := _advance_vs c3 in
      let c5 :=
        if State_eqb active_state RETURN && negb (trajectory_down c4) then
          if Arith.leb A (current_z c4) (command_depth c4)
          then _set_state now NORMAL c4
          else c4
        else c4 in
      Some (c5, sent)
  end.

(** The controller after [n] ticks; tick [k] (counted from 0) reads the clock
    value [nows k] and the altitude [alts k].  A tick that raises ends the
    loop: [None] from then on. *)
Fixpoint run (cfg : config.settings F) (nows : nat -> F)
    (alts : nat -> option F) (n : nat) (c : DepthController)
  : option DepthController :=
  match n with
  | O => Some c
  | S k =>
      match run cfg nows alts k c with
      | None => None
      | Some ck => option_map fst (update cfg (nows k) (alts k) ck)
      end
  end.

End Ticks.

Arguments current_z {A} _.
Arguments end_z {A} _.
Arguments step {A} _.
Arguments end_z_reached {A} _.
Arguments target_step {A} _.
Arguments current_step {A} _.
Arguments max_angle_step {A} _.
Arguments trajectory_down {A} _.
Arguments altitude_threshold_level {A} _.
Arguments altitude_threshold_ascend {A} _.
Arguments wait_time {A} _.
Arguments command_depth {A} _.
Arguments state {A} _.
Arguments state_start_time {A} _.
Arguments _wait_from_ascend {A} _.
Arguments planned_z {A} _.
Arguments error_compensation_active {A} _.
Arguments original_target_step {A} _.
Arguments original_previous_step {A} _.
Arguments transition_list {A} _.
Arguments step_iterator {A} _.
Arguments step_transition_active {A} _.
Arguments set_current_z {A} _ _.
Arguments set_end_z_reached {A} _ _.
Arguments set_target_step {A} _ _.
Arguments set_current_step {A} _ _.
Arguments set_command_depth {A} _ _.
Arguments set_state {A} _ _.
Arguments set_state_start_time {A} _ _.
Arguments set_wait_from_ascend {A} _ _.
Arguments set_error_compensation_active {A} _ _.
Arguments set_step_iterator {A} _ _.
Arguments set_step_transition_active {A} _ _.

End Float.

(** ** [main.py] and the step memory of [src/phase_manager.py] *)

Module Main.

Import Controller.

(** Of the phase manager only the attribute that [get_last_step] and
    [set_last_step] touch takes part in the hand-over of the step. *)
Record PhaseManager := { last_step : Q }.

Definition get_last_step (m : PhaseManager) : Q := last_step m.
Definition set_last_step (step : Q) (m : PhaseManager) : PhaseManager :=
  {| last_step := step |}.

(** A float division by zero raises [ZeroDivisionError]: [None]. *)
Definition calculate_step (cfg : config.t) (start_z end_z speed distance : Q)
  : option Q :=
  let period := config.command_period cfg in
  if Qeq_bool distance 0 then None
  else Some ((((end_z - start_z) * speed) / distance) * period).

(** The subphase parameters the loop computes with.  The distance comes from
    [calculate_distance_meters] on the four coordinates and
    [max_angle_step] from a sine; both are taken as given. *)
Record Subphase := {
  START_Z : Q;
  END_Z : Q;
  SPEED : Q;
  distance : Q;
  angle_step : Q
}.

(** How the [while True] loop is left: neither [except] clause swallows its
    exception, so the loop has no other exit. *)
Inductive Exit := CancelledError | Error.

Inductive Outcome :=
| RaisedBeforeTry (manager : option PhaseManager)
| Raised (e : Exit) (manager : option PhaseManager)
         (controller : DepthController).

(** The controller after the loop body has run once per element of
    [ticks], each giving the clock value and the altitude of its tick. *)
Definition loop_body (cfg : config.t) (ticks : list (Q * option Q))
    (controller : DepthController) : DepthController :=
  fold_left (fun c tick => fst (update cfg (fst tick) (snd tick) c))
            ticks controller.

(** [virtual_slope_loop]: [ticks] are the iterations completed before the
    exception [e] arrives at one of the loop's suspension points. *)
Definition virtual_slope_loop (cfg : config.t) (subphase_data : Subphase)
    (previous_step : Q) (manager : option PhaseManager)
    (ticks : list (Q * option Q)) (e : Exit) : Outcome :=
  let end_z := END_Z subphase_data in
  let speed := SPEED subphase_data in
  let start_z := START_Z subphase_data in
  match calculate_step cfg start_z end_z speed (distance subphase_data) with
  | None => RaisedBeforeTry manager
  | Some step =>
      let max_angle_step := angle_step subphase_data in
      let trajectory_down := Qgtb end_z start_z in
      let controller :=
        __init__ cfg start_z end_z step max_angle_step trajectory_down
                 previous_step in
      let controller := loop_body cfg ticks controller in
      (* finally: *)
      let manager :=
        match manager with
        | Some m => Some (set_last_step (current_step controller) m)
        | None => None
        end in
      match e with
      | CancelledError => Raised CancelledError manager controller
      | Error => Raised Error manager controller
      end
  end.

End Main.

(** ** [src/DesBridge_api.py] *)

Module DesBridge.

Local Open Scope string_scope.
Local Open Scope char_scope.
Local Open Scope nat_scope.

(** *** The string methods the parser calls *)

(** [sep in s] for a one-character [sep]. *)
Fixpoint contains (sep : ascii) (s : string) : bool :=
  match s with
  | EmptyString => false
  | String ch rest => Ascii.eqb ch sep || contains sep rest
  end.

(** [s.split(sep)] for a one-character [sep]: never empty, and one piece
    longer than the number of separators. *)
Fixpoint split (sep : ascii) (s : string) : list string :=
  match s with
  | EmptyString => [EmptyString]
  | String ch rest =>
      if Ascii.eqb ch sep then EmptyString :: split sep rest
      else
        match split sep rest with
        | piece :: pieces => String ch piece :: pieces
        | [] => [String ch EmptyString]
        end
  end.

Definition upper_char (ch : ascii) : ascii :=
  let n := nat_of_ascii ch in
  if (97 <=? n)%nat && (n <=? 122)%nat then ascii_of_nat (n - 32) else ch.

(** [s.upper()]; the receive loop decodes as ASCII, so only the letters
    [a] to [z] change. *)
Fixpoint upper (s : string) : string :=
  match s with
  | EmptyString => EmptyString
  | String ch rest => String (upper_char ch) (upper rest)
  end.

(** The characters [str.strip()] removes: tab to carriage return, the four
    separators 28 to 31, and the space. *)
Definition is_space (ch : ascii) : bool :=
  let n := nat_of_ascii ch in
  ((9 <=? n)%nat && (n <=? 13)%nat) || ((28 <=? n)%nat && (n <=? 32)%nat).

Fixpoint lstrip (s : string) : string :=
  match s with
  | EmptyString => EmptyString
  | String ch rest => if is_space ch then lstrip rest else s
  end.

Fixpoint rstrip (s : string) : string :=
  match s with
  | EmptyString => EmptyString
  | String ch rest =>
      match rstrip rest with
      | EmptyString => if is_space ch then EmptyString
                       else String ch EmptyString
      | kept => String ch kept
      end
  end.

Definition strip (s : string) : string := rstrip (lstrip s).

(** [s.startswith(prefix)]. *)
Fixpoint startswith (s prefix : string) : bool :=
  match prefix with
  | EmptyString => true
  | String p prefix' =>
      match s with
      | EmptyString => false
      | String ch s' => Ascii.eqb ch p && startswith s' prefix'
      end
  end.

(** *** The navigation frame *)

Record NavigationData := {
  latitude : option Q;
  longitude : option Q;
  sigmapos : option Q;
  depth : option Q;
  altitude : option Q;
  seabed : option Q;
  north_speed : option Q;
  east_speed : option Q;
  down_speed : option Q;
  up_speed : option Q;
  u_speed : option Q;
  v_speed : option Q;
  w_speed : option Q;
  water_north_speed : option Q;
  water_east_speed : option Q;
  water_down_speed : option Q;
  water_up_speed : option Q;
  water_u_speed : option Q;
  water_v_speed : option Q;
  water_w_speed : option Q;
  current_north_speed : option Q;
  current_east_speed : option Q;
  heading : option Q;
  roll : option Q;
  pitch : option Q;
  yaw_rate : option Q;
  roll_rate : option Q;
  pitch_rate : option Q;
  p : option Q;
  q : option Q;
  r : option Q;
  ax : option Q;
  ay : option Q;
  az : option Q
}.

Section Parser.

(** The builtin [float] on strings: [None] stands for its [ValueError]. *)
Variable float : string -> option Q.

Definition safe_float (value : string) : option Q :=
  if String.eqb value ""%string
     || String.eqb (upper value) "UNDEF"%string
     || String.eqb (strip value) ""%string
  then None
  else float value.

(** The message without its checksum, cut at the commas. *)
Definition fields_of (nav_message : string) : list string :=
  let nav_message :=
    if contains "*" nav_message then hd EmptyString (split "*" nav_message)
    else nav_message in
  split "," nav_message.

(** [parse_navigation] as a function from the stored [latest_navigation]
    to the stored value after the call. *)
Definition parse_navigation (latest_navigation : option NavigationData)
    (nav_message : string) : option NavigationData :=
  let fields := fields_of nav_message in
  if (List.length fields <? 10)%nat then latest_navigation
  else
    let field (i : nat) : option Q :=
      if (i <? List.length fields)%nat
      then safe_float (nth i fields EmptyString) else None in
    let nav_data :=
      {| latitude := field 1;
         longitude := field 2;
         sigmapos := field 3;
         depth := field 4;
         altitude := field 5;
         seabed := field 6;
         north_speed := field 7;
         east_speed := field 8;
         down_speed := field 9;
         up_speed := field 10;
         u_speed := field 11;
         v_speed := field 12;
         w_speed := field 13;
         water_north_speed := field 14;
         water_east_speed := field 15;
         water_down_speed := field 16;
         water_up_speed := field 17;
         water_u_speed := field 18;
         water_v_speed := field 19;
         water_w_speed := field 20;
         current_north_speed := field 21;
         current_east_speed := field 22;
         heading := field 23;
         roll := field 24;
         pitch := field 25;
         yaw_rate := field 26;
         roll_rate := field 27;
         pitch_rate := field 28;
         p := field 29;
         q := field 30;
         r := field 31;
         ax := field 32;
         ay := field 33;
         az := field 34 |} in
    Some nav_data.

Definition process_message (latest_navigation : option NavigationData)
    (message : string) : option NavigationData :=
  if startswith message "$HBEAT"%string then latest_navigation
  else if startswith message "$NAVIGATION"%string then
    parse_navigation latest_navigation message
  else latest_navigation.

End Parser.

(** *** A [float] for plain decimal literals

    An optional sign, digits, and an optional point followed by digits: the
    fragment of the builtin's syntax that the sample telegrams below use. *)

Definition digit_value (ch : ascii) : option Z :=
  let n := nat_of_ascii ch in
  if (48 <=? n)%nat && (n <=? 57)%nat then Some (Z.of_nat (n - 48)) else None.

(** Reads digits into the numerator [num] over the denominator [den];
    [frac] tells whether the point has been passed. *)
Fixpoint read_digits (s : string) (num : Z) (den : positive) (frac : bool)
    (seen : bool) : option Q :=
  match s with
  | EmptyString => if seen then Some (num # den) else None
  | String ch rest =>
      match digit_value ch with
      | Some d =>
          read_digits rest (10 * num + d)%Z
                      (if frac then (10 * den)%positive else den) frac true
      | None =>
          if Ascii.eqb ch "." && negb frac && seen
          then read_digits rest num den true true
          else None
      end
  end.

Definition decimal_float (s : string) : option Q :=
  match s with
  | String "-" rest => option_map Qopp (read_digits rest 0 1 false false)
  | String "+" rest => read_digits rest 0 1 false false
  | _ => read_digits s 0 1 false false
  end.

End DesBridge.

(** * Properties *)

(** ** The depth-command client *)

Section BackseatProperties.

Import Backseat.

Variable cfg : config.t.

(** The success value [send_z_command] returns once a request was made. *)
Definition accepted (reply : Reply) : bool :=
  match reply with Status code => Z.eqb code 200 | Raises => false end.

(** Over the rationals the test of [send_z_command] is the envelope. *)
Lemma out_of_limits_iff z :
  Qltb z (config.min_depth cfg) || Qgtb z (config.max_depth cfg) = false
  <-> in_envelope cfg z.
Proof.
  unfold in_envelope. rewrite orb_false_iff, Qltb_ge, Qgtb_le. tauto.
Qed.

(** The three cases of [send_z_command] for a depth that is a number: an
    in-envelope depth is remembered and sent; an out-of-envelope depth is
    replaced by the remembered one when there is one; otherwise the call
    fails, nothing is sent and the memory stays as it was. *)
Lemma send_z_command_cases (reply : Reply) (z : Q) (s : Store exact) :
  (in_envelope cfg z ->
     send_z_command exact cfg reply z s
     = (accepted reply,
        {| _last_valid_depth := Some z; posted := posted s ++ [z] |}))
  /\ (forall last, ~ in_envelope cfg z -> _last_valid_depth s = Some last ->
        send_z_command exact cfg reply z s
        = (accepted reply,
           {| _last_valid_depth := Some last;
              posted := posted s ++ [last] |}))
  /\ (~ in_envelope cfg z -> _last_valid_depth s = None ->
        send_z_command exact cfg reply z s = (false, s)).
Proof.
  unfold send_z_command, Arith.gtb. cbn [Arith.ltb Arith.F exact].
  change (Qltb (config.max_depth cfg) z) with (Qgtb z (config.max_depth cfg)).
  destruct (Qltb z (config.min_depth cfg) || Qgtb z (config.max_depth cfg))
    eqn:Hout.
  - assert (Hno : ~ in_envelope cfg z).
    { intro Hin. apply out_of_limits_iff in Hin. congruence. }
    split; [intro Hin; contradiction | split].
    + intros last _ Hlast. rewrite Hlast. reflexivity.
    + intros _ Hlast. rewrite Hlast. reflexivity.
  - apply out_of_limits_iff in Hout.
    split; [intros _; reflexivity | split].
    + intros last Hno. contradiction.
    + intros Hno. contradiction.
Qed.

(** What is remembered and what was posted passed the envelope check. *)
Definition store_ok (s : Store exact) : Prop :=
  (forall v, _last_valid_depth s = Some v -> in_envelope cfg v)
  /\ Forall (in_envelope cfg) (posted s).

Lemma store_ok_initial : store_ok (initial exact).
Proof. split; [discriminate | constructor]. Qed.

Lemma store_ok_send reply z s :
  store_ok s -> store_ok (snd (send_z_command exact cfg reply z s)).
Proof.
  intros [Hlast Hposted]. unfold send_z_command, Arith.gtb.
  cbn [Arith.ltb Arith.F exact].
  change (Qltb (config.max_depth cfg) z) with (Qgtb z (config.max_depth cfg)).
  destruct (Qltb z (config.min_depth cfg) || Qgtb z (config.max_depth cfg))
    eqn:Hout.
  - destruct (_last_valid_depth s) as [last|] eqn:Hl; simpl.
    + pose proof (Hlast last eq_refl) as Hin. split; simpl.
      * intros v Hv. injection Hv as <-. exact Hin.
      * apply Forall_app. split; [assumption|].
        apply Forall_cons; [exact Hin | apply Forall_nil].
    + split; [intros v Hv; rewrite Hl in Hv; discriminate | assumption].
  - apply out_of_limits_iff in Hout. split; simpl.
    + intros v Hv. injection Hv as <-. exact Hout.
    + apply Forall_app. split; [assumption|].
      apply Forall_cons; [exact Hout | apply Forall_nil].
Qed.

Lemma store_ok_send_all calls : forall s,
  store_ok s -> store_ok (send_all exact cfg calls s).
Proof.
  induction calls as [|[z reply] rest IH]; intros s Hs; simpl.
  - exact Hs.
  - apply IH, store_ok_send, Hs.
Qed.

(** As long as every requested depth is a number, every [zSetpoint] posted
    since start-up lies in the envelope, and so does the remembered
    depth. *)
Lemma posted_setpoints_in_envelope (calls : list (Q * Reply)) :
  Forall (in_envelope cfg) (posted (send_all exact cfg calls (initial exact)))
  /\ (forall v,
        _last_valid_depth (send_all exact cfg calls (initial exact)) = Some v ->
        in_envelope cfg v).
Proof.
  destruct (store_ok_send_all calls (initial exact) store_ok_initial)
    as [Hl Hp].
  split; assumption.
Qed.

End BackseatProperties.

(** ** The safety automaton *)

(** Case analysis on the tests of a function body. *)
Ltac branches :=
  repeat match goal with
  | |- context [if ?b then _ else _] => destruct b eqn:?
  | |- context [match Controller.state ?c with _ => _ end] =>
      destruct (Controller.state c) eqn:?
  | |- context [match Controller.state_start_time ?c with _ => _ end] =>
      destruct (Controller.state_start_time c) eqn:?
  | |- context [match Controller.step_iterator ?c with _ => _ end] =>
      destruct (Controller.step_iterator c) eqn:?
  end.

(** Reads attributes through assignments, and nothing else. *)
Ltac attributes :=
  cbn [Controller.current_z Controller.end_z Controller.step
       Controller.end_z_reached Controller.target_step
       Controller.current_step Controller.max_angle_step
       Controller.trajectory_down Controller.altitude_threshold_level
       Controller.altitude_threshold_ascend Controller.wait_time
       Controller.command_depth Controller.state Controller.state_start_time
       Controller._wait_from_ascend Controller.planned_z
       Controller.error_compensation_active Controller.original_target_step
       Controller.original_previous_step Controller.transition_list
       Controller.step_iterator Controller.step_transition_active
       Controller.set_current_z Controller.set_end_z_reached
       Controller.set_target_step Controller.set_current_step
       Controller.set_command_depth Controller.set_state
       Controller.set_state_start_time Controller.set_wait_from_ascend
       Controller.set_error_compensation_active Controller.set_step_iterator
       Controller.set_step_transition_active fst snd].

(** The five state bodies, one goal each. *)
Ltac by_state c :=
  unfold Controller._execute_current_state;
  destruct (Controller.state c) eqn:?;
  [ unfold Controller._state_normal | unfold Controller._state_hold
  | unfold Controller._state_ascend | unfold Controller._state_wait
  | unfold Controller._state_return ].

Section Automaton.

Import Controller.

Lemma State_eqb_eq a b : State_eqb a b = true <-> a = b.
Proof. destruct a, b; simpl; split; congruence. Qed.

Lemma State_eqb_neq a b : State_eqb a b = false <-> a <> b.
Proof. destruct a, b; simpl; split; congruence. Qed.

Lemma State_eqb_refl a : State_eqb a a = true.
Proof. destruct a; reflexivity. Qed.

Lemma set_state_state now new_state c :
  state (_set_state now new_state c) = new_state.
Proof.
  unfold _set_state. destruct (State_eqb (state c) new_state) eqn:E.
  - apply State_eqb_eq, E.
  - destruct new_state; reflexivity.
Qed.

(** What [_set_state] leaves alone, whatever the state entered. *)
Lemma set_state_frame now new_state c :
  let c' := _set_state now new_state c in
  current_z c' = current_z c /\ end_z c' = end_z c
  /\ end_z_reached c' = end_z_reached c
  /\ trajectory_down c' = trajectory_down c
  /\ current_step c' = current_step c
  /\ max_angle_step c' = max_angle_step c.
Proof.
  unfold _set_state. destruct (State_eqb (state c) new_state).
  - repeat split.
  - destruct new_state; repeat split.
Qed.

(** The transition rules as the specification words them: the altitude rules
    first, then the rule of the current state.  [started] is the time at
    which [WAIT] was entered. *)
Definition altitude_below (altitude : option Q) (threshold : Q) : bool :=
  match altitude with
  | Some a => Qltb a threshold
  | None => false
  end.

Definition is_absent (altitude : option Q) : bool :=
  match altitude with
  | Some _ => false
  | None => true
  end.

Definition transition_rule (t_asc t_lvl wait : Q) (down : bool) (now : Q)
    (altitude : option Q) (st : State) (started command current : Q)
  : State :=
  if is_absent altitude && negb (State_eqb st NORMAL) then NORMAL
  else if altitude_below altitude t_asc then ASCEND
  else if down && altitude_below altitude t_lvl then HOLD
  else
    match st with
    | ASCEND => WAIT
    | HOLD => WAIT
    | WAIT => if Qleb wait (now - started) then RETURN else WAIT
    | RETURN => if Qleb current command then NORMAL else RETURN
    | NORMAL => NORMAL
    end.

(** C2.  The state after [_handle_transitions] is the one the ordered rules
    give, for every state and every altitude; in [WAIT] the start time read
    is the one recorded when [WAIT] was entered. *)
Theorem handle_transitions_rule (now : Q) (altitude : option Q)
    (c : DepthController) (started : Q) :
  (state c = WAIT -> state_start_time c = Some started) ->
  state (_handle_transitions now altitude c)
  = transition_rule (altitude_threshold_ascend c) (altitude_threshold_level c)
      (wait_time c) (trajectory_down c) now altitude (state c) started
      (command_depth c) (current_z c).
Proof.
  intros Hwait. unfold _handle_transitions, transition_rule.
  destruct altitude as [a|]; simpl.
  - destruct (Qltb a (altitude_threshold_ascend c)).
    { destruct (state c); apply set_state_state. }
    destruct (trajectory_down c && Qltb a (altitude_threshold_level c)).
    { destruct (state c); apply set_state_state. }
    destruct (state c) eqn:Hs; try apply set_state_state; try exact Hs.
    + unfold _wait_finished. rewrite (Hwait eq_refl). unfold Qgeb, Qleb.
      destruct (Qle_bool (wait_time c) (now - started));
        [apply set_state_state | exact Hs].
    + unfold _return_caught_vs, Qgeb, Qleb.
      destruct (Qle_bool (current_z c) (command_depth c));
        [apply set_state_state | exact Hs].
  - destruct (state c) eqn:Hs; simpl; try apply set_state_state.
    rewrite andb_false_r. exact Hs.
Qed.

(** The start time of [WAIT] is always there to be read: the invariant that
    the hypothesis of C2 asks for is kept by every operation. *)
Definition wait_started (c : DepthController) : Prop :=
  state c = WAIT -> state_start_time c <> None.

Lemma set_state_wait_started now new_state c :
  wait_started c -> wait_started (_set_state now new_state c).
Proof.
  unfold wait_started, _set_state. intros H.
  destruct (State_eqb (state c) new_state) eqn:E; [exact H|].
  destruct new_state; simpl; intros; try discriminate.
Qed.

(** The entry actions as the code has them.  Entering [ASCEND] freezes the
    command at the planned depth, entering [WAIT] records the clock and
    where it came from, entering [ASCEND], [HOLD] or [NORMAL] clears the
    start time; the [RETURN] branch of [_on_enter_state] only logs, so
    entering [RETURN] assigns the state and no other attribute. *)
Lemma set_state_entry_actions (now : Q) (new_state : State)
    (c : DepthController) :
  state c <> new_state ->
  let c' := _set_state now new_state c in
  state c' = new_state
  /\ (new_state = ASCEND ->
        command_depth c' = current_z c /\ state_start_time c' = None)
  /\ (new_state = HOLD -> state_start_time c' = None)
  /\ (new_state = WAIT ->
        state_start_time c' = Some now
        /\ _wait_from_ascend c' = State_eqb (state c) ASCEND)
  /\ (new_state = NORMAL -> state_start_time c' = None)
  /\ (new_state = RETURN -> c' = set_state RETURN c).
Proof.
  intros Hne. apply State_eqb_neq in Hne. unfold _set_state.
  rewrite Hne. destruct new_state; simpl; repeat split; intros; discriminate.
Qed.

End Automaton.

(** ** The planned trajectory *)

Section Trajectory.

Import Controller.

Variable cfg : config.t.

(** The attributes of the planned trajectory. *)
Definition same_trajectory (c c' : DepthController) : Prop :=
  current_z c' = current_z c /\ end_z c' = end_z c
  /\ end_z_reached c' = end_z_reached c
  /\ trajectory_down c' = trajectory_down c.

(** The end depth has been reached and the planned depth rests on it. *)
Definition settled (c : DepthController) : Prop :=
  end_z_reached c = true /\ current_z c = end_z c.

(** The flag is only ever up with the planned depth on the end depth. *)
Definition reached_at_end (c : DepthController) : Prop :=
  end_z_reached c = true -> current_z c = end_z c.

Lemma same_trajectory_settled c c' :
  same_trajectory c c' -> settled c -> settled c'.
Proof.
  unfold same_trajectory, settled. intros (-> & -> & -> & _). tauto.
Qed.

Lemma same_trajectory_reached_at_end c c' :
  same_trajectory c c' -> reached_at_end c -> reached_at_end c'.
Proof.
  unfold same_trajectory, reached_at_end. intros (-> & -> & -> & _). tauto.
Qed.

Lemma calculate_error_compensation_trajectory c :
  same_trajectory c (_calculate_error_compensation c).
Proof.
  unfold _calculate_error_compensation, same_trajectory.
  branches; simpl; repeat split.
Qed.

Lemma update_step_transition_trajectory c :
  same_trajectory c (_update_step_transition c).
Proof.
  unfold _update_step_transition.
  destruct (negb (step_transition_active c)); [repeat split|].
  destruct (step_iterator c); [|repeat split].
  apply (calculate_error_compensation_trajectory
           (set_step_transition_active false c)).
Qed.

Lemma set_state_trajectory now new_state c :
  same_trajectory c (_set_state now new_state c).
Proof.
  pose proof (set_state_frame now new_state c) as H. simpl in H.
  unfold same_trajectory. tauto.
Qed.

Lemma handle_transitions_trajectory now altitude c :
  same_trajectory c (_handle_transitions now altitude c).
Proof.
  unfold _handle_transitions.
  destruct altitude; branches;
    try apply set_state_trajectory; repeat split.
Qed.

Lemma execute_end_z now c :
  end_z (fst (_execute_current_state cfg now c)) = end_z c
  /\ trajectory_down (fst (_execute_current_state cfg now c))
     = trajectory_down c.
Proof.
  by_state c; branches; simpl; try (split; congruence);
    pose proof (set_state_frame now NORMAL c) as H; simpl in H;
    destruct H as (_ & -> & _ & -> & _); split; congruence.
Qed.

Lemma execute_settled now c :
  settled c -> settled (fst (_execute_current_state cfg now c)).
Proof.
  unfold settled. intros [Hr Hz].
  by_state c; rewrite ?Hr; branches; simpl; try (split; assumption).
  pose proof (set_state_frame now NORMAL c) as H; simpl in H.
  destruct H as (-> & -> & -> & _). split; assumption.
Qed.

Lemma execute_reached_at_end now c :
  reached_at_end c ->
  reached_at_end (fst (_execute_current_state cfg now c)).
Proof.
  unfold reached_at_end. intros Hc.
  by_state c; branches; simpl; auto; try congruence.
  pose proof (set_state_frame now NORMAL c) as H; simpl in H.
  destruct H as (-> & -> & -> & _). exact Hc.
Qed.

Lemma advance_vs_end_z c :
  end_z (_advance_vs c) = end_z c
  /\ trajectory_down (_advance_vs c) = trajectory_down c.
Proof. unfold _advance_vs. branches; split; reflexivity. Qed.

Lemma advance_vs_settled c : settled c -> settled (_advance_vs c).
Proof.
  unfold settled, _advance_vs. intros [Hr Hz]. rewrite Hr. tauto.
Qed.

Lemma advance_vs_reached_at_end c :
  reached_at_end c -> reached_at_end (_advance_vs c).
Proof.
  unfold reached_at_end, _advance_vs. intros Hc.
  branches; simpl; intros; try reflexivity; try congruence; auto.
Qed.

(** The last step of [update], the rejoin test of an upward [RETURN]. *)
Lemma rejoin_trajectory now (active : State) c :
  same_trajectory c
    (if State_eqb active RETURN && negb (trajectory_down c) then
       if Qleb (current_z c) (command_depth c) then _set_state now NORMAL c
       else c
     else c).
Proof.
  branches; try apply set_state_trajectory; repeat split.
Qed.

Lemma update_end_z now altitude c :
  end_z (fst (update cfg now altitude c)) = end_z c
  /\ trajectory_down (fst (update cfg now altitude c)) = trajectory_down c.
Proof.
  unfold update.
  destruct (_execute_current_state cfg now
              (_handle_transitions now altitude (_update_step_transition c)))
    as [c3 sent] eqn:E. simpl.
  destruct (rejoin_trajectory now
              (state (_handle_transitions now altitude
                        (_update_step_transition c))) (_advance_vs c3))
    as (_ & -> & _ & ->).
  destruct (advance_vs_end_z c3) as [-> ->].
  pose proof (execute_end_z now
                (_handle_transitions now altitude
                   (_update_step_transition c))) as [H1 H2].
  rewrite E in H1, H2. simpl in H1, H2. rewrite H1, H2.
  destruct (handle_transitions_trajectory now altitude
              (_update_step_transition c)) as (_ & -> & _ & ->).
  destruct (update_step_transition_trajectory c) as (_ & -> & _ & ->).
  split; reflexivity.
Qed.

Lemma update_settled now altitude c :
  settled c -> settled (fst (update cfg now altitude c)).
Proof.
  intros Hc. unfold update.
  pose proof (execute_settled now
                (_handle_transitions now altitude
                   (_update_step_transition c))) as He.
  destruct (_execute_current_state cfg now
              (_handle_transitions now altitude (_update_step_transition c)))
    as [c3 sent]. simpl in *.
  eapply same_trajectory_settled; [apply rejoin_trajectory|].
  apply advance_vs_settled, He.
  eapply same_trajectory_settled; [apply handle_transitions_trajectory|].
  eapply same_trajectory_settled; [apply update_step_transition_trajectory|].
  exact Hc.
Qed.

Lemma update_reached_at_end now altitude c :
  reached_at_end c -> reached_at_end (fst (update cfg now altitude c)).
Proof.
  intros Hc. unfold update.
  pose proof (execute_reached_at_end now
                (_handle_transitions now altitude
                   (_update_step_transition c))) as He.
  destruct (_execute_current_state cfg now
              (_handle_transitions now altitude (_update_step_transition c)))
    as [c3 sent]. simpl in *.
  eapply same_trajectory_reached_at_end; [apply rejoin_trajectory|].
  apply advance_vs_reached_at_end, He.
  eapply same_trajectory_reached_at_end;
    [apply handle_transitions_trajectory|].
  eapply same_trajectory_reached_at_end;
    [apply update_step_transition_trajectory|].
  exact Hc.
Qed.

Variables (nows : nat -> Q) (alts : nat -> option Q).

Lemma run_end_z n c :
  end_z (run cfg nows alts n c) = end_z c
  /\ trajectory_down (run cfg nows alts n c) = trajectory_down c.
Proof.
  induction n as [|n [IH1 IH2]]; simpl; [split; reflexivity|].
  destruct (update_end_z (nows n) (alts n) (run cfg nows alts n c))
    as [-> ->].
  split; assumption.
Qed.

Lemma run_reached_at_end n c :
  reached_at_end c -> reached_at_end (run cfg nows alts n c).
Proof.
  intros Hc. induction n as [|n IH]; simpl; [exact Hc|].
  apply update_reached_at_end, IH.
Qed.

Lemma run_settled n m c :
  (n <= m)%nat ->
  settled (run cfg nows alts n c) -> settled (run cfg nows alts m c).
Proof.
  intros Hle Hn. induction Hle as [|m Hle IH]; [exact Hn|].
  simpl. apply update_settled, IH.
Qed.

(** C6.  In the life of a controller, from its construction on and for all
    clock and altitude inputs: once [end_z_reached] is up after some tick, it
    is up after every later tick and the planned depth is the end depth. *)
Theorem end_z_reached_is_final
    (start_z end_depth step max_angle_step : Q) (down : bool)
    (previous_step : Q) (n m : nat) :
  let c0 :=
    __init__ cfg start_z end_depth step max_angle_step down previous_step in
  (n <= m)%nat ->
  end_z_reached (run cfg nows alts n c0) = true ->
  end_z_reached (run cfg nows alts m c0) = true
  /\ current_z (run cfg nows alts m c0) = end_depth
  /\ end_z (run cfg nows alts m c0) = end_depth.
Proof.
  intros c0 Hle Hn.
  assert (H0 : reached_at_end c0) by (unfold reached_at_end; discriminate).
  pose proof (run_reached_at_end n c0 H0 Hn) as Hz.
  destruct (run_settled n m c0 Hle (conj Hn Hz)) as [Hr Hm].
  destruct (run_end_z m c0) as [He _].
  rewrite Hm, He. repeat split; assumption || reflexivity.
Qed.

End Trajectory.

(** ** A run that never leaves [NORMAL], over the rationals *)

Section CleanRun.

Import Controller.

Variable cfg : config.t.

(** No step transition is pending, the state is [NORMAL] and the thresholds
    are ordered. *)
Definition on_course (c : DepthController) : Prop :=
  state c = NORMAL /\ step_transition_active c = false
  /\ altitude_threshold_ascend c <= altitude_threshold_level c.

(** The planned depth is still short of the end depth. *)
Definition short_of_end (c : DepthController) : Prop :=
  if trajectory_down c then current_z c < end_z c
  else end_z c < current_z c.

(** The active step points at the end depth. *)
Definition heading_to_end (c : DepthController) : Prop :=
  if trajectory_down c then 0 < current_step c else current_step c < 0.

(** With a safe altitude a tick on course is the [NORMAL] body followed by the
    advance of the planned depth. *)
Lemma update_on_course now a c :
  on_course c -> altitude_threshold_level c <= a ->
  update cfg now (Some a) c
  = (_advance_vs (fst (_state_normal c)), snd (_state_normal c)).
Proof.
  intros (Hs & Ht & Hthr) Ha. unfold update, _update_step_transition.
  rewrite Ht. simpl. unfold _handle_transitions.
  replace (Qltb a (altitude_threshold_ascend c)) with false
    by (symmetry; apply Qltb_ge; lra).
  replace (Qltb a (altitude_threshold_level c)) with false
    by (symmetry; apply Qltb_ge; lra).
  rewrite andb_false_r, Hs. unfold _execute_current_state. rewrite Hs.
  destruct (_state_normal c) as [c3 sent]. reflexivity.
Qed.

(** What such a tick keeps. *)
Lemma normal_tick_keeps c :
  let c' := _advance_vs (fst (_state_normal c)) in
  state c' = state c
  /\ step_transition_active c' = step_transition_active c
  /\ altitude_threshold_ascend c' = altitude_threshold_ascend c
  /\ altitude_threshold_level c' = altitude_threshold_level c
  /\ current_step c' = current_step c
  /\ trajectory_down c' = trajectory_down c
  /\ end_z c' = end_z c.
Proof.
  unfold _advance_vs, _state_normal.
  branches; simpl; repeat split; assumption.
Qed.

(** What it does to the planned depth: it settles on the end depth, or moves
    one step and is still short of it. *)
Lemma normal_tick_progress c :
  end_z_reached c = false -> short_of_end c -> heading_to_end c ->
  let c' := _advance_vs (fst (_state_normal c)) in
  settled c'
  \/ (end_z_reached c' = false
      /\ current_z c' = current_z c + current_step c
      /\ short_of_end c').
Proof.
  unfold short_of_end, heading_to_end, settled, _advance_vs, _state_normal.
  intros Hr Hshort Hsign. rewrite Hr.
  destruct (trajectory_down c) eqn:Hd.
  - destruct (Qgeb (current_z c + current_step c) (end_z c)) eqn:Hnext;
      simpl; [left; split; reflexivity|].
    rewrite Hr, Hd.
    replace (Qgeb (current_z c) (end_z c)) with false
      by (symmetry; apply Qgeb_lt; exact Hshort).
    simpl. rewrite Hd. right. qbool. repeat split; assumption.
  - destruct (Qleb (current_z c + current_step c) (end_z c)) eqn:Hnext;
      simpl; [left; split; reflexivity|].
    rewrite Hr, Hd.
    replace (Qleb (current_z c) (end_z c)) with false
      by (symmetry; apply Qleb_gt; exact Hshort).
    simpl. rewrite Hd. right. qbool. repeat split; assumption.
Qed.

Lemma inject_nat_succ k :
  inject_Z (Z.of_nat (S k)) == inject_Z (Z.of_nat k) + 1.
Proof. rewrite Nat2Z.inj_succ, <- Z.add_1_r, inject_Z_plus. reflexivity. Qed.

(** Enough steps of a fixed sign cover any distance of that sign. *)
Lemma enough_steps (d s : Q) :
  ~ s == 0 ->
  let n := inject_Z (Z.of_nat (Z.to_nat (Qceiling (d / s)))) in
  (0 < s -> d <= n * s) /\ (s < 0 -> n * s <= d).
Proof.
  intros Hs n.
  assert (Hn : d / s <= n).
  { unfold n. apply Qle_trans with (inject_Z (Qceiling (d / s))).
    - apply Qle_ceiling.
    - rewrite <- Zle_Qle. destruct (Qceiling (d / s)); simpl; lia. }
  assert (Hd : d == d / s * s) by (field; exact Hs).
  split; intro Hsign.
  - rewrite Hd at 1. apply Qmult_le_compat_r; lra.
  - assert (H : (d / s) * (- s) <= n * (- s))
      by (apply Qmult_le_compat_r; lra).
    lra.
Qed.

Variables (nows : nat -> Q) (alts : nat -> option Q).
Variables (start_z end_depth step angle_step previous_step : Q).

Hypothesis plan_not_flat : ~ start_z == end_depth.
Hypothesis step_down : start_z < end_depth -> 0 < step.
Hypothesis step_up : end_depth < start_z -> step < 0.
Hypothesis no_transition : previous_step == step.
Hypothesis thresholds_ordered :
  config.altitude_threshold_ascend cfg <= config.altitude_threshold_level cfg.
Hypothesis altitude_safe :
  forall k, exists a,
    alts k = Some a /\ config.altitude_threshold_level cfg <= a.

Let c0 : DepthController :=
  __init__ cfg start_z end_depth step angle_step (Qgtb end_depth start_z)
           previous_step.

(** The state of the run after [k] ticks. *)
Definition cruising (k : nat) (c : DepthController) : Prop :=
  on_course c
  /\ altitude_threshold_level c = config.altitude_threshold_level cfg
  /\ current_step c = previous_step
  /\ trajectory_down c = Qgtb end_depth start_z
  /\ end_z c = end_depth
  /\ (settled c
      \/ (end_z_reached c = false
          /\ current_z c == start_z + inject_Z (Z.of_nat k) * previous_step
          /\ short_of_end c)).

Lemma heading_of_cruising k c : cruising k c -> heading_to_end c.
Proof.
  intros (_ & _ & Hstep & Hd & _). unfold heading_to_end.
  rewrite Hd, Hstep. destruct (Qgtb end_depth start_z) eqn:E; qbool.
  - rewrite no_transition. apply step_down, E.
  - rewrite no_transition. apply step_up.
    destruct (Qlt_le_dec end_depth start_z) as [Hlt|Hle]; [exact Hlt|].
    exfalso. apply plan_not_flat. lra.
Qed.

Lemma cruising_init : cruising 0 c0.
Proof.
  unfold cruising, on_course, c0, __init__, settled, short_of_end. simpl.
  repeat split; try exact thresholds_ordered.
  - apply negb_false_iff, Qeq_bool_iff, no_transition.
  - right. repeat split; [change (inject_Z 0) with 0; ring|].
    destruct (Qgtb end_depth start_z) eqn:E; qbool; [exact E|].
    destruct (Qlt_le_dec end_depth start_z) as [Hlt|Hle]; [exact Hlt|].
    exfalso. apply plan_not_flat. lra.
Qed.

Lemma cruising_step k c :
  cruising k c ->
  cruising (S k) (fst (update cfg (nows k) (alts k) c)).
Proof.
  intros Hc. pose proof (heading_of_cruising k c Hc) as Hhead.
  destruct Hc as (Hon & Hlvl & Hstep & Hd & He & Hpos).
  destruct (altitude_safe k) as (a & -> & Ha).
  rewrite update_on_course by (rewrite ?Hlvl; assumption). simpl.
  destruct (normal_tick_keeps c)
    as (Ks & Kt & Kasc & Klvl & Kstep & Kd & Ke).
  destruct Hon as (Hs & Ht & Hthr).
  unfold cruising, on_course.
  rewrite Ks, Kt, Kasc, Klvl, Kstep, Kd, Ke.
  repeat split; try assumption.
  destruct Hpos as [Hset | (Hr & Hz & Hshort)].
  - left. apply advance_vs_settled.
    pose proof (execute_settled cfg (nows k) c Hset) as H.
    unfold _execute_current_state in H. rewrite Hs in H. exact H.
  - destruct (normal_tick_progress c Hr Hshort Hhead)
      as [Hset | (Hr' & Hz' & Hshort')]; [left; exact Hset|].
    right. repeat split; try assumption.
    rewrite Hz', Hz, Hstep, inject_nat_succ. ring.
Qed.

Lemma cruising_run k : cruising k (run cfg nows alts k c0).
Proof.
  induction k as [|k IH]; [apply cruising_init|].
  simpl. apply cruising_step, IH.
Qed.

Lemma previous_step_nonzero : ~ previous_step == 0.
Proof.
  rewrite no_transition. intro H0.
  destruct (Qlt_le_dec start_z end_depth) as [Hlt|Hle].
  - pose proof (step_down Hlt). lra.
  - destruct (Qlt_le_dec end_depth start_z) as [Hgt|Hge].
    + pose proof (step_up Hgt). lra.
    + apply plan_not_flat. lra.
Qed.

Lemma cruising_ends :
  exists n, settled (run cfg nows alts n c0).
Proof.
  set (n := Z.to_nat (Qceiling ((end_depth - start_z) / previous_step))).
  exists n.
  pose proof (cruising_run n) as Hc.
  pose proof (heading_of_cruising _ _ Hc) as Hhead.
  destruct Hc as (_ & _ & Hstep & Hd & He & [Hset | (_ & Hz & Hshort)]);
    [exact Hset | exfalso].
  destruct (enough_steps (end_depth - start_z) previous_step
              previous_step_nonzero) as [Hdown Hup].
  fold n in Hdown, Hup.
  unfold short_of_end in Hshort. unfold heading_to_end in Hhead.
  rewrite Hd, He, ?Hstep in *.
  destruct (Qgtb end_depth start_z).
  - specialize (Hdown Hhead). lra.
  - specialize (Hup Hhead). lra.
Qed.

(** Over the rationals, where no sum is rounded.  A plan that is not flat,
    a step of the sign that leads to the end depth, no step transition,
    ordered thresholds and an altitude at or above the level threshold on
    every tick: the state is [NORMAL] after every tick, and from some tick
    on [end_z_reached] holds with the planned depth equal to the end depth.
    Section [FloatCleanRun] has the statement that holds of the rounded
    sums. *)
Lemma clean_run_reaches_end_z :
  (forall k, state (run cfg nows alts k c0) = NORMAL)
  /\ exists n, forall m, (n <= m)%nat ->
       end_z_reached (run cfg nows alts m c0) = true
       /\ current_z (run cfg nows alts m c0) = end_depth.
Proof.
  split.
  - intros k. destruct (cruising_run k) as ((Hs & _) & _). exact Hs.
  - destruct cruising_ends as [n Hn]. exists n. intros m Hle.
    destruct (run_settled cfg nows alts n m c0 Hle Hn) as [Hr Hz].
    destruct (run_end_z cfg nows alts m c0) as [He _].
    split; [exact Hr | rewrite Hz, He; reflexivity].
Qed.

End CleanRun.

(** ** The commanded depth and the envelope *)

Section Envelope.

Import Controller.

Variable cfg : config.t.

Lemma clamp_depth_in_envelope depth :
  config.min_depth cfg <= config.max_depth cfg ->
  in_envelope cfg (_clamp_depth cfg depth).
Proof.
  intros Hle. unfold in_envelope, _clamp_depth, max, min.
  branches; qbool; split; lra.
Qed.

Lemma update_step_transition_command c :
  command_depth (_update_step_transition c) = command_depth c.
Proof.
  unfold _update_step_transition, _calculate_error_compensation.
  branches; reflexivity.
Qed.

(** Entering a state keeps the command, or (for [ASCEND]) moves it onto the
    planned depth. *)
Lemma set_state_command now new_state c :
  command_depth (_set_state now new_state c) = command_depth c
  \/ command_depth (_set_state now new_state c) = current_z c.
Proof.
  unfold _set_state. destruct (State_eqb (state c) new_state); [now left|].
  destruct new_state; simpl; auto.
Qed.

Lemma set_state_normal_command now c :
  command_depth (_set_state now NORMAL c) = command_depth c.
Proof.
  unfold _set_state. destruct (State_eqb (state c) NORMAL); reflexivity.
Qed.

Lemma handle_transitions_command now altitude c :
  command_depth (_handle_transitions now altitude c) = command_depth c
  \/ command_depth (_handle_transitions now altitude c) = current_z c.
Proof.
  unfold _handle_transitions.
  destruct altitude; branches; try apply set_state_command; now left.
Qed.

(** Every state body sends the command it leaves in the controller. *)
Lemma execute_sends_command now c :
  snd (_execute_current_state cfg now c)
  = command_depth (fst (_execute_current_state cfg now c)).
Proof.
  by_state c; branches; simpl; try reflexivity.
  symmetry. apply set_state_normal_command.
Qed.

Lemma execute_command_in_envelope now c :
  in_envelope cfg (current_z c) -> in_envelope cfg (end_z c) ->
  in_envelope cfg (command_depth c) ->
  in_envelope cfg (command_depth (fst (_execute_current_state cfg now c))).
Proof.
  intros Hz He Hcmd.
  assert (Hle : config.min_depth cfg <= config.max_depth cfg)
    by (destruct Hz; lra).
  by_state c; branches; simpl;
    try assumption; try (apply clamp_depth_in_envelope; exact Hle).
  rewrite set_state_normal_command. exact Hcmd.
Qed.

(** In [ASCEND], and in a [WAIT] that follows it, the command is clamped
    whatever it was before. *)
Lemma ascending_command_in_envelope now c :
  config.min_depth cfg <= config.max_depth cfg ->
  state c = ASCEND \/ (state c = WAIT /\ _wait_from_ascend c = true) ->
  in_envelope cfg (snd (_execute_current_state cfg now c)).
Proof.
  intros Hle Hs. unfold _execute_current_state, _state_ascend, _state_wait.
  destruct Hs as [-> | [-> ->]]; simpl;
    apply clamp_depth_in_envelope; exact Hle.
Qed.

Lemma advance_vs_command c :
  command_depth (_advance_vs c) = command_depth c.
Proof. unfold _advance_vs. branches; reflexivity. Qed.

(** C1, as the code has it.  A tick that starts with the planned depth, the
    end depth and the stored command inside the envelope sends, and stores, a
    command inside the envelope, in every safety state and for every
    altitude. *)
Theorem update_command_depth_in_envelope (now : Q) (altitude : option Q)
    (c : DepthController) :
  in_envelope cfg (current_z c) -> in_envelope cfg (end_z c) ->
  in_envelope cfg (command_depth c) ->
  in_envelope cfg (command_depth (fst (update cfg now altitude c)))
  /\ snd (update cfg now altitude c)
     = command_depth (fst (update cfg now altitude c)).
Proof.
  intros Hz He Hcmd. unfold update.
  set (c1 := _update_step_transition c).
  set (c2 := _handle_transitions now altitude c1).
  destruct (update_step_transition_trajectory c) as (Hz1 & He1 & _).
  fold c1 in Hz1, He1.
  destruct (handle_transitions_trajectory now altitude c1) as (Hz2 & He2 & _).
  fold c2 in Hz2, He2.
  assert (Hcmd2 : in_envelope cfg (command_depth c2)).
  { destruct (handle_transitions_command now altitude c1) as [E|E];
      fold c2 in E; rewrite E.
    - unfold c1. rewrite update_step_transition_command. exact Hcmd.
    - rewrite Hz1. exact Hz. }
  assert (Hz' : in_envelope cfg (current_z c2)) by (rewrite Hz2, Hz1; exact Hz).
  assert (He' : in_envelope cfg (end_z c2)) by (rewrite He2, He1; exact He).
  pose proof (execute_command_in_envelope now c2 Hz' He' Hcmd2) as Hin.
  pose proof (execute_sends_command now c2) as Hsent.
  destruct (_execute_current_state cfg now c2) as [c3 sent]. simpl in *.
  assert (Hfinal :
    command_depth
      (if State_eqb (state c2) RETURN && negb (trajectory_down (_advance_vs c3))
       then
         if Qleb (current_z (_advance_vs c3)) (command_depth (_advance_vs c3))
         then _set_state now NORMAL (_advance_vs c3)
         else _advance_vs c3
       else _advance_vs c3)
    = command_depth c3).
  { branches; rewrite ?set_state_normal_command; apply advance_vs_command. }
  rewrite Hfinal, Hsent. split; [exact Hin | reflexivity].
Qed.

End Envelope.

(** ** The step schedule *)

Section Schedule.

Import Controller.

Variable cfg : config.t.

(** The attributes of the step schedule. *)
Definition same_schedule (c c' : DepthController) : Prop :=
  current_step c' = current_step c
  /\ step_iterator c' = step_iterator c
  /\ step_transition_active c' = step_transition_active c
  /\ transition_list c' = transition_list c
  /\ original_target_step c' = original_target_step c
  /\ planned_z c' = planned_z c
  /\ end_z c' = end_z c
  /\ error_compensation_active c' = error_compensation_active c.

Lemma same_schedule_refl c : same_schedule c c.
Proof. repeat split. Qed.

Lemma same_schedule_trans c1 c2 c3 :
  same_schedule c1 c2 -> same_schedule c2 c3 -> same_schedule c1 c3.
Proof.
  unfold same_schedule.
  intros (A1 & A2 & A3 & A4 & A5 & A6 & A7 & A8)
         (B1 & B2 & B3 & B4 & B5 & B6 & B7 & B8).
  repeat split; congruence.
Qed.

Lemma set_state_schedule now new_state c :
  same_schedule c (_set_state now new_state c).
Proof.
  unfold _set_state. destruct (State_eqb (state c) new_state).
  - apply same_schedule_refl.
  - destruct new_state; repeat split.
Qed.

Lemma handle_transitions_schedule now altitude c :
  same_schedule c (_handle_transitions now altitude c).
Proof.
  unfold _handle_transitions.
  destruct altitude; branches;
    try apply set_state_schedule; apply same_schedule_refl.
Qed.

Lemma execute_schedule now c :
  same_schedule c (fst (_execute_current_state cfg now c)).
Proof.
  by_state c; branches; simpl;
    try apply set_state_schedule; repeat split.
Qed.

Lemma advance_vs_schedule c : same_schedule c (_advance_vs c).
Proof. unfold _advance_vs. branches; repeat split. Qed.

(** After its first line a tick leaves the schedule alone. *)
Lemma update_schedule now altitude c :
  same_schedule (_update_step_transition c)
                (fst (update cfg now altitude c)).
Proof.
  unfold update.
  set (c2 := _handle_transitions now altitude (_update_step_transition c)).
  pose proof (execute_schedule now c2) as He.
  destruct (_execute_current_state cfg now c2) as [c3 sent]. simpl in *.
  eapply same_schedule_trans;
    [apply handle_transitions_schedule; fail | fold c2].
  eapply same_schedule_trans; [exact He|].
  eapply same_schedule_trans; [apply advance_vs_schedule|].
  branches; try apply set_state_schedule; apply same_schedule_refl.
Qed.

Lemma linspace_length a b n : List.length (linspace a b n) = n.
Proof.
  destruct n as [|[|n]]; try reflexivity.
  unfold linspace. rewrite length_app, length_map, length_seq. simpl. lia.
Qed.

(** The first sample is the start value. *)
Lemma linspace_first a b n :
  (1 <= n)%nat -> exists x rest, linspace a b n = x :: rest /\ x == a.
Proof.
  intros Hn. destruct n as [|[|n]]; [lia | |].
  - exists a, []. split; reflexivity.
  - unfold linspace. simpl. eexists. eexists. split; [reflexivity|].
    change (inject_Z 0) with 0. ring.
Qed.

Variables (nows : nat -> Q) (alts : nat -> option Q).
Variables (start_z end_depth step angle_step : Q) (down : bool).
Variable previous_step : Q.

Hypothesis steps_differ : ~ previous_step == step.

Let c0 : DepthController :=
  __init__ cfg start_z end_depth step angle_step down previous_step.

Let sequence : list Q :=
  linspace previous_step step (config.transition_time cfg).

(** While the transition lasts: after [k] ticks the first [k] samples are
    gone and the last one handed out is the active step. *)
Definition in_transition (k : nat) (c : DepthController) : Prop :=
  step_transition_active c = true
  /\ step_iterator c = skipn k sequence
  /\ transition_list c = sequence
  /\ original_target_step c = step
  /\ planned_z c = start_z
  /\ end_z c = end_depth
  /\ error_compensation_active c = false
  /\ forall j, k = S j -> current_step c = nth j sequence 0.

Lemma in_transition_init : in_transition 0 c0.
Proof.
  unfold in_transition, c0, __init__. simpl. repeat split.
  - apply negb_true_iff. destruct (Qeq_bool previous_step step) eqn:E;
      [|reflexivity].
    apply Qeq_bool_iff in E. contradiction.
  - discriminate.
Qed.

Lemma skipn_cons_nth (l : list Q) k x rest :
  skipn k l = x :: rest -> nth k l 0 = x /\ skipn (S k) l = rest.
Proof.
  revert l. induction k as [|k IH]; intros [|y l] H; simpl in *;
    try discriminate.
  - injection H as -> ->. split; reflexivity.
  - apply IH, H.
Qed.

Lemma in_transition_step k c x rest :
  in_transition k c -> skipn k sequence = x :: rest ->
  in_transition (S k) (fst (update cfg (nows k) (alts k) c)).
Proof.
  intros (Ha & Hi & Hl & Ho & Hp & He & Hc & _) Hx.
  destruct (update_schedule (nows k) (alts k) c)
    as (S1 & S2 & S3 & S4 & S5 & S6 & S7 & S8).
  unfold in_transition.
  rewrite S1, S2, S3, S4, S5, S6, S7, S8.
  unfold _update_step_transition. rewrite Ha, Hi, Hx. simpl.
  destruct (skipn_cons_nth _ _ _ _ Hx) as [Hn Hs].
  repeat split; try assumption.
  - symmetry. exact Hs.
  - intros j [= <-]. symmetry. exact Hn.
Qed.

Lemma skipn_nonempty (l : list Q) k :
  (k < List.length l)%nat -> exists x rest, skipn k l = x :: rest.
Proof.
  revert l. induction k as [|k IH]; intros [|y l] H; simpl in *; try lia.
  - eauto.
  - apply IH. lia.
Qed.

Lemma in_transition_run k :
  (k <= config.transition_time cfg)%nat ->
  in_transition k (run cfg nows alts k c0).
Proof.
  induction k as [|k IH]; intros Hk; [apply in_transition_init|].
  simpl.
  destruct (skipn_nonempty sequence k) as (x & rest & Hx).
  { unfold sequence. rewrite linspace_length. lia. }
  eapply in_transition_step; [apply IH; lia | exact Hx].
Qed.

(** The quantities of the compensation, in the words of the specification. *)
Definition accumulated_error : Q :=
  step * inject_Z (Z.of_nat (config.transition_time cfg)) - sum sequence.

Definition remaining_steps : Z :=
  Qceiling
    (Qabs (((end_depth - start_z)
            - step * inject_Z (Z.of_nat (config.transition_time cfg)))
           / step)).

Definition compensated_step : Q :=
  if (remaining_steps >? 0)%Z
  then step + accumulated_error / inject_Z remaining_steps
  else step.

Lemma Qabs_pos_nonzero x : Qgtb (Qabs x) 0 = true <-> ~ x == 0.
Proof.
  rewrite Qgtb_gt. split.
  - intros H E. rewrite E in H. simpl in H. lra.
  - intros H. destruct (Qlt_le_dec 0 (Qabs x)) as [Hlt|Hle]; [exact Hlt|].
    exfalso. apply H. apply Qabs_Qle_condition in Hle. lra.
Qed.

Lemma Qceiling_positive x : 0 < x -> (Qceiling x >? 0)%Z = true.
Proof.
  intros Hx. apply Z.gtb_lt. rewrite Zlt_Qlt.
  apply Qlt_le_trans with x; [exact Hx | apply Qle_ceiling].
Qed.

Lemma Qceiling_of_zero x : x == 0 -> (Qceiling x >? 0)%Z = false.
Proof. intros ->. reflexivity. Qed.

(** The tick that finds the sequence used up. *)
Lemma exhausted_compensates c :
  in_transition (config.transition_time cfg) c ->
  let c' := _update_step_transition c in
  step_transition_active c' = false
  /\ current_step c' = compensated_step
  /\ error_compensation_active c' = (remaining_steps >? 0)%Z.
Proof.
  intros (Ha & Hi & Hl & Ho & Hp & He & Hc & _).
  assert (Hnil : step_iterator c = []).
  { rewrite Hi. apply skipn_all2. unfold sequence.
    rewrite linspace_length. lia. }
  unfold _update_step_transition. rewrite Ha, Hnil.
  cbn [negb]. unfold _calculate_error_compensation. attributes.
  rewrite Hl, Ho, Hp, He.
  replace (List.length sequence) with (config.transition_time cfg)
    by (unfold sequence; rewrite linspace_length; reflexivity).
  fold remaining_steps. unfold compensated_step, accumulated_error.
  set (remaining :=
         end_depth - start_z
         - step * inject_Z (Z.of_nat (config.transition_time cfg))).
  destruct (Qgtb (Qabs remaining) 0) eqn:Hrem; cbn [andb].
  - destruct (Qgtb (Qabs step) 0) eqn:Hstep.
    + destruct (remaining_steps >? 0)%Z; attributes;
        repeat split; assumption.
    + assert (Hz : step == 0).
      { destruct (Qeq_dec step 0) as [E|E]; [exact E|].
        apply Qabs_pos_nonzero in E. congruence. }
      replace (remaining_steps >? 0)%Z with false;
        [attributes; repeat split; assumption|].
      symmetry. unfold remaining_steps. fold remaining.
      assert (Hq : remaining / step == 0).
      { rewrite Hz. unfold Qdiv. change (/ 0) with 0. ring. }
      apply Qceiling_of_zero. rewrite Hq. reflexivity.
  - assert (Hz : remaining == 0).
    { destruct (Qeq_dec remaining 0) as [E|E]; [exact E|].
      apply Qabs_pos_nonzero in E. congruence. }
    replace (remaining_steps >? 0)%Z with false;
      [attributes; repeat split; assumption|].
    symmetry. unfold remaining_steps. fold remaining.
    assert (Hq : remaining / step == 0).
    { rewrite Hz. unfold Qdiv. ring. }
    apply Qceiling_of_zero. rewrite Hq. reflexivity.
Qed.

(** Once the transition is over the active step never changes. *)
Lemma settled_step_run c n m :
  (n <= m)%nat ->
  step_transition_active (run cfg nows alts n c) = false ->
  step_transition_active (run cfg nows alts m c) = false
  /\ current_step (run cfg nows alts m c)
     = current_step (run cfg nows alts n c)
  /\ error_compensation_active (run cfg nows alts m c)
     = error_compensation_active (run cfg nows alts n c).
Proof.
  intros Hle Hn.
  induction Hle as [|m Hle (IH1 & IH2 & IH3)]; [repeat split; exact Hn|].
  simpl.
  destruct (update_schedule (nows m) (alts m) (run cfg nows alts m c))
    as (S1 & _ & S3 & _ & _ & _ & _ & S8).
  rewrite S1, S3, S8. unfold _update_step_transition. rewrite IH1.
  cbn [negb]. repeat split; assumption.
Qed.

(** Over the rationals, where the quotient and its ceiling are exact.  A
    controller built with a previous step other than its target step hands
    out the samples of the transition one per tick; the tick after the last
    sample computes the compensated step from the accumulated error and the
    number of remaining steps, marks the compensation as active exactly
    when that number is positive, and the step then stays as it is on every
    later tick.  Section [FloatSchedule] has the statement that holds of
    the rounded operations. *)
Lemma error_compensation_after_transition :
  (forall k, (k < config.transition_time cfg)%nat ->
     current_step (run cfg nows alts (S k) c0) = nth k sequence 0)
  /\ current_step (run cfg nows alts (S (config.transition_time cfg)) c0)
     = compensated_step
  /\ error_compensation_active
       (run cfg nows alts (S (config.transition_time cfg)) c0)
     = (remaining_steps >? 0)%Z
  /\ (forall m, (S (config.transition_time cfg) <= m)%nat ->
        current_step (run cfg nows alts m c0) = compensated_step).
Proof.
  set (n := config.transition_time cfg).
  assert (Hlast :
    step_transition_active (run cfg nows alts (S n) c0) = false
    /\ current_step (run cfg nows alts (S n) c0) = compensated_step
    /\ error_compensation_active (run cfg nows alts (S n) c0)
       = (remaining_steps >? 0)%Z).
  { simpl.
    destruct (update_schedule (nows n) (alts n) (run cfg nows alts n c0))
      as (S1 & _ & S3 & _ & _ & _ & _ & S8).
    rewrite S1, S3, S8.
    apply exhausted_compensates, in_transition_run. unfold n. lia. }
  destruct Hlast as (Hactive & Hstep & Hflag).
  repeat split; try assumption.
  - intros k Hk.
    destruct (in_transition_run (S k) Hk) as (_ & _ & _ & _ & _ & _ & _ & H).
    apply H. reflexivity.
  - intros m Hm.
    destruct (settled_step_run c0 (S n) m Hm Hactive) as (_ & -> & _).
    exact Hstep.
Qed.

End Schedule.

(** ** The hand-over of the step between controllers *)

Section Handover.

Import Controller Main.

Variable cfg : config.t.

Lemma calculate_step_defined start_z end_depth speed dist :
  ~ dist == 0 ->
  exists step, calculate_step cfg start_z end_depth speed dist = Some step.
Proof.
  intros Hd. unfold calculate_step.
  destruct (Qeq_bool dist 0) eqn:E; [|eauto].
  apply Qeq_bool_iff in E. contradiction.
Qed.

(** The first tick of a fresh controller keeps the step it was built with,
    as soon as the transition has a first sample to hand out. *)
Lemma first_tick_keeps_step now altitude start_z end_depth step angle down p :
  (1 <= config.transition_time cfg)%nat \/ p == step ->
  current_step
    (fst (update cfg now altitude
            (__init__ cfg start_z end_depth step angle down p))) == p.
Proof.
  intros Hn.
  set (b := __init__ cfg start_z end_depth step angle down p).
  destruct (update_schedule cfg now altitude b) as (-> & _).
  unfold _update_step_transition.
  destruct (Qeq_bool p step) eqn:E.
  - replace (step_transition_active b) with false
      by (unfold b, __init__; attributes; rewrite E; reflexivity).
    reflexivity.
  - replace (step_transition_active b) with true
      by (unfold b, __init__; attributes; rewrite E; reflexivity).
    destruct Hn as [Hn | Hp]; [|apply Qeq_bool_iff in Hp; congruence].
    destruct (linspace_first p step _ Hn) as (x & rest & Hl & Hx).
    replace (step_iterator b) with (x :: rest)
      by (unfold b, __init__; attributes; symmetry; exact Hl).
    cbn [negb]. attributes. exact Hx.
Qed.

(** C7, as the code has it.  When the loop of a controller is left, by
    cancellation or by an error, the manager's [last_step] is the step the
    controller had after its last tick.  A controller built with that value
    as its previous step starts with it and, provided the transition has at
    least one sample or there is no transition at all, still has it after
    its first tick: the step is handed over without a jump. *)
Theorem step_handover (subphase_data : Subphase) (p : Q) (m : PhaseManager)
    (ticks : list (Q * option Q)) (e : Exit) :
  ~ distance subphase_data == 0 ->
  exists (a : DepthController) (m' : PhaseManager),
    virtual_slope_loop cfg subphase_data p (Some m) ticks e
    = Raised e (Some m') a
    /\ get_last_step m' = current_step a
    /\ forall start_z end_depth step angle down,
         let b :=
           __init__ cfg start_z end_depth step angle down (get_last_step m')
         in
         current_step b = current_step a
         /\ forall now altitude,
              (1 <= config.transition_time cfg)%nat
              \/ current_step a == step ->
              Qabs (current_step (fst (update cfg now altitude b))
                    - current_step a) == 0.
Proof.
  intros Hd.
  destruct (calculate_step_defined (START_Z subphase_data)
              (END_Z subphase_data) (SPEED subphase_data) _ Hd)
    as [step0 Hstep].
  set (a := loop_body cfg ticks
              (__init__ cfg (START_Z subphase_data) (END_Z subphase_data)
                 step0 (angle_step subphase_data)
                 (Qgtb (END_Z subphase_data) (START_Z subphase_data)) p)).
  exists a, (set_last_step (current_step a) m).
  split.
  { unfold virtual_slope_loop. rewrite Hstep. fold a.
    destruct e; reflexivity. }
  split; [reflexivity|].
  intros start_z end_depth step angle down b. split; [reflexivity|].
  intros now altitude Hn. unfold b.
  change (get_last_step (set_last_step (current_step a) m))
    with (current_step a).
  rewrite first_tick_keeps_step by exact Hn.
  setoid_replace (current_step a - current_step a) with 0 by ring.
  reflexivity.
Qed.

End Handover.

(** ** The NAVIGATION telegrams *)

Section Telegrams.

Import DesBridge.

Variable float : string -> option Q.

(** The data fields of a telegram: what follows the tag. *)
Definition data_fields (message : string) : nat :=
  (List.length (fields_of message) - 1)%nat.

(** A telegram is published when the store holds its frame afterwards,
    whatever it held before, and dropped when the store is left as it was. *)
Definition publishes (message : string) : Prop :=
  exists frame, forall latest,
    parse_navigation float latest message = Some frame.

Definition drops (message : string) : Prop :=
  forall latest, parse_navigation float latest message = latest.

Lemma split_nonempty sep s : (1 <= List.length (split sep s))%nat.
Proof.
  induction s as [|ch rest IH]; simpl; [lia|].
  destruct (Ascii.eqb ch sep); simpl; [lia|].
  destruct (split sep rest); simpl in *; lia.
Qed.

Lemma fields_of_nonempty message :
  (1 <= List.length (fields_of message))%nat.
Proof. unfold fields_of. apply split_nonempty. Qed.

(** A line with the NAVIGATION tag goes to the parser. *)
Lemma process_navigation_line latest message :
  startswith message "$NAVIGATION" = true ->
  process_message float latest message
  = parse_navigation float latest message.
Proof.
  intros H. unfold process_message. rewrite H.
  destruct (startswith message "$HBEAT") eqn:E; [|reflexivity].
  exfalso.
  destruct message as [|a0 [|a1 rest]]; cbn [startswith] in H, E;
    try discriminate; rewrite ?andb_false_r in H; try discriminate.
  apply andb_prop in H as [_ H]. apply andb_prop in H as [H _].
  apply andb_prop in E as [_ E]. apply andb_prop in E as [E _].
  apply Ascii.eqb_eq in H, E. congruence.
Qed.

Lemma safe_float_absent value :
  value = ""%string \/ upper value = "UNDEF"%string \/ float value = None ->
  safe_float float value = None.
Proof.
  unfold safe_float. intros [-> | [H | H]].
  - reflexivity.
  - rewrite H. rewrite String.eqb_refl, orb_true_r. reflexivity.
  - rewrite H. destruct (_ || _); reflexivity.
Qed.

(** C8, as the code has it.  The parser counts the pieces between commas,
    the tag among them: a telegram is published exactly when it has at least
    nine data fields and dropped, the store untouched, exactly when it has
    fewer.  In a published frame data field 5 is the altitude and data
    field 23, when the telegram is that long, the heading; a field that is
    empty, spells UNDEF in any case, or is no float, is absent. *)
Theorem parse_navigation_publishes (message : string) :
  (publishes message <-> (9 <= data_fields message)%nat)
  /\ (drops message <-> (data_fields message < 9)%nat)
  /\ (forall latest frame,
        parse_navigation float latest message = Some frame ->
        (9 <= data_fields message)%nat ->
        altitude frame
        = safe_float float (nth 5 (fields_of message) EmptyString)
        /\ heading frame
           = (if (23 <=? data_fields message)%nat
              then safe_float float (nth 23 (fields_of message) EmptyString)
              else None))
  /\ (forall value,
        value = ""%string \/ upper value = "UNDEF"%string
        \/ float value = None ->
        safe_float float value = None).
Proof.
  pose proof (fields_of_nonempty message) as Hlen.
  unfold publishes, drops, data_fields, parse_navigation.
  destruct (List.length (fields_of message) <? 10)%nat eqn:Hshort.
  - apply Nat.ltb_lt in Hshort.
    split; [split|split; [split|split]].
    + intros [frame H]. specialize (H None). discriminate.
    + lia.
    + lia.
    + reflexivity.
    + intros latest frame _ H. lia.
    + apply safe_float_absent.
  - apply Nat.ltb_ge in Hshort.
    split; [split|split; [split|split]].
    + lia.
    + intros _. eexists. intros latest. reflexivity.
    + intros H. specialize (H None). discriminate.
    + lia.
    + intros latest frame [= <-] _. cbn [altitude heading].
      replace (5 <? List.length (fields_of message))%nat with true
        by (symmetry; apply Nat.ltb_lt; lia).
      split; [reflexivity|].
      destruct (23 <=? List.length (fields_of message) - 1)%nat eqn:E.
      * apply Nat.leb_le in E.
        replace (23 <? List.length (fields_of message))%nat with true
          by (symmetry; apply Nat.ltb_lt; lia).
        reflexivity.
      * apply Nat.leb_gt in E.
        replace (23 <? List.length (fields_of message))%nat with false
          by (symmetry; apply Nat.ltb_ge; lia).
        reflexivity.
    + apply safe_float_absent.
Qed.

End Telegrams.

(** ** Reachable controllers *)

Section Reachable.

Import Controller Main.

Variable cfg : config.t.

Lemma update_step_transition_state c :
  state (_update_step_transition c) = state c
  /\ state_start_time (_update_step_transition c) = state_start_time c.
Proof.
  unfold _update_step_transition, _calculate_error_compensation.
  branches; split; reflexivity.
Qed.

Lemma handle_transitions_wait_started now altitude c :
  wait_started c -> wait_started (_handle_transitions now altitude c).
Proof.
  intros Hc. unfold _handle_transitions.
  destruct altitude; branches;
    try apply set_state_wait_started; exact Hc.
Qed.

Lemma execute_wait_started now c :
  wait_started c -> wait_started (fst (_execute_current_state cfg now c)).
Proof.
  intros Hc.
  by_state c; branches; cbn [fst];
    try (apply set_state_wait_started; exact Hc);
    unfold wait_started; attributes; intros Hs;
    try congruence; apply Hc; assumption.
Qed.

Lemma advance_vs_state c :
  state (_advance_vs c) = state c
  /\ state_start_time (_advance_vs c) = state_start_time c.
Proof. unfold _advance_vs. branches; split; reflexivity. Qed.

(** Every tick keeps the start time of [WAIT] readable. *)
Lemma update_wait_started now altitude c :
  wait_started c -> wait_started (fst (update cfg now altitude c)).
Proof.
  intros Hc. unfold update.
  set (c2 := _handle_transitions now altitude (_update_step_transition c)).
  assert (H2 : wait_started c2).
  { apply handle_transitions_wait_started.
    destruct (update_step_transition_state c) as [Hs Ht].
    unfold wait_started. rewrite Hs, Ht. exact Hc. }
  pose proof (execute_wait_started now c2 H2) as H3.
  destruct (_execute_current_state cfg now c2) as [c3 sent]. simpl in *.
  assert (H4 : wait_started (_advance_vs c3)).
  { destruct (advance_vs_state c3) as [Hs Ht].
    unfold wait_started. rewrite Hs, Ht. exact H3. }
  branches; try apply set_state_wait_started; exact H4.
Qed.

(** So the hypothesis of [handle_transitions_rule] holds of every
    controller a run can produce. *)
Lemma run_wait_started nows alts n start_z end_depth step angle down p :
  wait_started
    (run cfg nows alts n (__init__ cfg start_z end_depth step angle down p)).
Proof.
  induction n as [|n IH]; simpl.
  - unfold wait_started, __init__. attributes. discriminate.
  - apply update_wait_started, IH.
Qed.

(** The step computed from a plan points from its start to its end. *)
Lemma calculate_step_sign start_z end_depth speed dist step :
  0 < speed -> 0 < dist -> 0 < config.command_period cfg ->
  calculate_step cfg start_z end_depth speed dist = Some step ->
  (start_z < end_depth -> 0 < step) /\ (end_depth < start_z -> step < 0).
Proof.
  intros Hs Hd Hp. unfold calculate_step.
  destruct (Qeq_bool dist 0); [discriminate|]. intros [= <-].
  assert (Hk : 0 < speed / dist * config.command_period cfg).
  { apply Qmult_lt_0_compat; [|exact Hp].
    apply Qlt_shift_div_l; [exact Hd | lra]. }
  setoid_replace
    ((end_depth - start_z) * speed / dist * config.command_period cfg)
    with ((end_depth - start_z) * (speed / dist * config.command_period cfg))
    by (field; lra).
  split; intros H; nra.
Qed.

(** The requests of a run: tick [k] asks for the depth sent during it and
    gets the reply [replies k]. *)
Definition calls_of_run (nows : nat -> Q) (alts : nat -> option Q)
    (replies : nat -> Backseat.Reply) (n : nat) (c : DepthController)
  : list (Q * Backseat.Reply) :=
  map (fun k => (sent_at cfg nows alts k c, replies k)) (seq 0 n).

(** Whatever the controller commands, what reaches the server stays in the
    envelope. *)
Lemma controller_setpoints_in_envelope nows alts replies n c :
  Forall (in_envelope cfg)
    (Backseat.posted
       (Backseat.send_all exact cfg (calls_of_run nows alts replies n c)
          (Backseat.initial exact))).
Proof.
  apply (store_ok_send_all cfg _ (Backseat.initial exact)
           (store_ok_initial cfg)).
Qed.

End Reachable.

(** * The controller in the arithmetic of the machine *)

(** Reads attributes through assignments, and nothing else. *)
Ltac float_attributes :=
  cbn [Float.current_z Float.end_z Float.step
       Float.end_z_reached Float.target_step
       Float.current_step Float.max_angle_step
       Float.trajectory_down Float.altitude_threshold_level
       Float.altitude_threshold_ascend Float.wait_time
       Float.command_depth Float.state Float.state_start_time
       Float._wait_from_ascend Float.planned_z
       Float.error_compensation_active Float.original_target_step
       Float.original_previous_step Float.transition_list
       Float.step_iterator Float.step_transition_active
       Float.set_current_z Float.set_end_z_reached
       Float.set_target_step Float.set_current_step
       Float.set_command_depth Float.set_state
       Float.set_state_start_time Float.set_wait_from_ascend
       Float.set_error_compensation_active Float.set_step_iterator
       Float.set_step_transition_active fst snd negb andb orb option_map]
    in *.

(** Case analysis on the tests of the goal, innermost first. *)
Ltac float_branches :=
  repeat (float_attributes;
          match goal with
          | |- context [match ?x with _ => _ end] =>
              lazymatch x with
              | context [match _ with _ => _ end] => fail
              | _ => destruct x eqn:?
              end
          end).

Section FloatSchedule.

Import Controller Float.

Variable A : Arith.t.

Local Abbreviation F := (Arith.F A).

Variable cfg : config.settings F.

(** The attributes of the step schedule. *)
Definition float_same_schedule (c c' : DepthController A) : Prop :=
  current_step c' = current_step c
  /\ step_iterator c' = step_iterator c
  /\ step_transition_active c' = step_transition_active c
  /\ transition_list c' = transition_list c
  /\ original_target_step c' = original_target_step c
  /\ planned_z c' = planned_z c
  /\ end_z c' = end_z c
  /\ error_compensation_active c' = error_compensation_active c.

Lemma float_same_schedule_refl c : float_same_schedule c c.
Proof. repeat split. Qed.

Lemma float_same_schedule_trans c1 c2 c3 :
  float_same_schedule c1 c2 -> float_same_schedule c2 c3 ->
  float_same_schedule c1 c3.
Proof.
  unfold float_same_schedule.
  intros (A1 & A2 & A3 & A4 & A5 & A6 & A7 & A8)
         (B1 & B2 & B3 & B4 & B5 & B6 & B7 & B8).
  repeat split; congruence.
Qed.

Lemma float_set_state_schedule now new_state c :
  float_same_schedule c (_set_state A now new_state c).
Proof.
  unfold _set_state. destruct (State_eqb (state c) new_state).
  - apply float_same_schedule_refl.
  - destruct new_state; repeat split.
Qed.

Lemma float_handle_transitions_schedule now altitude c :
  float_same_schedule c (_handle_transitions A now altitude c).
Proof.
  unfold _handle_transitions.
  float_branches; try apply float_set_state_schedule;
    apply float_same_schedule_refl.
Qed.

Lemma float_execute_schedule now c :
  float_same_schedule c (fst (_execute_current_state A cfg now c)).
Proof.
  unfold _execute_current_state, _state_normal, _state_hold, _state_ascend,
    _state_wait, _state_return.
  float_branches; try apply float_set_state_schedule; repeat split.
Qed.

Lemma float_advance_vs_schedule c :
  float_same_schedule c (_advance_vs A c).
Proof. unfold _advance_vs. float_branches; repeat split. Qed.

(** After its first line a tick leaves the schedule alone, and it raises
    only in that line. *)
Lemma float_update_schedule now altitude c :
  match _update_step_transition A c with
  | Some c1 =>
      exists c' sent,
        update A cfg now altitude c = Some (c', sent)
        /\ float_same_schedule c1 c'
  | None => update A cfg now altitude c = None
  end.
Proof.
  unfold update.
  destruct (_update_step_transition A c) as [c1|]; [|reflexivity].
  set (c2 := _handle_transitions A now altitude c1).
  pose proof (float_execute_schedule now c2) as He.
  destruct (_execute_current_state A cfg now c2) as [c3 sent].
  cbn [fst] in He. eexists. eexists. split; [reflexivity|].
  eapply float_same_schedule_trans;
    [apply (float_handle_transitions_schedule now altitude)|fold c2].
  eapply float_same_schedule_trans; [exact He|].
  eapply float_same_schedule_trans; [apply float_advance_vs_schedule|].
  float_branches; try apply float_set_state_schedule;
    apply float_same_schedule_refl.
Qed.

Lemma float_linspace_length a b n : List.length (linspace A a b n) = n.
Proof.
  destruct n as [|[|n]]; try reflexivity.
  unfold linspace. rewrite length_app, length_map, length_seq.
  cbn [List.length]. lia.
Qed.

Variables (nows : nat -> F) (alts : nat -> option F).
Variables (start_z end_depth step angle_step : F) (down : bool).
Variable previous_step : F.

(** [previous_step != step] in [__init__]. *)
Hypothesis steps_differ : Arith.eqb A previous_step step = false.

Let c0 : DepthController A :=
  __init__ A cfg start_z end_depth step angle_step down previous_step.

Let N : nat := config.transition_time cfg.

Let sequence : list F := linspace A previous_step step N.

(** While the transition lasts: after [k] ticks the first [k] samples are
    gone and the last one handed out is the active step. *)
Definition float_in_transition (k : nat) (c : DepthController A) : Prop :=
  step_transition_active c = true
  /\ step_iterator c = skipn k sequence
  /\ transition_list c = sequence
  /\ original_target_step c = step
  /\ planned_z c = start_z
  /\ end_z c = end_depth
  /\ error_compensation_active c = false
  /\ forall j, k = S j -> current_step c = nth j sequence step.

Lemma float_in_transition_init : float_in_transition 0 c0.
Proof.
  unfold float_in_transition, c0, __init__. float_attributes.
  rewrite steps_differ. repeat split. discriminate.
Qed.

Lemma float_skipn_cons_nth (l : list F) k x rest d :
  skipn k l = x :: rest -> nth k l d = x /\ skipn (S k) l = rest.
Proof.
  revert l. induction k as [|k IH]; intros [|y l] H; cbn [skipn nth] in *;
    try discriminate.
  - injection H as -> ->. split; reflexivity.
  - apply IH, H.
Qed.

Lemma float_skipn_nonempty (l : list F) k :
  (k < List.length l)%nat -> exists x rest, skipn k l = x :: rest.
Proof.
  revert l. induction k as [|k IH]; intros [|y l] H;
    cbn [skipn List.length] in *; try lia.
  - eauto.
  - apply IH. lia.
Qed.

Lemma float_in_transition_step k c x rest :
  float_in_transition k c -> skipn k sequence = x :: rest ->
  exists c' sent,
    update A cfg (nows k) (alts k) c = Some (c', sent)
    /\ float_in_transition (S k) c'.
Proof.
  intros (Ha & Hi & Hl & Ho & Hp & He & Hc & _) Hx.
  pose proof (float_update_schedule (nows k) (alts k) c) as Hu.
  unfold _update_step_transition in Hu. rewrite Ha, Hi, Hx in Hu.
  cbn [negb] in Hu.
  destruct Hu as (c' & sent & -> & S1 & S2 & S3 & S4 & S5 & S6 & S7 & S8).
  exists c', sent. split; [reflexivity|].
  float_attributes.
  destruct (float_skipn_cons_nth _ _ _ _ step Hx) as [Hn Hs].
  unfold float_in_transition.
  rewrite S1, S2, S3, S4, S5, S6, S7, S8.
  repeat split; try assumption.
  - symmetry. exact Hs.
  - intros j [= <-]. symmetry. exact Hn.
Qed.

Lemma float_in_transition_run k :
  (k <= N)%nat ->
  exists c, run A cfg nows alts k c0 = Some c /\ float_in_transition k c.
Proof.
  induction k as [|k IH]; intros Hk.
  - exists c0. split; [reflexivity|apply float_in_transition_init].
  - destruct IH as (c & Hrun & Hc); [lia|].
    destruct (float_skipn_nonempty sequence k) as (x & rest & Hx).
    { unfold sequence. rewrite float_linspace_length. lia. }
    destruct (float_in_transition_step k c x rest Hc Hx)
      as (c' & sent & Hu & Hc').
    exists c'. split; [|exact Hc'].
    cbn [run]. rewrite Hrun, Hu. reflexivity.
Qed.

(** The quantities of the compensation, in the arithmetic of the code. *)
Definition float_linear_movement : F :=
  Arith.mul A step (Arith.of_Z A (Z.of_nat N)).

Definition float_accumulated_error : F :=
  Arith.sub A float_linear_movement (sum A sequence).

Definition float_remaining_trajectory : F :=
  Arith.sub A (Arith.sub A end_depth start_z) float_linear_movement.

(** The compensation is attempted: neither the remaining trajectory nor
    the target step is zero (or NaN). *)
Definition float_compensable : bool :=
  Arith.gtb A (Arith.abs A float_remaining_trajectory) (Arith.of_Z A 0)
  && Arith.gtb A (Arith.abs A step) (Arith.of_Z A 0).

(** [math.ceil] of the quotient; [None] when it raises. *)
Definition float_remaining_steps : option Z :=
  Arith.ceil A (Arith.abs A (Arith.div A float_remaining_trajectory step)).

Definition float_compensated_step (remaining_steps : Z) : F :=
  Arith.add A step
    (Arith.div A float_accumulated_error (Arith.of_Z A remaining_steps)).

(** The line of the tick that finds the sequence used up. *)
Lemma float_exhausted c :
  float_in_transition N c ->
  _update_step_transition A c
  = if float_compensable then
      match float_remaining_steps with
      | None => None
      | Some r =>
          if (r >? 0)%Z then
            Some (set_error_compensation_active true
                    (set_target_step (float_compensated_step r)
                       (set_current_step (float_compensated_step r)
                          (set_step_transition_active false c))))
          else Some (set_current_step step
                       (set_step_transition_active false c))
      end
    else Some (set_current_step step (set_step_transition_active false c)).
Proof.
  intros (Ha & Hi & Hl & Ho & Hp & He & Hc & _).
  assert (Hnil : step_iterator c = []).
  { rewrite Hi. apply skipn_all2. unfold sequence.
    rewrite float_linspace_length. lia. }
  unfold _update_step_transition. rewrite Ha, Hnil. cbn [negb].
  unfold _calculate_error_compensation. float_attributes.
  rewrite Hl, Ho, Hp, He.
  replace (List.length sequence) with N
    by (unfold sequence; rewrite float_linspace_length; reflexivity).
  reflexivity.
Qed.

(** Once the transition is over the active step never changes and no tick
    raises. *)
Lemma float_settled_step_run c n m cn :
  (n <= m)%nat ->
  run A cfg nows alts n c = Some cn ->
  step_transition_active cn = false ->
  exists cm,
    run A cfg nows alts m c = Some cm
    /\ step_transition_active cm = false
    /\ current_step cm = current_step cn
    /\ error_compensation_active cm = error_compensation_active cn.
Proof.
  intros Hle Hrun Hn.
  induction Hle as [|m Hle (cm & Hm & IH1 & IH2 & IH3)].
  - exists cn. repeat split; assumption.
  - pose proof (float_update_schedule (nows m) (alts m) cm) as Hu.
    unfold _update_step_transition in Hu. rewrite IH1 in Hu.
    cbn [negb] in Hu.
    destruct Hu as (c' & sent & Hu & S1 & _ & S3 & _ & _ & _ & _ & S8).
    exists c'. cbn [run]. rewrite Hm, Hu. float_attributes.
    repeat split; congruence.
Qed.

(** C5.  In the arithmetic of the code, whatever the states and the
    altitudes: a controller built with a previous step other than its
    target step hands out the samples of the transition one per tick; the
    tick after the last sample leaves the target step as the active step
    when the remaining trajectory or the target step is zero, and otherwise
    takes [math.ceil] of the quotient: if that raises, the tick raises; if
    it gives a positive number of remaining steps, the active step becomes
    the target step plus the accumulated error divided by that number and
    the compensation is marked active; if it gives zero, the target step
    stays.  The step then stays as it is on every later tick. *)
Theorem float_error_compensation_after_transition :
  (forall k, (k < N)%nat ->
     exists c,
       run A cfg nows alts (S k) c0 = Some c
       /\ current_step c = nth k sequence step)
  /\ (float_compensable = false ->
      exists c,
        run A cfg nows alts (S N) c0 = Some c
        /\ current_step c = step
        /\ error_compensation_active c = false
        /\ forall m, (S N <= m)%nat ->
             exists cm,
               run A cfg nows alts m c0 = Some cm
               /\ current_step cm = step)
  /\ (float_compensable = true ->
      forall r, float_remaining_steps = Some r ->
      exists c,
        run A cfg nows alts (S N) c0 = Some c
        /\ current_step c
           = (if (r >? 0)%Z then float_compensated_step r else step)
        /\ error_compensation_active c = (r >? 0)%Z
        /\ forall m, (S N <= m)%nat ->
             exists cm,
               run A cfg nows alts m c0 = Some cm
               /\ current_step cm = current_step c)
  /\ (float_compensable = true -> float_remaining_steps = None ->
      run A cfg nows alts (S N) c0 = None).
Proof.
  destruct (float_in_transition_run N (le_n N)) as (cN & HrunN & HcN).
  pose proof (float_exhausted cN HcN) as Hline.
  pose proof (float_update_schedule (nows N) (alts N) cN) as Hu.
  destruct HcN as (_ & _ & _ & _ & _ & _ & Hflag & _).
  assert (Hafter : forall c,
    run A cfg nows alts (S N) c0 = Some c ->
    step_transition_active c = false ->
    forall m, (S N <= m)%nat ->
      exists cm,
        run A cfg nows alts m c0 = Some cm
        /\ current_step cm = current_step c).
  { intros c Hrun Hoff m Hm.
    destruct (float_settled_step_run c0 (S N) m c Hm Hrun Hoff)
      as (cm & Hcm & _ & Hstep & _).
    exists cm. split; assumption. }
  split; [|split; [|split]].
  - intros k Hk.
    destruct (float_in_transition_run (S k) Hk)
      as (c & Hrun & _ & _ & _ & _ & _ & _ & _ & H).
    exists c. split; [exact Hrun|]. apply H. reflexivity.
  - intros Hno. rewrite Hline, Hno in Hu.
    destruct Hu as (c & sent & Hu & S1 & _ & S3 & _ & _ & _ & _ & S8).
    float_attributes.
    assert (Hrun : run A cfg nows alts (S N) c0 = Some c).
    { cbn [run]. rewrite HrunN, Hu. reflexivity. }
    exists c. repeat split; try congruence.
    intros m Hm. destruct (Hafter c Hrun S3 m Hm) as (cm & Hcm & Hstep).
    exists cm. split; congruence.
  - intros Hyes r Hr. rewrite Hline, Hyes, Hr in Hu.
    destruct (r >? 0)%Z;
      destruct Hu as (c & sent & Hu & S1 & _ & S3 & _ & _ & _ & _ & S8);
      float_attributes;
      (assert (Hrun : run A cfg nows alts (S N) c0 = Some c)
         by (cbn [run]; rewrite HrunN, Hu; reflexivity));
      exists c; repeat split; try congruence;
      apply (Hafter c Hrun S3).
  - intros Hyes Hr. rewrite Hline, Hyes, Hr in Hu.
    cbn [run]. rewrite HrunN, Hu. reflexivity.
Qed.

End FloatSchedule.

Section FloatCleanRun.

Import Controller Float.

Variable A : Arith.t.

Local Abbreviation F := (Arith.F A).

Variable cfg : config.settings F.
Variables (nows : nat -> F) (alts : nat -> option F).
Variables (start_z end_depth step angle_step : F).

(** [previous_step] is [step], and [previous_step != step] in [__init__]
    is false: the step equals itself (it is not NaN). *)
Hypothesis no_transition : Arith.eqb A step step = true.

(** On every tick there is an altitude, and it is below neither threshold:
    both tests of [_handle_transitions] fail. *)
Hypothesis altitude_safe :
  forall k, exists a,
    alts k = Some a
    /\ Arith.ltb A a (config.altitude_threshold_ascend cfg) = false
    /\ Arith.ltb A a (config.altitude_threshold_level cfg) = false.

(** [trajectory_down] as [virtual_slope_loop] computes it. *)
Let down : bool := Arith.gtb A end_depth start_z.

Let c0 : DepthController A :=
  __init__ A cfg start_z end_depth step angle_step down step.

(** The planned depth after [k] additions of the step, each one rounded. *)
Definition float_plan (k : nat) : F :=
  Nat.iter k (fun z => Arith.add A z step) start_z.

(** The tests that end the plan at the planned depth [z]: the look-ahead of
    [_state_normal], then the test of [_advance_vs]. *)
Definition float_arrives (z : F) : bool :=
  if down
  then Arith.geb A (Arith.add A z step) end_depth || Arith.geb A z end_depth
  else Arith.leb A (Arith.add A z step) end_depth || Arith.leb A z end_depth.

(** What every tick of the run keeps. *)
Definition float_on_course (c : DepthController A) : Prop :=
  state c = NORMAL /\ step_transition_active c = false
  /\ altitude_threshold_ascend c = config.altitude_threshold_ascend cfg
  /\ altitude_threshold_level c = config.altitude_threshold_level cfg
  /\ current_step c = step /\ trajectory_down c = down
  /\ end_z c = end_depth.

(** One tick on course with a safe altitude. *)
Lemma float_clean_tick k c :
  float_on_course c ->
  exists c' sent,
    update A cfg (nows k) (alts k) c = Some (c', sent)
    /\ float_on_course c'
    /\ (end_z_reached c = true ->
        end_z_reached c' = true /\ current_z c' = current_z c)
    /\ (end_z_reached c = false -> float_arrives (current_z c) = true ->
        end_z_reached c' = true /\ current_z c' = end_depth)
    /\ (end_z_reached c = false -> float_arrives (current_z c) = false ->
        end_z_reached c' = false
        /\ current_z c' = Arith.add A (current_z c) step).
Proof.
  intros (Hs & Ht & Hasc & Hlvl & Hstep & Hd & He).
  destruct (altitude_safe k) as (a & -> & Ha1 & Ha2).
  unfold update, _update_step_transition. rewrite Ht. cbn [negb].
  unfold _handle_transitions. rewrite Hasc, Hlvl, Ha1, Ha2, Hs.
  rewrite andb_false_r. cbv beta iota.
  unfold _execute_current_state. rewrite Hs.
  unfold _state_normal, _advance_vs, float_arrives, float_on_course.
  destruct (end_z_reached c) eqn:Hr;
    [|destruct down eqn:Edown;
      [destruct (Arith.geb A (Arith.add A (current_z c) step) end_depth)
         eqn:Elook;
       [|destruct (Arith.geb A (current_z c) end_depth) eqn:Eat]
      |destruct (Arith.leb A (Arith.add A (current_z c) step) end_depth)
         eqn:Elook;
       [|destruct (Arith.leb A (current_z c) end_depth) eqn:Eat]]];
    repeat (progress (float_attributes; cbn [State_eqb];
                      rewrite ?Hr, ?Hs, ?Hstep, ?Hd, ?He, ?Elook, ?Eat));
    eexists; eexists; (split; [reflexivity|]);
    repeat (progress (float_attributes;
                      rewrite ?Hr, ?Hs, ?Hstep, ?Hd, ?He, ?Elook, ?Eat));
    repeat split; try assumption; try discriminate; try reflexivity.
Qed.

Lemma float_on_course_init : float_on_course c0.
Proof.
  unfold float_on_course, c0, __init__. float_attributes.
  rewrite no_transition. repeat split.
Qed.

(** Every tick of the run is made and leaves the controller on course. *)
Lemma float_on_course_run k :
  exists c, run A cfg nows alts k c0 = Some c /\ float_on_course c.
Proof.
  induction k as [|k (c & Hrun & Hc)].
  - exists c0. split; [reflexivity|apply float_on_course_init].
  - destruct (float_clean_tick k c Hc) as (c' & sent & Hu & Hc' & _).
    exists c'. split; [|exact Hc'].
    cbn [run]. rewrite Hrun, Hu. reflexivity.
Qed.

(** Until the plan arrives the planned depth is the rounded sum. *)
Lemma float_run_tracks_plan k :
  (forall j, (j < k)%nat -> float_arrives (float_plan j) = false) ->
  exists c,
    run A cfg nows alts k c0 = Some c /\ float_on_course c
    /\ end_z_reached c = false /\ current_z c = float_plan k.
Proof.
  induction k as [|k IH]; intros Hnot.
  - exists c0. split; [reflexivity|].
    split; [apply float_on_course_init|]. split; reflexivity.
  - destruct IH as (c & Hrun & Hc & Hr & Hz).
    { intros j Hj. apply Hnot. lia. }
    destruct (float_clean_tick k c Hc)
      as (c' & sent & Hu & Hc' & _ & _ & Hgo).
    destruct (Hgo Hr) as [Hr' Hz'].
    { rewrite Hz. apply Hnot. lia. }
    exists c'. cbn [run]. rewrite Hrun, Hu.
    split; [reflexivity|]. split; [exact Hc'|]. split; [exact Hr'|].
    rewrite Hz', Hz. reflexivity.
Qed.

(** Once the end depth is reached it stays reached. *)
Lemma float_run_stays_reached n m cn :
  (n <= m)%nat ->
  run A cfg nows alts n c0 = Some cn -> float_on_course cn ->
  end_z_reached cn = true ->
  exists cm,
    run A cfg nows alts m c0 = Some cm /\ float_on_course cm
    /\ end_z_reached cm = true /\ current_z cm = current_z cn.
Proof.
  intros Hle Hrun Hc Hr.
  induction Hle as [|m Hle (cm & Hm & Hcm & Hrm & Hzm)].
  - exists cn. split; [exact Hrun|]. split; [exact Hc|].
    split; [exact Hr|reflexivity].
  - destruct (float_clean_tick m cm Hcm)
      as (c' & sent & Hu & Hc' & Hstay & _).
    destruct (Hstay Hrm) as [Hr' Hz'].
    exists c'. cbn [run]. rewrite Hm, Hu.
    split; [reflexivity|]. split; [exact Hc'|]. split; [exact Hr'|].
    congruence.
Qed.

(** The first index at which a test on the naturals succeeds. *)
Lemma first_success (P : nat -> bool) n :
  P n = true ->
  exists m, (m <= n)%nat /\ P m = true
            /\ forall j, (j < m)%nat -> P j = false.
Proof.
  induction n as [n IH] using (well_founded_induction lt_wf).
  intros Hn.
  destruct (existsb P (seq 0 n)) eqn:E.
  - apply existsb_exists in E. destruct E as (j & Hj & Pj).
    apply in_seq in Hj.
    destruct (IH j ltac:(lia) Pj) as (m & Hm & Pm & Hbefore).
    exists m. repeat split; try assumption. lia.
  - exists n. repeat split; [lia|exact Hn|].
    intros j Hj. destruct (P j) eqn:Pj; [|reflexivity].
    assert (Hex : existsb P (seq 0 n) = true).
    { apply existsb_exists. exists j. split; [|exact Pj].
      apply in_seq. lia. }
    congruence.
Qed.


(** When the sums never pass the tests the end depth is never reached. *)
Lemma float_clean_run_never_arrives :
  (forall j, float_arrives (float_plan j) = false) ->
  forall k, exists c,
    run A cfg nows alts k c0 = Some c
    /\ end_z_reached c = false /\ current_z c = float_plan k.
Proof.
  intros Hnever k.
  destruct (float_run_tracks_plan k (fun j _ => Hnever j))
    as (c & Hrun & _ & Hr & Hz).
  exists c. repeat split; assumption.
Qed.

End FloatCleanRun.

(** ** The rounded plan read over the rationals *)

Section ExactPlan.

Import Controller Float.

Variables (start_z end_depth step : Q).

Hypothesis plan_not_flat : ~ start_z == end_depth.
Hypothesis step_down : start_z < end_depth -> 0 < step.
Hypothesis step_up : end_depth < start_z -> step < 0.

(** Without rounding the planned depth after [k] additions is the start
    depth plus [k] steps. *)
Lemma exact_plan_sum k :
  float_plan exact start_z step k
  == start_z + inject_Z (Z.of_nat k) * step.
Proof.
  induction k as [|k IH].
  - change (start_z == start_z + 0 * step). ring.
  - change (float_plan exact start_z step k + step
            == start_z + inject_Z (Z.of_nat (S k)) * step).
    rewrite IH, inject_nat_succ. ring.
Qed.

(** Over the rationals the plan always arrives: when it is not flat and
    the step has the sign that leads to the end depth, the sum passes the
    test of [_advance_vs] after [ceil ((end_z - start_z) / step)]
    additions. *)
Lemma exact_plan_arrives :
  float_arrives exact start_z end_depth step
    (float_plan exact start_z step
       (Z.to_nat (Qceiling ((end_depth - start_z) / step)))) = true.
Proof.
  set (n := Z.to_nat (Qceiling ((end_depth - start_z) / step))).
  pose proof (exact_plan_sum n) as Hz.
  assert (Hstep : ~ step == 0).
  { intro H0.
    destruct (Qlt_le_dec start_z end_depth) as [Hlt|Hle].
    - pose proof (step_down Hlt). lra.
    - destruct (Qlt_le_dec end_depth start_z) as [Hgt|Hge].
      + pose proof (step_up Hgt). lra.
      + apply plan_not_flat. lra. }
  destruct (enough_steps (end_depth - start_z) step Hstep) as [Hdown Hup].
  fold n in Hdown, Hup.
  unfold float_arrives, Arith.gtb, Arith.geb.
  cbn [Arith.ltb Arith.leb Arith.add Arith.F exact].
  destruct (Qltb start_z end_depth) eqn:E; qbool.
  - apply orb_true_iff. right. apply Qleb_le.
    specialize (Hdown (step_down E)). lra.
  - apply orb_true_iff. right. apply Qleb_le.
    assert (Hlt : end_depth < start_z).
    { destruct (Qlt_le_dec end_depth start_z) as [Hlt|Hle]; [exact Hlt|].
      exfalso. apply plan_not_flat. lra. }
    specialize (Hup (step_up Hlt)). lra.
Qed.

End ExactPlan.

(** * Scenarios

    The sample plans of the specification, run on the definitions above. *)

Module Scenarios.

Import Controller Main.

(** Envelope 0 to 100 m, thresholds 5 m and 3 m, two seconds of wait, one
    command per second. *)
Definition cfg (transition : nat) : config.t :=
  {| config.min_depth := 0;
     config.max_depth := 100;
     config.altitude_threshold_level := 5;
     config.altitude_threshold_ascend := 3;
     config.wait_time := 2;
     config.command_period := 1;
     config.transition_time := transition |}.

(** One tick per second, starting at 0. *)
Definition clock (k : nat) : Q := inject_Z (Z.of_nat k).

(** Eight metres above the seafloor on every tick. *)
Definition safe (k : nat) : option Q := Some 8.

(** Two metres on the first tick, eight afterwards. *)
Definition scare (k : nat) : option Q :=
  match k with
  | O => Some 2
  | S _ => Some 8
  end.

(** A descent of one metre in steps of 0.2 m. *)
Definition short_descent : DepthController :=
  __init__ (cfg 1) 10 11 (1 # 5) (1 # 2) true (1 # 5).

(** The descent from 10 m to 20 m over 50 m at 1 m/s. *)
Definition descent : Subphase :=
  {| START_Z := 10; END_Z := 20; SPEED := 1; distance := 50;
     angle_step := 1 # 2 |}.

(** A descent from the surface that follows an ascent: the step it inherits
    is negative. *)
Definition after_ascent : DepthController :=
  __init__ (cfg 5) 0 10 (1 # 5) (1 # 2) true (- (1 # 5)).

(** A plan that lies below the envelope. *)
Definition too_deep : DepthController :=
  __init__ (cfg 1) 150 200 (1 # 5) (1 # 2) true (1 # 5).

(** A descent that starts from rest with no transition samples. *)
Definition abrupt : DepthController :=
  __init__ (cfg 0) 0 10 (1 # 5) (1 # 2) true 0.

(** A descent that starts from rest and takes five samples to its step. *)
Definition smoothed : DepthController :=
  __init__ (cfg 5) 10 20 (1 # 5) (1 # 2) true 0.

Definition nine_fields : string :=
  "$NAVIGATION,48.1,-4.5,0.3,12.5,7.25,19.75,0.1,0.2,0.0"%string.

Definition ten_fields : string :=
  "$NAVIGATION,48.1,-4.5,0.3,12.5,UNDEF,19.75,0.1,0.2,0.0,x*5A"%string.

(** S1: the step of the plan is 0.2 m, and with one fifth as the step and
    exact sums the end depth is reached on the fiftieth tick, not before.
    [Machine.s1_ends_on_tick_51] runs the plan in binary64. *)
Example s1_step : calculate_step (cfg 1) 10 20 1 50 = Some (10 # 50).
Proof. reflexivity. Qed.

Example s1_clean_descent :
  let c0 := __init__ (cfg 1) 10 20 (1 # 5) (1 # 2) true (1 # 5) in
  end_z_reached (run (cfg 1) clock safe 49 c0) = false
  /\ end_z_reached (run (cfg 1) clock safe 50 c0) = true
  /\ current_z (run (cfg 1) clock safe 50 c0) = 20
  /\ state (run (cfg 1) clock safe 50 c0) = NORMAL.
Proof. vm_compute. repeat split. Qed.

(** S5: the samples from 0 to 0.2, their sum, and the compensated step
    when 45 steps remain. *)
Example s5_sequence :
  map Qred (linspace 0 (1 # 5) 5) = [0; 1 # 20; 1 # 10; 3 # 20; 1 # 5]
  /\ sum (linspace 0 (1 # 5) 5) == 1 # 2.
Proof. split; reflexivity. Qed.

Example s5_compensation :
  remaining_steps (cfg 5) 10 20 (1 # 5) = 45%Z
  /\ current_step (run (cfg 5) clock safe 6 smoothed)
     == (1 # 5) + (1 # 2) / 45.
Proof. split; reflexivity. Qed.

(** S6: 120 m is refused while nothing is remembered, and replaced by 50 m
    once 50 m has been sent. *)
Example s6_clamp_memory :
  Backseat.send_z_command exact (cfg 1) (Backseat.Status 200) 120
    (Backseat.initial exact)
  = (false, Backseat.initial exact)
  /\ Backseat.send_z_command exact (cfg 1) (Backseat.Status 200) 120
       (snd (Backseat.send_z_command exact (cfg 1) (Backseat.Status 200) 50
               (Backseat.initial exact)))
     = (true,
        {| Backseat._last_valid_depth := Some 50;
           Backseat.posted := [50; 50] |}).
Proof. split; reflexivity. Qed.

(** The plan below the envelope: three ticks command 150 m and more, and
    nothing is posted. *)
Example too_deep_is_never_posted :
  Backseat.posted
    (Backseat.send_all exact (cfg 1)
       (calls_of_run (cfg 1) clock safe (fun _ => Backseat.Status 200) 3
          too_deep)
       (Backseat.initial exact)) = [].
Proof. reflexivity. Qed.

End Scenarios.

(** * Scenarios in binary64

    The plans that rounding, NaN or an infinity decides, run as the
    interpreter runs them. *)

Module Machine.

Import Controller Float.

Definition number (n : Z) : spec_float := Binary64.of_Z n.

(** The configuration of the scenarios: envelope 0 to 100 m, thresholds 5 m
    and 3 m, two seconds of wait, one command per second. *)
Definition cfg (transition : nat) : config.settings spec_float :=
  {| config.min_depth := number 0;
     config.max_depth := number 100;
     config.altitude_threshold_level := number 5;
     config.altitude_threshold_ascend := number 3;
     config.wait_time := number 2;
     config.command_period := number 1;
     config.transition_time := transition |}.

(** One tick per second, starting at 0. *)
Definition clock (k : nat) : spec_float := number (Z.of_nat k).

(** Eight metres above the seafloor on every tick. *)
Definition safe (k : nat) : option spec_float := Some (number 8).

(** S1: from 10 m to 20 m in steps of 0.2 m. *)
Definition descent : DepthController binary64 :=
  __init__ binary64 (cfg 1) (number 10) (number 20) (Binary64.literal 1 5)
    (Binary64.literal 1 2) true (Binary64.literal 1 5).

(** From 10 m to 20 m in steps of [2 ** -60] m. *)
Definition absorbed : DepthController binary64 :=
  __init__ binary64 (cfg 1) (number 10) (number 20)
    (Binary64.power_of_two (-60)) (Binary64.literal 1 2)
    (Arith.gtb binary64 (number 20) (number 10))
    (Binary64.power_of_two (-60)).

(** From the surface to 12 m in steps of 0.3 m, the step smoothed from 0
    over five ticks. *)
Definition smoothed : DepthController binary64 :=
  __init__ binary64 (cfg 5) (number 0) (number 12) (Binary64.literal 3 10)
    (Binary64.literal 1 2) true (number 0).

(** From the surface to 100 m in steps of [2 ** -1070] m, the step smoothed
    from 0 over two ticks. *)
Definition overflowing : DepthController binary64 :=
  __init__ binary64 (cfg 2) (number 0) (number 100)
    (Binary64.power_of_two (-1070)) (Binary64.literal 1 2) true (number 0).

(** The sum [10 + 2 ** -60] rounds to 10. *)
Example step_is_absorbed :
  Arith.add binary64 (number 10) (Binary64.power_of_two (-60)) = number 10.
Proof. vm_compute. reflexivity. Qed.

(** S1 as the interpreter runs it: fifty rounded additions of 0.2 leave
    the planned depth short of 19.8, so the look-ahead fires on tick 51. *)
Example s1_ends_on_tick_51 :
  option_map (@end_z_reached binary64)
    (run binary64 (cfg 1) clock safe 50 descent) = Some false
  /\ option_map (@end_z_reached binary64)
       (run binary64 (cfg 1) clock safe 51 descent) = Some true
  /\ option_map (@current_z binary64)
       (run binary64 (cfg 1) clock safe 51 descent) = Some (number 20).
Proof. vm_compute. repeat split. Qed.

(** The quotient of the overflowing plan is an infinity: [math.ceil]
    raises, and so does the tick that finds the sequence used up. *)
Example ceil_raises_on_overflow :
  option_map (@state binary64)
    (run binary64 (cfg 2) clock safe 2 overflowing) = Some NORMAL
  /\ option_map (@state binary64)
       (run binary64 (cfg 2) clock safe 3 overflowing) = None.
Proof. vm_compute. split; reflexivity. Qed.

End Machine.

(** * The theorems at the sample plans *)

Section Instances.

Import Controller Main Scenarios.

(** C1 at the first tick of the short descent. *)
Lemma update_command_depth_in_envelope_witness :
  in_envelope (cfg 1)
    (command_depth (fst (update (cfg 1) 0 (Some 8) short_descent)))
  /\ snd (update (cfg 1) 0 (Some 8) short_descent)
     = command_depth (fst (update (cfg 1) 0 (Some 8) short_descent)).
Proof.
  apply (update_command_depth_in_envelope (cfg 1) 0 (Some 8) short_descent);
    split; vm_compute; discriminate.
Defined.

(** The claim of C1 fails as it stands: a plan below the envelope is
    commanded as it is, and a plan inside the envelope that inherits a
    negative step is commanded above the surface on its second tick. *)
Lemma command_depth_leaves_envelope :
  ~ in_envelope (cfg 1) (sent_at (cfg 1) clock safe 0 too_deep)
  /\ state (run (cfg 1) clock safe 1 too_deep) = NORMAL
  /\ in_envelope (cfg 5) (current_z after_ascent)
  /\ in_envelope (cfg 5) (end_z after_ascent)
  /\ ~ in_envelope (cfg 5)
         (command_depth (run (cfg 5) clock safe 2 after_ascent)).
Proof.
  repeat split; try (vm_compute; discriminate);
    intros [Hlo Hhi]; vm_compute in Hlo, Hhi; auto.
Defined.

(** C2 for a controller that has been in [WAIT] since second 1 and is asked
    at second 3. *)
Lemma handle_transitions_rule_witness :
  state (_handle_transitions 3 (Some 8)
           (run (cfg 1) clock scare 2 short_descent))
  = transition_rule 3 5 2 true 3 (Some 8) WAIT 1
      (command_depth (run (cfg 1) clock scare 2 short_descent))
      (current_z (run (cfg 1) clock scare 2 short_descent)).
Proof.
  apply (handle_transitions_rule 3 (Some 8)
           (run (cfg 1) clock scare 2 short_descent) 1).
  intros _. vm_compute. reflexivity.
Defined.

(** The cases of [send_z_command] at the two calls of scenario S6. *)
Lemma send_z_command_cases_witness :
  Backseat.send_z_command exact (cfg 1) (Backseat.Status 200) 120
    (Backseat.initial exact)
  = (false, Backseat.initial exact)
  /\ Backseat.send_z_command exact (cfg 1) (Backseat.Status 200) 50
       (Backseat.initial exact)
     = (true,
        {| Backseat._last_valid_depth := Some 50;
           Backseat.posted := [50] |}).
Proof.
  destruct (send_z_command_cases (cfg 1) (Backseat.Status 200) 120
              (Backseat.initial exact)) as (_ & _ & Hreject).
  destruct (send_z_command_cases (cfg 1) (Backseat.Status 200) 50
              (Backseat.initial exact)) as (Hsend & _).
  split.
  - apply Hreject; [|reflexivity].
    intros [_ Hhi]. vm_compute in Hhi. auto.
  - apply Hsend. split; vm_compute; discriminate.
Defined.

(** The plan of scenario S1 over the rationals. *)
Lemma clean_run_reaches_end_z_witness :
  (forall k,
     state (run (cfg 1) clock safe k
              (__init__ (cfg 1) 10 20 (1 # 5) (1 # 2) (Qgtb 20 10) (1 # 5)))
     = NORMAL)
  /\ exists n, forall m, (n <= m)%nat ->
       end_z_reached
         (run (cfg 1) clock safe m
            (__init__ (cfg 1) 10 20 (1 # 5) (1 # 2) (Qgtb 20 10) (1 # 5)))
       = true
       /\ current_z
            (run (cfg 1) clock safe m
               (__init__ (cfg 1) 10 20 (1 # 5) (1 # 2) (Qgtb 20 10) (1 # 5)))
          = 20.
Proof.
  apply (clean_run_reaches_end_z (cfg 1) clock safe 10 20 (1 # 5) (1 # 2)
           (1 # 5)).
  - vm_compute. discriminate.
  - intros _. reflexivity.
  - intros H. vm_compute in H. discriminate.
  - reflexivity.
  - vm_compute. discriminate.
  - intros k. exists 8. split; [reflexivity | vm_compute; discriminate].
Defined.

(** The plan of scenario S5 over the rationals. *)
Lemma error_compensation_after_transition_witness :
  current_step (run (cfg 5) clock safe 6 smoothed)
  = compensated_step (cfg 5) 10 20 (1 # 5) 0
  /\ error_compensation_active (run (cfg 5) clock safe 6 smoothed) = true.
Proof.
  destruct (error_compensation_after_transition (cfg 5) clock safe 10 20
              (1 # 5) (1 # 2) true 0) as (_ & Hstep & Hflag & _).
  - vm_compute. discriminate.
  - split; [exact Hstep | exact Hflag].
Defined.

(** C6 for the short descent interrupted by a low altitude on its first
    tick: the end depth is reached on the sixth tick, in [RETURN], and is
    still so two ticks later. *)
Lemma end_z_reached_is_final_witness :
  end_z_reached (run (cfg 1) clock scare 8 short_descent) = true
  /\ current_z (run (cfg 1) clock scare 8 short_descent) = 11
  /\ end_z (run (cfg 1) clock scare 8 short_descent) = 11.
Proof.
  apply (end_z_reached_is_final (cfg 1) clock scare 10 11 (1 # 5) (1 # 2)
           true (1 # 5) 6 8).
  - lia.
  - vm_compute. reflexivity.
Defined.

(** C7 at the plan of scenario S1, cancelled after three ticks. *)
Lemma step_handover_witness :
  exists (a : DepthController) (m' : PhaseManager),
    virtual_slope_loop (cfg 5) descent 0 (Some {| last_step := 0 |})
      [(0, Some 8); (1, Some 8); (2, Some 8)] CancelledError
    = Raised CancelledError (Some m') a
    /\ get_last_step m' = current_step a
    /\ forall start_z end_depth step angle down,
         let b :=
           __init__ (cfg 5) start_z end_depth step angle down
                    (get_last_step m') in
         current_step b = current_step a
         /\ forall now altitude,
              (1 <= config.transition_time (cfg 5))%nat
              \/ current_step a == step ->
              Qabs (current_step (fst (update (cfg 5) now altitude b))
                    - current_step a) == 0.
Proof.
  apply (step_handover (cfg 5) descent 0 {| last_step := 0 |}
           [(0, Some 8); (1, Some 8); (2, Some 8)] CancelledError).
  vm_compute. discriminate.
Defined.

(** The claim of C7 fails as it stands: with no transition samples the
    first tick of a controller built from rest already runs at the target
    step. *)
Lemma first_tick_jumps_without_samples :
  current_step abrupt = 0
  /\ ~ current_step (fst (update (cfg 0) 0 (Some 8) abrupt)) == 0.
Proof.
  split; [reflexivity | vm_compute; discriminate].
Defined.

(** C8 on a telegram of ten data fields with a checksum: it is published,
    its fifth field, UNDEF, is an absent altitude, and it has no heading. *)
Lemma parse_navigation_publishes_witness :
  publishes DesBridge.decimal_float ten_fields
  /\ (forall frame,
        DesBridge.parse_navigation DesBridge.decimal_float None ten_fields
        = Some frame ->
        DesBridge.altitude frame = None /\ DesBridge.heading frame = None).
Proof.
  destruct (parse_navigation_publishes DesBridge.decimal_float ten_fields)
    as (Hpub & _ & Hfields & _).
  split.
  - apply Hpub. vm_compute. lia.
  - intros frame Hframe.
    destruct (Hfields None frame Hframe) as [Halt Hhead];
      [vm_compute; lia|].
    rewrite Halt, Hhead. split; reflexivity.
Defined.

(** The claim of C8 fails as it stands: a telegram of nine data fields is
    published. *)
Lemma nine_data_fields_are_published :
  data_fields nine_fields = 9%nat
  /\ DesBridge.startswith nine_fields "$NAVIGATION" = true
  /\ (exists frame,
        DesBridge.process_message DesBridge.decimal_float None nine_fields
        = Some frame
        /\ DesBridge.altitude frame = Some (725 # 100)
        /\ DesBridge.depth frame = Some (125 # 10)).
Proof.
  split; [reflexivity|]. split; [reflexivity|].
  eexists. split; [vm_compute; reflexivity|]. split; reflexivity.
Defined.

(** The entry actions on entering [ASCEND] from [NORMAL]. *)
Lemma set_state_entry_actions_witness :
  state (_set_state 0 ASCEND short_descent) = ASCEND
  /\ command_depth (_set_state 0 ASCEND short_descent)
     = current_z short_descent.
Proof.
  destruct (set_state_entry_actions 0 ASCEND short_descent)
    as (Hstate & Hcommand & _).
  - vm_compute. discriminate.
  - split; [exact Hstate | apply Hcommand; reflexivity].
Defined.

(** C9.  Entering [RETURN] does not clear [state_start_time], where the
    claim has it cleared as on entering [NORMAL]: [_set_state] with
    [RETURN] leaves the attribute as it finds it, for every controller and
    every clock.  In the short descent with two metres of altitude on its
    first tick the controller is in [WAIT] after three ticks, with the
    start time 1 recorded on its second tick, and in [RETURN] after four,
    still with the start time 1. *)
Theorem return_keeps_start_time :
  (forall (now : Q) (c : DepthController),
     state_start_time (_set_state now RETURN c) = state_start_time c)
  /\ state (run (cfg 1) clock scare 3 short_descent) = WAIT
  /\ state_start_time (run (cfg 1) clock scare 3 short_descent) = Some 1
  /\ state (run (cfg 1) clock scare 4 short_descent) = RETURN
  /\ state_start_time (run (cfg 1) clock scare 4 short_descent) = Some 1.
Proof.
  split.
  - intros now c. unfold _set_state.
    destruct (State_eqb (state c) RETURN); reflexivity.
  - repeat split; vm_compute; reflexivity.
Qed.

End Instances.

(** * The theorems in binary64 *)

Section MachineInstances.

Import Controller Float.

(** C3: a NaN fails both comparisons of the limit check: from a fresh
    process the call succeeds, NaN is remembered as the last valid depth
    and NaN is posted, where the claim has an out-of-envelope depth
    refused. *)
Theorem nan_is_remembered_and_posted :
  Backseat.send_z_command binary64 (Machine.cfg 1) (Backseat.Status 200)
    Binary64.nan (Backseat.initial binary64)
  = (true,
     {| Backseat._last_valid_depth := Some Binary64.nan;
        Backseat.posted := [Binary64.nan] |}).
Proof. reflexivity. Qed.

(** C10: the setpoints posted for the requests NaN, 120 and 50: NaN, then
    NaN again in place of 120, then 50.  Two of the three lie outside the
    envelope from 0 to 100. *)
Theorem nan_is_posted_in_place_of_120 :
  Backseat.posted
    (Backseat.send_all binary64 (Machine.cfg 1)
       [(Binary64.nan, Backseat.Status 200);
        (Machine.number 120, Backseat.Status 200);
        (Machine.number 50, Backseat.Status 200)]
       (Backseat.initial binary64))
  = [Binary64.nan; Binary64.nan; Machine.number 50].
Proof. vm_compute. reflexivity. Qed.



(** C5 at the plan from the surface to 12 m in binary64: the quotient is
    35.0, and the sixth tick leaves the step 0.3 + 0.75 / 35. *)
Lemma float_error_compensation_after_transition_witness :
  exists c,
    run binary64 (Machine.cfg 5) Machine.clock Machine.safe 6
      Machine.smoothed = Some c
    /\ current_step c
       = float_compensated_step binary64 (Machine.cfg 5)
           (Binary64.literal 3 10) (Machine.number 0) 35
    /\ error_compensation_active c = true.
Proof.
  destruct (float_error_compensation_after_transition binary64
              (Machine.cfg 5) Machine.clock Machine.safe (Machine.number 0)
              (Machine.number 12) (Binary64.literal 3 10)
              (Binary64.literal 1 2) true (Machine.number 0))
    as (_ & _ & Hyes & _).
  - vm_compute. reflexivity.
  - destruct (Hyes ltac:(vm_compute; reflexivity) 35%Z
                ltac:(vm_compute; reflexivity))
      as (c & Hrun & Hstep & Hflag & _).
    exists c. split; [exact Hrun|]. split; [exact Hstep|exact Hflag].
Defined.

(** The claim of C5 fails as it stands, in either reading of its formulas.
    Read as a quotient of numbers: for the plan from the surface to 12 m
    with the float 0.3 as step and five samples, the code divides 10.5 by
    the step and gets 35.0, so it spreads the error over 35 steps and
    leaves the step [step_after]; the quotient of the same two numbers lies
    above 35, its ceiling is 36, and the step of the claim is another one.
    Read as the operations of the code: for the plan from the surface to
    100 m with the step [2 ** -1070] the test of the compensation passes
    and the quotient is an infinity, on which [math.ceil] raises; the tick
    that finds the sequence used up raises with it and sets no step. *)
Lemma compensation_rounds_the_quotient :
  let step := 5404319552844595 # 18014398509481984 in
  let step_after := 1447585594511945 # 4503599627370496 in
  (Binary64.to_Q (Binary64.literal 3 10) = Some step
   /\ Binary64.to_Q (Machine.number 12) = Some 12
   /\ float_remaining_steps binary64 (Machine.cfg 5) (Machine.number 0)
        (Machine.number 12) (Binary64.literal 3 10) = Some 35%Z
   /\ remaining_steps (Scenarios.cfg 5) 0 12 step = 36%Z
   /\ option_map (fun c => Binary64.to_Q (current_step c))
        (run binary64 (Machine.cfg 5) Machine.clock Machine.safe 6
           Machine.smoothed) = Some (Some step_after)
   /\ ~ step_after == compensated_step (Scenarios.cfg 5) 0 12 step 0)
  /\ (float_compensable binary64 (Machine.cfg 2) (Machine.number 0)
        (Machine.number 100) (Binary64.power_of_two (-1070)) = true
      /\ Arith.div binary64
           (float_remaining_trajectory binary64 (Machine.cfg 2)
              (Machine.number 0) (Machine.number 100)
              (Binary64.power_of_two (-1070)))
           (Binary64.power_of_two (-1070)) = S754_infinity false
      /\ float_remaining_steps binary64 (Machine.cfg 2) (Machine.number 0)
           (Machine.number 100) (Binary64.power_of_two (-1070)) = None
      /\ option_map (@step_transition_active binary64)
           (run binary64 (Machine.cfg 2) Machine.clock Machine.safe 2
              Machine.overflowing) = Some true
      /\ option_map (@current_step binary64)
           (run binary64 (Machine.cfg 2) Machine.clock Machine.safe 3
              Machine.overflowing) = None).
Proof.
  cbv zeta. split.
  - split; [vm_compute; reflexivity|]. split; [vm_compute; reflexivity|].
    split; [vm_compute; reflexivity|]. split; [vm_compute; reflexivity|].
    split; [vm_compute; reflexivity|].
    intros H. apply Qeq_bool_iff in H. vm_compute in H. discriminate.
  - split; [vm_compute; reflexivity|]. split; [vm_compute; reflexivity|].
    split; [vm_compute; reflexivity|]. split; vm_compute; reflexivity.
Defined.

End MachineInstances.

(** * Further properties of the controller *)

Section Ticks.

Import Controller.

Variable cfg : config.t.

(** What the first line of a tick leaves alone, beyond the trajectory. *)
Lemma update_step_transition_safety c :
  let c' := _update_step_transition c in
  state c' = state c /\ command_depth c' = command_depth c
  /\ max_angle_step c' = max_angle_step c
  /\ altitude_threshold_ascend c' = altitude_threshold_ascend c
  /\ altitude_threshold_level c' = altitude_threshold_level c
  /\ _wait_from_ascend c' = _wait_from_ascend c.
Proof.
  unfold _update_step_transition, _calculate_error_compensation.
  branches; repeat split.
Qed.

Lemma state_normal_state c : state (fst (_state_normal c)) = state c.
Proof. unfold _state_normal. branches; reflexivity. Qed.

Lemma state_normal_sent c :
  snd (_state_normal c) = current_z c \/ snd (_state_normal c) = end_z c.
Proof. unfold _state_normal. branches; simpl; auto. Qed.

(** The tick when the state after the transitions is [st] and that state
    is not [RETURN]: the closing rejoin test is skipped. *)
Lemma update_unfold now altitude c :
  let c2 := _handle_transitions now altitude (_update_step_transition c) in
  state c2 <> RETURN ->
  update cfg now altitude c
  = (_advance_vs (fst (_execute_current_state cfg now c2)),
     snd (_execute_current_state cfg now c2)).
Proof.
  intros c2 Hs. unfold update. fold c2.
  destruct (_execute_current_state cfg now c2) as [c3 sent].
  replace (State_eqb (state c2) RETURN) with false
    by (symmetry; apply State_eqb_neq; exact Hs).
  reflexivity.
Qed.

(** A tick without altitude executes [NORMAL]. *)
Lemma update_without_altitude now c :
  update cfg now None c
  = (_advance_vs
       (fst (_state_normal
               (_handle_transitions now None (_update_step_transition c)))),
     snd (_state_normal
            (_handle_transitions now None (_update_step_transition c))))
  /\ state (_handle_transitions now None (_update_step_transition c))
     = NORMAL.
Proof.
  set (c1 := _update_step_transition c).
  assert (H2 : state (_handle_transitions now None c1) = NORMAL).
  { unfold _handle_transitions.
    destruct (State_eqb (state c1) NORMAL) eqn:E; cbn [negb].
    - apply State_eqb_eq, E.
    - apply set_state_state. }
  split; [|exact H2].
  rewrite update_unfold by (fold c1; rewrite H2; discriminate).
  fold c1. unfold _execute_current_state. rewrite H2. reflexivity.
Qed.




End Ticks.

Section Excursions.

Import Controller.

Variable cfg : config.t.

Lemma set_state_not_hold now new_state c :
  new_state <> HOLD -> state c <> HOLD ->
  state (_set_state now new_state c) <> HOLD.
Proof. intros Hn _. rewrite set_state_state. exact Hn. Qed.

Lemma handle_transitions_not_hold now altitude c :
  trajectory_down c = false -> state c <> HOLD ->
  state (_handle_transitions now altitude c) <> HOLD.
Proof.
  intros Hd Hs. unfold _handle_transitions. rewrite Hd. cbn [andb].
  destruct altitude; branches;
    try (rewrite set_state_state; discriminate); try exact Hs; congruence.
Qed.

Lemma execute_state now c :
  state (fst (_execute_current_state cfg now c)) = state c
  \/ state (fst (_execute_current_state cfg now c)) = NORMAL.
Proof.
  by_state c; branches; cbn [fst]; attributes;
    try (left; assumption || reflexivity);
    right; apply set_state_state.
Qed.

Lemma update_not_hold now altitude c :
  trajectory_down c = false -> state c <> HOLD ->
  state (fst (update cfg now altitude c)) <> HOLD.
Proof.
  intros Hd Hs. unfold update.
  set (c1 := _update_step_transition c).
  set (c2 := _handle_transitions now altitude c1).
  assert (H2 : state c2 <> HOLD).
  { apply handle_transitions_not_hold; unfold c1.
    - destruct (update_step_transition_trajectory c) as (_ & _ & _ & ->).
      exact Hd.
    - destruct (update_step_transition_safety c) as (-> & _). exact Hs. }
  pose proof (execute_state now c2) as H3.
  destruct (_execute_current_state cfg now c2) as [c3 sent]. cbn [fst] in *.
  assert (H4 : state (_advance_vs c3) <> HOLD).
  { destruct (advance_vs_state c3) as [-> _].
    destruct H3 as [-> | ->]; [exact H2 | discriminate]. }
  branches; try (rewrite set_state_state; discriminate); exact H4.
Qed.

(** X4.  The warning level is a matter of descents only: a controller built
    for an upward trajectory is never in [HOLD], whatever the altitudes. *)
Theorem upward_never_holds (nows : nat -> Q) (alts : nat -> option Q)
    (start_z end_depth step angle p : Q) (n : nat) :
  state (run cfg nows alts n
           (__init__ cfg start_z end_depth step angle false p)) <> HOLD.
Proof.
  assert (H : forall k,
    trajectory_down
      (run cfg nows alts k
         (__init__ cfg start_z end_depth step angle false p)) = false).
  { intros k. destruct (run_end_z cfg nows alts k
      (__init__ cfg start_z end_depth step angle false p)) as [_ ->].
    reflexivity. }
  induction n as [|n IH]; [discriminate|].
  simpl. apply update_not_hold; [apply H | exact IH].
Qed.

(** The flag [end_z_reached] is never taken down. *)
Lemma execute_reached_monotone now c :
  end_z_reached c = true ->
  end_z_reached (fst (_execute_current_state cfg now c)) = true.
Proof.
  intros Hr.
  by_state c; rewrite ?Hr; branches; cbn [fst]; attributes;
    try assumption.
  destruct (set_state_trajectory now NORMAL c) as (_ & _ & -> & _).
  exact Hr.
Qed.

Lemma advance_vs_reached_monotone c :
  end_z_reached c = true -> end_z_reached (_advance_vs c) = true.
Proof. intros Hr. unfold _advance_vs. rewrite Hr. exact Hr. Qed.

Lemma update_reached_monotone now altitude c :
  end_z_reached c = true ->
  end_z_reached (fst (update cfg now altitude c)) = true.
Proof.
  intros Hr. unfold update.
  set (c2 := _handle_transitions now altitude (_update_step_transition c)).
  assert (H2 : end_z_reached c2 = true).
  { destruct (handle_transitions_trajectory now altitude
                (_update_step_transition c)) as (_ & _ & H & _).
    fold c2 in H. rewrite H.
    destruct (update_step_transition_trajectory c) as (_ & _ & -> & _).
    exact Hr. }
  pose proof (execute_reached_monotone now c2 H2) as H3.
  destruct (_execute_current_state cfg now c2) as [c3 sent]. cbn [fst] in *.
  pose proof (advance_vs_reached_monotone c3 H3) as H4.
  branches; try exact H4.
  destruct (set_state_trajectory now NORMAL (_advance_vs c3))
    as (_ & _ & -> & _).
  exact H4.
Qed.

(** The state bodies move the planned depth only to settle it. *)
Lemma execute_current_z now c :
  end_z_reached (fst (_execute_current_state cfg now c)) = false ->
  current_z (fst (_execute_current_state cfg now c)) = current_z c
  /\ end_z_reached c = false.
Proof.
  by_state c; branches; cbn [fst]; attributes; intros H;
    try discriminate; try (split; congruence).
  destruct (set_state_trajectory now NORMAL c) as (Hz & _ & Hr & _).
  rewrite Hr in H. rewrite Hz. split; [reflexivity | exact H].
Qed.

Lemma advance_vs_current_z c :
  end_z_reached (_advance_vs c) = false ->
  current_z (_advance_vs c) = current_z c + current_step c.
Proof.
  unfold _advance_vs. branches; attributes; intros H; try discriminate;
    try congruence; reflexivity.
Qed.

(** X5.  The planned depth keeps ticking through the safety states: as long
    as the end depth has not been reached after a tick, that tick has moved
    [current_z] by exactly the active step, in every state and for every
    altitude. *)
Theorem planned_depth_keeps_ticking (now : Q) (altitude : option Q)
    (c : DepthController) :
  end_z_reached (fst (update cfg now altitude c)) = false ->
  current_z (fst (update cfg now altitude c))
  = current_z c + current_step (fst (update cfg now altitude c)).
Proof.
  destruct (update_schedule cfg now altitude c) as (Hstep & _).
  rewrite Hstep. clear Hstep. unfold update.
  set (c1 := _update_step_transition c).
  set (c2 := _handle_transitions now altitude c1).
  pose proof (execute_current_z now c2) as H3.
  pose proof (execute_schedule cfg now c2) as (S3 & _).
  destruct (_execute_current_state cfg now c2) as [c3 sent]. cbn [fst] in *.
  set (c5 := if State_eqb (state c2) RETURN
                && negb (trajectory_down (_advance_vs c3))
             then if Qleb (current_z (_advance_vs c3))
                          (command_depth (_advance_vs c3))
                  then _set_state now NORMAL (_advance_vs c3)
                  else _advance_vs c3
             else _advance_vs c3).
  destruct (rejoin_trajectory now (state c2) (_advance_vs c3))
    as (Hz5 & _ & Hr5 & _). fold c5 in Hz5, Hr5.
  intros Hr. rewrite Hr5 in Hr. rewrite Hz5.
  rewrite (advance_vs_current_z c3 Hr).
  assert (Hr3 : end_z_reached c3 = false).
  { destruct (end_z_reached c3) eqn:E; [|reflexivity].
    rewrite (advance_vs_reached_monotone c3 E) in Hr. discriminate. }
  destruct (H3 Hr3) as [Hz3 _]. rewrite Hz3, S3.
  destruct (handle_transitions_trajectory now altitude c1) as (Hz2 & _).
  destruct (handle_transitions_schedule now altitude c1) as (S2 & _).
  fold c2 in Hz2, S2. rewrite Hz2, S2.
  destruct (update_step_transition_trajectory c) as (Hz1 & _).
  fold c1 in Hz1. rewrite Hz1. reflexivity.
Qed.

End Excursions.

(** ** The downward return leg *)

Section ReturnLeg.

Import Controller.

Variable cfg : config.t.

(** A downward [RETURN] under way: the command trails the planned depth,
    which moves down by a fixed positive step. *)
Definition trailing (c : DepthController) : Prop :=
  state c = RETURN /\ trajectory_down c = true
  /\ step_transition_active c = false /\ 0 < current_step c
  /\ command_depth c < current_z c.

Lemma trailing_tick now a c :
  trailing c ->
  altitude_threshold_ascend c <= altitude_threshold_level c ->
  altitude_threshold_level c <= a ->
  update cfg now (Some a) c
  = (_advance_vs (fst (_state_return cfg now c)),
     snd (_state_return cfg now c)).
Proof.
  intros (Hs & Hd & Ht & _ & Hcmd) Hthr Ha.
  unfold update, _update_step_transition. rewrite Ht. cbn [negb].
  unfold _handle_transitions.
  replace (Qltb a (altitude_threshold_ascend c)) with false
    by (symmetry; apply Qltb_ge; lra).
  replace (Qltb a (altitude_threshold_level c)) with false
    by (symmetry; apply Qltb_ge; lra).
  rewrite andb_false_r, Hs. unfold _return_caught_vs.
  replace (Qgeb (command_depth c) (current_z c)) with false
    by (symmetry; apply Qgeb_lt; exact Hcmd).
  unfold _execute_current_state. rewrite Hs.
  destruct (_state_return cfg now c) as [c3 sent] eqn:E. cbn [fst snd].
  assert (Hd3 : trajectory_down (_advance_vs c3) = true).
  { destruct (advance_vs_end_z c3) as [_ ->].
    pose proof (execute_end_z cfg now c) as [_ H].
    unfold _execute_current_state in H. rewrite Hs, E in H. cbn [fst] in H.
    rewrite H. exact Hd. }
  rewrite Hd3, State_eqb_refl. reflexivity.
Qed.

Lemma trailing_step now a c :
  trailing c ->
  altitude_threshold_ascend c <= altitude_threshold_level c ->
  altitude_threshold_level c <= a ->
  end_z_reached (fst (update cfg now (Some a) c)) = false ->
  trailing (fst (update cfg now (Some a) c)).
Proof.
  intros Hc Hthr Ha. rewrite (trailing_tick now a c Hc Hthr Ha). cbn [fst].
  destruct Hc as (Hs & Hd & Ht & Hstep & Hcmd).
  unfold _state_return. rewrite Hd.
  unfold _advance_vs, trailing.
  destruct (Qgeb (_clamp_depth cfg (command_depth c + max_angle_step c))
                 (current_z c)) eqn:Hnext;
    cbn [fst]; attributes; rewrite Hd;
    destruct (end_z_reached c) eqn:Hr; attributes; rewrite ?Hr;
    try (intros H; discriminate H);
    destruct (Qgeb (current_z c) (end_z c)); attributes;
    intros H; try discriminate H;
    qbool; repeat split; try assumption; lra.
Qed.

Variables (nows : nat -> Q) (alts : nat -> option Q).
Variable c : DepthController.

Hypothesis return_under_way : trailing c.
Hypothesis thresholds_ordered :
  altitude_threshold_ascend c <= altitude_threshold_level c.
Hypothesis altitude_safe :
  forall k, exists a, alts k = Some a /\ altitude_threshold_level c <= a.

Lemma run_thresholds n :
  altitude_threshold_ascend (run cfg nows alts n c)
  = altitude_threshold_ascend c
  /\ altitude_threshold_level (run cfg nows alts n c)
     = altitude_threshold_level c.
Proof.
  induction n as [|n [IH1 IH2]]; [split; reflexivity|]. simpl.
  rewrite <- IH1, <- IH2. clear IH1 IH2.
  generalize (run cfg nows alts n c) as d. intros d. unfold update.
  set (d2 := _handle_transitions (nows n) (alts n)
               (_update_step_transition d)).
  assert (H2 : altitude_threshold_ascend d2 = altitude_threshold_ascend d
               /\ altitude_threshold_level d2 = altitude_threshold_level d).
  { destruct (update_step_transition_safety d) as (_ & _ & _ & <- & <- & _).
    unfold d2, _handle_transitions, _set_state, _on_enter_state.
    destruct (alts n); branches; split; reflexivity. }
  assert (H3 :
    altitude_threshold_ascend (fst (_execute_current_state cfg (nows n) d2))
    = altitude_threshold_ascend d2
    /\ altitude_threshold_level (fst (_execute_current_state cfg (nows n) d2))
       = altitude_threshold_level d2).
  { by_state d2; unfold _set_state, _on_enter_state; branches;
      split; reflexivity. }
  destruct (_execute_current_state cfg (nows n) d2) as [d3 sent].
  cbn [fst] in *. destruct H2 as [<- <-]. destruct H3 as [<- <-].
  unfold _advance_vs, _set_state, _on_enter_state. branches; split;
    reflexivity.
Qed.


End ReturnLeg.

(** ** How far the command moves in one tick *)

Section CommandRate.

Import Controller.

Variable cfg : config.t.

(** The state a tick executes: the local [active_state] of [update]. *)
Definition active_state (now : Q) (altitude : option Q)
    (c : DepthController) : State :=
  state (_handle_transitions now altitude (_update_step_transition c)).

(** Clamping never moves a depth away from a depth inside the envelope. *)
Lemma clamp_depth_above x inside :
  in_envelope cfg inside -> x <= inside ->
  x <= _clamp_depth cfg x /\ _clamp_depth cfg x <= inside.
Proof.
  unfold in_envelope, _clamp_depth, max, min. intros [Hlo Hhi] Hx.
  destruct (Qltb (config.max_depth cfg) x) eqn:E1;
    branches; qbool; split; lra.
Qed.

Lemma clamp_depth_below x inside :
  in_envelope cfg inside -> inside <= x ->
  inside <= _clamp_depth cfg x /\ _clamp_depth cfg x <= x.
Proof.
  unfold in_envelope, _clamp_depth, max, min. intros [Hlo Hhi] Hx.
  destruct (Qltb (config.max_depth cfg) x) eqn:E1;
    branches; qbool; split; lra.
Qed.

(** The transitions touch the command only to enter [ASCEND]. *)
Lemma handle_transitions_keeps_command now altitude c :
  (state (_handle_transitions now altitude c) = ASCEND -> state c = ASCEND) ->
  command_depth (_handle_transitions now altitude c) = command_depth c.
Proof.
  assert (Hset : forall st,
    (state (_set_state now st c) = ASCEND -> state c = ASCEND) ->
    command_depth (_set_state now st c) = command_depth c).
  { intros st. rewrite set_state_state. unfold _set_state.
    destruct (State_eqb (state c) st) eqn:E; [reflexivity|].
    destruct st; cbn [_on_enter_state]; attributes; try reflexivity.
    intros H. apply State_eqb_neq in E. specialize (H eq_refl).
    contradiction. }
  unfold _handle_transitions.
  destruct altitude; branches; try apply Hset; reflexivity.
Qed.

Lemma execute_rate now c :
  state c <> NORMAL ->
  in_envelope cfg (command_depth c) -> 0 <= max_angle_step c ->
  (state c = RETURN -> trajectory_down c = true ->
   command_depth c <= current_z c) ->
  command_depth c - max_angle_step c <= snd (_execute_current_state cfg now c)
  /\ snd (_execute_current_state cfg now c)
     <= command_depth c + max_angle_step c.
Proof.
  intros Hs Hin Hm Hret.
  by_state c; try congruence; branches; cbn [snd]; attributes.
  - lra.
  - destruct (clamp_depth_above (command_depth c - max_angle_step c) _ Hin);
      lra.
  - destruct (clamp_depth_above (command_depth c - max_angle_step c) _ Hin);
      lra.
  - lra.
  - destruct (clamp_depth_below (command_depth c + max_angle_step c) _ Hin);
      [lra|]. qbool. specialize (Hret eq_refl eq_refl). lra.
  - destruct (clamp_depth_below (command_depth c + max_angle_step c) _ Hin);
      lra.
  - lra.
  - lra.
Qed.


End CommandRate.

(** ** The steps of a transition *)

Section TransitionSteps.

Import Controller.

Variable cfg : config.t.

Lemma inject_nat_nonneg i : 0 <= inject_Z (Z.of_nat i).
Proof. change 0 with (inject_Z 0). rewrite <- Zle_Qle. lia. Qed.

Lemma inject_nat_le i j :
  (i <= j)%nat -> inject_Z (Z.of_nat i) <= inject_Z (Z.of_nat j).
Proof. intros H. rewrite <- Zle_Qle. lia. Qed.

(** A sample [i * ((b - a) / d) + a] with [i <= d] lies between [a] and
    [b]. *)
Lemma sample_between a b (i d : nat) :
  (i <= d)%nat -> (0 < d)%nat ->
  let x := inject_Z (Z.of_nat i) * ((b - a) / inject_Z (Z.of_nat d)) + a in
  (a <= b -> a <= x /\ x <= b) /\ (b <= a -> b <= x /\ x <= a).
Proof.
  intros Hi Hd x.
  assert (Hd0 : 0 < inject_Z (Z.of_nat d)).
  { change 0 with (inject_Z 0). rewrite <- Zlt_Qlt. lia. }
  pose proof (inject_nat_nonneg i) as Hi0.
  pose proof (inject_nat_le i d Hi) as Hid.
  set (t := (b - a) / inject_Z (Z.of_nat d)).
  assert (Ht : inject_Z (Z.of_nat d) * t == b - a)
    by (unfold t; field; lra).
  fold t in x. unfold x. split; intros Hab.
  - assert (0 <= t) by (unfold t; apply Qle_shift_div_l; lra).
    split; nra.
  - assert (t <= 0) by (unfold t; apply Qle_shift_div_r; lra).
    split; nra.
Qed.

(** Every sample of [linspace] lies between its end points. *)
Lemma linspace_between a b n x :
  In x (linspace a b n) ->
  (a <= b -> a <= x /\ x <= b) /\ (b <= a -> b <= x /\ x <= a).
Proof.
  destruct n as [|[|d]]; simpl; [tauto | |].
  - intros [<- | []]. split; intros; split; lra.
  - intros [<- | H].
    + apply (sample_between a b 0 (S d)); lia.
    + apply in_app_or in H. destruct H as [H | [<- | []]].
      * apply in_map_iff in H. destruct H as (i & <- & Hi).
        apply in_seq in Hi.
        apply (sample_between a b i (S d)); lia.
      * split; intros; split; lra.
Qed.

(** X8.  While the step transition lasts, the active step stays between the
    step the controller inherited and its target step: after each of the
    first [transition_time] ticks [current_step] lies between
    [previous_step] and [step], whatever the state and the altitude. *)
Theorem transition_step_between (nows : nat -> Q) (alts : nat -> option Q)
    (start_z end_depth step angle : Q) (down : bool) (previous_step : Q)
    (k : nat) :
  ~ previous_step == step ->
  (k < config.transition_time cfg)%nat ->
  let x :=
    current_step
      (run cfg nows alts (S k)
         (__init__ cfg start_z end_depth step angle down previous_step)) in
  (previous_step <= step -> previous_step <= x /\ x <= step)
  /\ (step <= previous_step -> step <= x /\ x <= previous_step).
Proof.
  intros Hne Hk x.
  destruct (in_transition_run cfg nows alts start_z end_depth step angle
              down previous_step Hne (S k) Hk)
    as (_ & _ & _ & _ & _ & _ & _ & Hx).
  unfold x. rewrite (Hx k eq_refl).
  apply (linspace_between previous_step step (config.transition_time cfg)).
  apply nth_In. rewrite linspace_length. exact Hk.
Qed.

End TransitionSteps.

(** * Further properties of the depth-command client *)

Section EnvelopeMemory.

Import Backseat.

Variable A : Arith.t.
Variable cfg : config.settings (Arith.F A).

(** The envelope check of [send_z_command], as a boolean: the comparisons
    of the code, in the arithmetic of the code. *)
Definition within_limits (z : Arith.F A) : bool :=
  negb (Arith.ltb A z (config.min_depth cfg)
        || Arith.gtb A z (config.max_depth cfg)).

(** The most recent depth of a list that passes the check, or [memory] when
    there is none. *)
Definition last_within (memory : option (Arith.F A))
    (depths : list (Arith.F A)) : option (Arith.F A) :=
  fold_left (fun kept z => if within_limits z then Some z else kept)
            depths memory.

(** X9.  The remembered depth is the most recent requested depth that
    passed the check of the limits, whether or not the server accepted the
    request that carried it: the replies play no part in it. *)
Theorem memory_is_last_valid_request (calls : list (Arith.F A * Reply))
    (s : Store A) :
  _last_valid_depth (send_all A cfg calls s)
  = last_within (_last_valid_depth s) (map fst calls).
Proof.
  revert s. induction calls as [|[z reply] rest IH]; intros s;
    [reflexivity|].
  simpl. rewrite IH. unfold last_within. simpl. f_equal.
  unfold send_z_command, within_limits.
  destruct (Arith.ltb A z (config.min_depth cfg)
            || Arith.gtb A z (config.max_depth cfg));
    cbn [negb]; [|reflexivity].
  destruct (_last_valid_depth s) eqn:E; simpl; [reflexivity | exact E].
Qed.

(** X10.  Once a depth is remembered no call is turned away: every later
    call makes exactly one request, and a depth stays remembered. *)
Theorem remembered_depth_always_posts (calls : list (Arith.F A * Reply))
    (s : Store A) (v : Arith.F A) :
  _last_valid_depth s = Some v ->
  List.length (posted (send_all A cfg calls s))
  = (List.length (posted s) + List.length calls)%nat
  /\ _last_valid_depth (send_all A cfg calls s) <> None.
Proof.
  revert s v. induction calls as [|[z reply] rest IH]; intros s v Hv.
  - simpl. split; [lia | congruence].
  - simpl.
    assert (Hnext :
      exists v',
        _last_valid_depth (snd (send_z_command A cfg reply z s)) = Some v'
        /\ List.length (posted (snd (send_z_command A cfg reply z s)))
           = S (List.length (posted s))).
    { unfold send_z_command. rewrite Hv.
      destruct (Arith.ltb A z (config.min_depth cfg)
                || Arith.gtb A z (config.max_depth cfg)); simpl;
        eexists; (split; [reflexivity|]);
        rewrite length_app; simpl; lia. }
    destruct Hnext as (v' & Hv' & Hlen).
    destruct (IH _ v' Hv') as [IH1 IH2]. split; [lia | exact IH2].
Qed.

(** X11.  Until a first depth that passes the check of the limits is
    requested nothing is posted at all: every call fails and the log of
    requests stays empty. *)
Theorem nothing_posted_before_first_valid
    (calls : list (Arith.F A * Reply)) :
  Forall (fun call => within_limits (fst call) = false) calls ->
  send_all A cfg calls (initial A) = initial A.
Proof.
  induction calls as [|[z reply] rest IH]; intros H; [reflexivity|].
  inversion H as [|? ? Hz Hrest]; subst. simpl in *.
  unfold within_limits in Hz. apply negb_false_iff in Hz.
  unfold send_z_command at 1. rewrite Hz. simpl. apply IH, Hrest.
Qed.

End EnvelopeMemory.

(** ** The depth-command client in binary64 *)

Section Binary64Client.

Import Backseat.

(** Exchanging the operands of a comparison of floats reverses its
    result. *)
Lemma SFcompare_antisym x y :
  SFcompare y x = option_map CompOpp (SFcompare x y).
Proof.
  destruct x as [sx|sx| |sx mx ex], y as [sy|sy| |sy my ey];
    cbn [SFcompare option_map]; try reflexivity;
    try (destruct sx; reflexivity); try (destruct sy; reflexivity);
    try (destruct sx, sy; reflexivity).
  pose proof (Pos.compare_cont_antisym mx my Eq) as Hm.
  cbn [CompOpp] in Hm.
  destruct sx, sy; cbn [CompOpp]; try reflexivity;
    rewrite (Z.compare_antisym ex ey);
    destruct (ex ?= ey)%Z; cbn [CompOpp]; try reflexivity;
    rewrite <- Hm; rewrite ?CompOpp_involutive; reflexivity.
Qed.

Definition is_nan (x : spec_float) : bool :=
  match x with
  | S754_nan => true
  | _ => false
  end.

(** Floats other than NaN are comparable. *)
Lemma SFcompare_of_numbers x y :
  is_nan x = false -> is_nan y = false -> SFcompare x y <> None.
Proof.
  destruct x as [sx|sx| |sx mx ex], y as [sy|sy| |sy my ey];
    cbn [is_nan SFcompare]; intros; discriminate.
Qed.

(** Unless an operand is NaN, [x < y] is the negation of [y <= x]. *)
Lemma SFltb_not_leb x y :
  is_nan x = false -> is_nan y = false -> SFltb x y = negb (SFleb y x).
Proof.
  intros Hx Hy. pose proof (SFcompare_of_numbers x y Hx Hy) as Hc.
  unfold SFltb, SFleb. rewrite (SFcompare_antisym x y).
  destruct (SFcompare x y) as [[| |]|]; [reflexivity ..|].
  exfalso. apply Hc. reflexivity.
Qed.

Variable cfg : config.settings (Arith.F binary64).

Hypothesis min_is_number : is_nan (config.min_depth cfg) = false.
Hypothesis max_is_number : is_nan (config.max_depth cfg) = false.

(** [min_depth <= z <= max_depth], with the comparisons of floats. *)
Definition in_limits (z : spec_float) : bool :=
  SFleb (config.min_depth cfg) z && SFleb z (config.max_depth cfg).

(** For a depth that is not NaN the test of [send_z_command] is the
    negation of [min_depth <= z <= max_depth]. *)
Lemma limit_test_of_number z :
  is_nan z = false ->
  Arith.ltb binary64 z (config.min_depth cfg)
  || Arith.gtb binary64 z (config.max_depth cfg)
  = negb (in_limits z).
Proof.
  intros Hz. unfold Arith.gtb, in_limits. cbn [Arith.ltb binary64].
  rewrite (SFltb_not_leb z _ Hz min_is_number).
  rewrite (SFltb_not_leb _ z max_is_number Hz).
  rewrite negb_andb. reflexivity.
Qed.

(** X28.  In binary64, for every depth other than NaN: a depth within the
    limits is remembered and sent; a depth outside them is replaced by the
    remembered one when there is one; otherwise the call fails, nothing is
    sent and the memory stays as it was. *)
Theorem send_z_command_cases_of_numbers (reply : Reply) (z : spec_float)
    (s : Store binary64) :
  is_nan z = false ->
  (in_limits z = true ->
     send_z_command binary64 cfg reply z s
     = (accepted reply,
        {| _last_valid_depth := Some z; posted := posted s ++ [z] |}))
  /\ (forall last, in_limits z = false -> _last_valid_depth s = Some last ->
        send_z_command binary64 cfg reply z s
        = (accepted reply,
           {| _last_valid_depth := Some last;
              posted := posted s ++ [last] |}))
  /\ (in_limits z = false -> _last_valid_depth s = None ->
        send_z_command binary64 cfg reply z s = (false, s)).
Proof.
  intros Hz. unfold send_z_command. cbv zeta.
  rewrite (limit_test_of_number z Hz).
  split; [|split].
  - intros ->. reflexivity.
  - intros last -> ->. reflexivity.
  - intros -> ->. reflexivity.
Qed.

(** What is remembered and what was posted is within the limits. *)
Definition store_in_limits (s : Store binary64) : Prop :=
  (forall v, _last_valid_depth s = Some v -> in_limits v = true)
  /\ forallb in_limits (posted s) = true.

Lemma store_in_limits_send reply z s :
  is_nan z = false -> store_in_limits s ->
  store_in_limits (snd (send_z_command binary64 cfg reply z s)).
Proof.
  intros Hz [Hlast Hposted].
  unfold send_z_command. cbv zeta. rewrite (limit_test_of_number z Hz).
  unfold store_in_limits, post.
  change (Arith.F binary64) with spec_float in *.
  destruct (in_limits z) eqn:E; cbn [negb].
  - split; cbn [snd _last_valid_depth posted].
    + intros v [= <-]. exact E.
    + rewrite forallb_app, Hposted. cbn [forallb]. rewrite E. reflexivity.
  - destruct (_last_valid_depth s) as [last|] eqn:El.
    + split; cbn [snd _last_valid_depth posted].
      * intros v [= <-]. apply Hlast. reflexivity.
      * rewrite forallb_app, Hposted. cbn [forallb].
        rewrite (Hlast last eq_refl). reflexivity.
    + split; [|exact Hposted].
      cbn [snd]. rewrite El. discriminate.
Qed.

(** X29.  In binary64, as long as no requested depth is NaN, every
    [zSetpoint] posted since start-up is within the limits, and so is the
    remembered depth. *)
Theorem numbers_posted_in_limits (calls : list (spec_float * Reply)) :
  forallb (fun call => negb (is_nan (fst call))) calls = true ->
  forallb in_limits (posted (send_all binary64 cfg calls (initial binary64)))
  = true
  /\ (forall v,
        _last_valid_depth (send_all binary64 cfg calls (initial binary64))
        = Some v ->
        in_limits v = true).
Proof.
  intros Hcalls.
  assert (H : forall s, store_in_limits s ->
                store_in_limits (send_all binary64 cfg calls s)).
  { induction calls as [|[z reply] rest IH]; intros s Hs;
      cbn [send_all]; [exact Hs|].
    cbn [forallb fst] in Hcalls. apply andb_true_iff in Hcalls.
    destruct Hcalls as [Hz Hrest].
    apply (IH Hrest), store_in_limits_send; [|exact Hs].
    apply negb_true_iff, Hz. }
  destruct (H (initial binary64)) as [Hl Hp].
  { split; [discriminate|reflexivity]. }
  split; assumption.
Qed.

End Binary64Client.

Section MachineClientInstances.

Import Backseat.

(** X28 at the two calls of scenario S6 in binary64. *)
Lemma send_z_command_cases_of_numbers_witness :
  send_z_command binary64 (Machine.cfg 1) (Status 200) (Machine.number 120)
    (initial binary64)
  = (false, initial binary64)
  /\ send_z_command binary64 (Machine.cfg 1) (Status 200)
       (Machine.number 50) (initial binary64)
     = (true,
        {| _last_valid_depth := Some (Machine.number 50);
           posted := [Machine.number 50] |}).
Proof.
  destruct (send_z_command_cases_of_numbers (Machine.cfg 1) eq_refl eq_refl
              (Status 200) (Machine.number 120) (initial binary64) eq_refl)
    as (_ & _ & Hreject).
  destruct (send_z_command_cases_of_numbers (Machine.cfg 1) eq_refl eq_refl
              (Status 200) (Machine.number 50) (initial binary64) eq_refl)
    as (Hsend & _).
  split.
  - apply Hreject; [vm_compute|]; reflexivity.
  - apply Hsend. vm_compute. reflexivity.
Defined.

(** X29 at the calls of scenario S6 in binary64: 120 m is refused, 50 m is
    posted, and 50 m is posted again in place of 120 m. *)
Lemma numbers_posted_in_limits_witness :
  forallb (in_limits (Machine.cfg 1))
    (posted
       (send_all binary64 (Machine.cfg 1)
          [(Machine.number 120, Status 200);
           (Machine.number 50, Status 200);
           (Machine.number 120, Status 200)]
          (initial binary64))) = true
  /\ posted
       (send_all binary64 (Machine.cfg 1)
          [(Machine.number 120, Status 200);
           (Machine.number 50, Status 200);
           (Machine.number 120, Status 200)]
          (initial binary64))
     = [Machine.number 50; Machine.number 50].
Proof.
  split; [|vm_compute; reflexivity].
  apply (numbers_posted_in_limits (Machine.cfg 1) eq_refl eq_refl
           [(Machine.number 120, Status 200);
            (Machine.number 50, Status 200);
            (Machine.number 120, Status 200)]).
  vm_compute. reflexivity.
Defined.

End MachineClientInstances.

(** * [src/backseat_api_get.py] *)

Module BackseatGet.

(** The keys of the mission object that the accessors read with [get]; a
    key that is not there reads as [None]. *)
Record Mission := {
  currentPhaseId : option Z;
  name : option string;
  state : option string
}.

(** The module-level cache, and the count of the GET requests made. *)
Record Cache := {
  _last_phase_info : option Mission;
  _last_fetch_time : Q;
  requests : nat
}.

Definition initial : Cache :=
  {| _last_phase_info := None; _last_fetch_time := 0; requests := O |}.

Definition CACHE_TTL : Q := 1 # 2.

(** What the request gives: the decoded mission object, or an exception
    from the transport, the status check or the decoding. *)
Inductive Response := Answer (mission : Mission) | Raises.

(** [current_time] is the clock read under the lock; [response] is what the
    request would give if it is made. *)
Definition get_current_phase_info (force_refresh : bool) (current_time : Q)
    (response : Response) (s : Cache) : option Mission * Cache :=
  let fetch :=
    match response with
    | Answer mission =>
        (Some mission,
         {| _last_phase_info := Some mission;
            _last_fetch_time := current_time;
            requests := S (requests s) |})
    | Raises =>
        (_last_phase_info s,
         {| _last_phase_info := _last_phase_info s;
            _last_fetch_time := _last_fetch_time s;
            requests := S (requests s) |})
    end in
  if negb force_refresh then
    match _last_phase_info s with
    | Some cached =>
        if Qltb (current_time - _last_fetch_time s) CACHE_TTL
        then (Some cached, s)
        else fetch
    | None => fetch
    end
  else fetch.

Definition get_current_phase_id (current_time : Q) (response : Response)
    (s : Cache) : option Z * Cache :=
  let '(phase_info, s') :=
    get_current_phase_info false current_time response s in
  (match phase_info with
   | None => None
   | Some info => currentPhaseId info
   end, s').

Definition get_current_mission_name (current_time : Q) (response : Response)
    (s : Cache) : option string * Cache :=
  let '(phase_info, s') :=
    get_current_phase_info false current_time response s in
  (match phase_info with
   | None => None
   | Some info => name info
   end, s').

Definition is_phase_enabled (current_time : Q) (response : Response)
    (s : Cache) : bool * Cache :=
  let '(phase_info, s') :=
    get_current_phase_info false current_time response s in
  (match phase_info with
   | None => false
   | Some info =>
       match state info with
       | Some st => String.eqb st "Enabled"
       | None => false
       end
   end, s').

(** A sequence of unforced calls, each with its clock value and the
    response its request would get; the results come out in order. *)
Fixpoint poll (calls : list (Q * Response)) (s : Cache)
  : list (option Mission) * Cache :=
  match calls with
  | [] => ([], s)
  | (current_time, response) :: rest =>
      let '(result, s1) :=
        get_current_phase_info false current_time response s in
      let '(results, s2) := poll rest s1 in
      (result :: results, s2)
  end.

End BackseatGet.

Section PhaseInfoCache.

Import BackseatGet.

(** X12.  A successful fetch serves the next half second: after a fetch at
    time [t0] answered with [mission], unforced calls whose clock values lie
    before [t0 + 0.5] all return [mission], make no request and leave the
    cache as it is, whatever the server would have answered. *)
Theorem fresh_cache_serves_calls (t0 : Q) (mission : Mission)
    (response0 : Response) (s : Cache) (calls : list (Q * Response)) :
  response0 = Answer mission ->
  Forall (fun call => fst call < t0 + CACHE_TTL) calls ->
  let s1 := snd (get_current_phase_info true t0 response0 s) in
  poll calls s1 = (map (fun _ => Some mission) calls, s1)
  /\ requests s1 = S (requests s).
Proof.
  intros -> Hcalls s1. split; [|reflexivity].
  assert (Hs1 : _last_phase_info s1 = Some mission
                /\ _last_fetch_time s1 = t0) by (split; reflexivity).
  clearbody s1. destruct Hs1 as [Hinfo Htime].
  induction calls as [|[t response] rest IH]; [reflexivity|].
  apply Forall_cons_iff in Hcalls. destruct Hcalls as [Ht Hrest].
  simpl in Ht.
  cbn [poll map]. unfold get_current_phase_info at 1.
  cbn [negb]. rewrite Hinfo, Htime.
  replace (Qltb (t - t0) CACHE_TTL) with true
    by (symmetry; apply Qltb_lt; lra).
  rewrite (IH Hrest). reflexivity.
Qed.

(** X13.  The cache is never emptied: once a mission is held, every call,
    forced or not, returns a mission, and a call whose request fails returns
    the mission held before it and keeps it, however old it is. *)
Theorem cache_survives_failures (force : bool) (t : Q) (response : Response)
    (s : Cache) (held : Mission) :
  _last_phase_info s = Some held ->
  fst (get_current_phase_info force t response s) <> None
  /\ _last_phase_info (snd (get_current_phase_info force t response s))
     <> None
  /\ (response = Raises ->
      fst (get_current_phase_info force t response s) = Some held
      /\ _last_phase_info (snd (get_current_phase_info force t response s))
         = Some held
      /\ _last_fetch_time (snd (get_current_phase_info force t response s))
         = _last_fetch_time s).
Proof.
  intros Hheld. unfold get_current_phase_info. rewrite Hheld.
  destruct force, response,
    (Qltb (t - _last_fetch_time s) CACHE_TTL); cbn [negb fst snd];
    cbn [_last_phase_info _last_fetch_time];
    repeat split; try discriminate; try congruence.
Qed.

End PhaseInfoCache.

(** * [src/check_line_start.py] *)

Module LineStart.

Import DesBridge.

(** The tolerances that the two checks read from the configuration. *)
Record Tolerances := {
  line_start_tolerance_lat_lon_meters : Q;
  line_start_tolerance_depth_meters : Q;
  line_start_tolerance_heading_degrees : Q;
  subphase_coordinates_tolerance_meters : Q
}.

(** The parameters of a subphase as the plan file gives them: a dictionary
    from key to number.  [None] stands for the [KeyError] of a lookup. *)
Definition SubphaseData : Type := list (string * Q).

Fixpoint lookup (key : string) (d : SubphaseData) : option Q :=
  match d with
  | [] => None
  | (k, v) :: rest => if String.eqb k key then Some v else lookup key rest
  end.

Definition calculate_heading_difference (current_heading target_heading : Q)
  : Q :=
  let diff := Qabs (current_heading - target_heading) in
  Controller.min diff (360 - diff).

Section Geometry.

(** The haversine distance and the initial bearing are built on the
    trigonometric functions of [math]; they are taken as given. *)
Variable calculate_distance_meters : Q -> Q -> Q -> Q -> Q.
Variable calculate_heading_degrees : Q -> Q -> Q -> Q -> Q.

Variable tolerances : Tolerances.

Definition check_line_start (subphase_data : SubphaseData)
    (current_nav : option NavigationData) : bool :=
  match current_nav with
  | None => false
  | Some nav =>
      match latitude nav, longitude nav, depth nav with
      | Some nav_latitude, Some nav_longitude, Some nav_depth =>
          match lookup "START_LAT" subphase_data,
                lookup "START_LON" subphase_data,
                lookup "START_Z" subphase_data,
                lookup "END_LAT" subphase_data,
                lookup "END_LON" subphase_data with
          | Some target_lat, Some target_lon, Some target_depth,
            Some end_lat, Some end_lon =>
              let target_heading :=
                calculate_heading_degrees target_lat target_lon
                                          end_lat end_lon in
              let distance_meters :=
                calculate_distance_meters nav_latitude nav_longitude
                                          target_lat target_lon in
              if Qgtb distance_meters
                      (line_start_tolerance_lat_lon_meters tolerances)
              then false
              else
                let depth_diff := Qabs (nav_depth - target_depth) in
                if Qgtb depth_diff
                        (line_start_tolerance_depth_meters tolerances)
                then false
                else
                  match heading nav with
                  | Some nav_heading =>
                      let heading_diff :=
                        calculate_heading_difference nav_heading
                                                     target_heading in
                      if Qgtb heading_diff
                           (line_start_tolerance_heading_degrees tolerances)
                      then false
                      else true
                  | None => true
                  end
          | _, _, _, _, _ => false
          end
      | _, _, _ => false
      end
  end.

Definition check_point (target_lat target_lon : Q)
    (current_nav : option NavigationData) : bool :=
  match current_nav with
  | None => false
  | Some nav =>
      match latitude nav, longitude nav with
      | Some nav_latitude, Some nav_longitude =>
          let distance_meters :=
            calculate_distance_meters nav_latitude nav_longitude
                                      target_lat target_lon in
          if Qgtb distance_meters
                  (subphase_coordinates_tolerance_meters tolerances)
          then false
          else true
      | _, _ => false
      end
  end.

End Geometry.

End LineStart.

Section LineStartProperties.

Import DesBridge LineStart.

Lemma python_min_le a b : Controller.min a b <= a /\ Controller.min a b <= b.
Proof. unfold Controller.min. branches; qbool; split; lra. Qed.

Lemma python_min_ge a b c : c <= a -> c <= b -> c <= Controller.min a b.
Proof. unfold Controller.min. branches; intros; assumption. Qed.

Lemma heading_difference_half_turn a b :
  calculate_heading_difference a b <= 180.
Proof.
  unfold calculate_heading_difference.
  pose proof (Qabs_nonneg (a - b)) as Hpos.
  destruct (python_min_le (Qabs (a - b)) (360 - Qabs (a - b))). lra.
Qed.

(** X14.  The heading difference never exceeds half a turn, does not depend
    on the order of its arguments, and for two headings that are at most a
    full turn apart it is not negative. *)
Theorem heading_difference_bounds (a b : Q) :
  calculate_heading_difference a b <= 180
  /\ calculate_heading_difference a b == calculate_heading_difference b a
  /\ (Qabs (a - b) <= 360 -> 0 <= calculate_heading_difference a b).
Proof.
  unfold calculate_heading_difference.
  assert (Hsym : Qabs (a - b) == Qabs (b - a)).
  { setoid_replace (b - a) with (- (a - b)) by ring.
    rewrite Qabs_opp. reflexivity. }
  pose proof (Qabs_nonneg (a - b)) as Hpos.
  split; [|split].
  - destruct (python_min_le (Qabs (a - b)) (360 - Qabs (a - b))). lra.
  - unfold Controller.min.
    replace (Qltb (360 - Qabs (b - a)) (Qabs (b - a)))
      with (Qltb (360 - Qabs (a - b)) (Qabs (a - b))).
    + destruct (Qltb (360 - Qabs (a - b)) (Qabs (a - b)));
        rewrite Hsym; reflexivity.
    + destruct (Qltb (360 - Qabs (a - b)) (Qabs (a - b))) eqn:E1;
        destruct (Qltb (360 - Qabs (b - a)) (Qabs (b - a))) eqn:E2;
        try reflexivity; qbool; lra.
  - intros H. apply python_min_ge; lra.
Qed.

Variable distance_meters heading_degrees : Q -> Q -> Q -> Q -> Q.
Variable tolerances : Tolerances.


(** X16.  A heading tolerance of half a turn or more switches the heading
    test off: the decision is the same as for the frame without its
    heading. *)
Theorem wide_heading_tolerance_ignores_heading
    (subphase_data : SubphaseData) (nav : NavigationData) :
  180 <= line_start_tolerance_heading_degrees tolerances ->
  forall nav',
    latitude nav' = latitude nav -> longitude nav' = longitude nav ->
    depth nav' = depth nav -> heading nav' = None ->
    check_line_start distance_meters heading_degrees tolerances subphase_data
      (Some nav)
    = check_line_start distance_meters heading_degrees tolerances
        subphase_data (Some nav').
Proof.
  intros Htol nav' Hlat Hlon Hdep Hhead. unfold check_line_start.
  rewrite Hlat, Hlon, Hdep, Hhead.
  destruct (latitude nav), (longitude nav), (depth nav); try reflexivity.
  destruct (lookup "START_LAT" subphase_data),
    (lookup "START_LON" subphase_data), (lookup "START_Z" subphase_data),
    (lookup "END_LAT" subphase_data), (lookup "END_LON" subphase_data);
    try reflexivity.
  destruct (Qgtb _ _); [reflexivity|].
  destruct (Qgtb _ _); [reflexivity|].
  destruct (heading nav) as [h|]; [|reflexivity].
  replace (Qgtb _ _) with false; [reflexivity|].
  symmetry. apply Qgtb_le.
  apply Qle_trans with 180; [apply heading_difference_half_turn|].
  exact Htol.
Qed.

End LineStartProperties.

(** * The receive loop of [src/DesBridge_api.py] *)

Module Ingest.

Import DesBridge.

Local Open Scope char_scope.

(** [data.decode('ascii', errors='ignore')]: the bytes from 128 up are
    dropped. *)
Fixpoint decode (data : string) : string :=
  match data with
  | EmptyString => EmptyString
  | String ch rest =>
      if (nat_of_ascii ch <? 128)%nat then String ch (decode rest)
      else decode rest
  end.

(** [buffer.split(sep, 1)] when [sep] occurs in [buffer]: what is before
    its first occurrence and what is after it; [None] when it does not
    occur. *)
Fixpoint split_once (sep : ascii) (buffer : string)
  : option (string * string) :=
  match buffer with
  | EmptyString => None
  | String ch rest =>
      if Ascii.eqb ch sep then Some (EmptyString, rest)
      else
        match split_once sep rest with
        | Some (line, buffer') => Some (String ch line, buffer')
        | None => None
        end
  end.

(** [line.rstrip(chars)] for a single character. *)
Fixpoint rstrip_char (strip : ascii) (line : string) : string :=
  match line with
  | EmptyString => EmptyString
  | String ch rest =>
      match rstrip_char strip rest with
      | EmptyString =>
          if Ascii.eqb ch strip then EmptyString else String ch EmptyString
      | kept => String ch kept
      end
  end.

Section Loop.

Variable float : string -> option Q.

(** The body of the inner [while]: one complete line. *)
Definition deliver (line : string) (latest : option NavigationData)
  : option NavigationData :=
  let line := rstrip_char "013" line in
  if String.eqb line EmptyString then latest
  else process_message float latest line.

(** The inner [while '\n' in buffer] loop; every turn shortens the buffer,
    so [fuel] above its length is never used up. *)
Fixpoint drain (fuel : nat) (buffer : string)
    (latest : option NavigationData) : string * option NavigationData :=
  match fuel with
  | O => (buffer, latest)
  | S fuel' =>
      match split_once "010" buffer with
      | None => (buffer, latest)
      | Some (line, buffer') => drain fuel' buffer' (deliver line latest)
      end
  end.

(** One turn of the outer loop of [handle_client] for a non-empty read:
    the state is the buffer and the stored frame. *)
Definition receive (st : string * option NavigationData) (data : string)
  : string * option NavigationData :=
  let buffer := (fst st ++ decode data)%string in
  drain (S (String.length buffer)) buffer (snd st).

End Loop.

End Ingest.

Section IngestProperties.

Import DesBridge Ingest.

Local Open Scope string_scope.

Variable float : string -> option Q.

Lemma decode_app a b : decode (a ++ b) = decode a ++ decode b.
Proof.
  induction a as [|ch a IH]; simpl; [reflexivity|].
  destruct (nat_of_ascii ch <? 128)%nat; simpl; rewrite IH; reflexivity.
Qed.

Lemma string_app_assoc (a b c : string) : (a ++ b) ++ c = a ++ (b ++ c).
Proof. induction a as [|ch a IH]; simpl; [|rewrite IH]; reflexivity. Qed.

Lemma string_app_length (a b : string) :
  String.length (a ++ b) = (String.length a + String.length b)%nat.
Proof. induction a as [|ch a IH]; simpl; [|rewrite IH]; reflexivity. Qed.

Lemma split_once_length sep buffer line rest :
  split_once sep buffer = Some (line, rest) ->
  (String.length rest < String.length buffer)%nat.
Proof.
  revert line. induction buffer as [|ch buffer IH]; simpl; intros line;
    [discriminate|].
  destruct (Ascii.eqb ch sep).
  - intros [= <- <-]. lia.
  - destruct (split_once sep buffer) as [[l r]|]; [|discriminate].
    intros [= <- <-]. specialize (IH l eq_refl). lia.
Qed.

Lemma split_once_app sep a b :
  split_once sep (a ++ b)
  = match split_once sep a with
    | Some (line, rest) => Some (line, rest ++ b)
    | None =>
        match split_once sep b with
        | Some (line, rest) => Some (a ++ line, rest)
        | None => None
        end
    end.
Proof.
  induction a as [|ch a IH]; simpl.
  - destruct (split_once sep b) as [[l r]|]; reflexivity.
  - destruct (Ascii.eqb ch sep); [reflexivity|]. rewrite IH.
    destruct (split_once sep a) as [[l r]|]; [reflexivity|].
    destruct (split_once sep b) as [[l r]|]; reflexivity.
Qed.

Lemma drain_step f buffer latest :
  drain float (S f) buffer latest
  = match split_once "010" buffer with
    | None => (buffer, latest)
    | Some (line, buffer') =>
        drain float f buffer' (deliver float line latest)
    end.
Proof. reflexivity. Qed.

(** Fuel above the length of the buffer is as good as any. *)
Lemma drain_fuel f g buffer latest :
  (String.length buffer < f)%nat -> (String.length buffer < g)%nat ->
  drain float f buffer latest = drain float g buffer latest.
Proof.
  revert g buffer latest.
  induction f as [|f IH]; intros g buffer latest Hf Hg; [lia|].
  destruct g as [|g]; [lia|]. simpl.
  destruct (split_once "010" buffer) as [[line rest]|] eqn:E; [|reflexivity].
  apply split_once_length in E. apply IH; lia.
Qed.

Lemma drain_remainder f buffer latest :
  (String.length (fst (drain float f buffer latest))
   <= String.length buffer)%nat.
Proof.
  revert buffer latest. induction f as [|f IH]; intros buffer latest;
    simpl; [lia|].
  destruct (split_once "010" buffer) as [[line rest]|] eqn:E; simpl; [|lia].
  apply split_once_length in E.
  specialize (IH rest (deliver float line latest)). lia.
Qed.

(** Draining a buffer and then what follows it is draining both at once. *)
Lemma drain_app f a b latest :
  (String.length a + String.length b < f)%nat ->
  drain float f (a ++ b) latest
  = drain float f
      (fst (drain float f a latest) ++ b) (snd (drain float f a latest)).
Proof.
  revert a latest.
  induction f as [|f IH]; intros a latest Hf; [lia|].
  rewrite (drain_step f a), (drain_step f (a ++ b)), split_once_app.
  destruct (split_once "010" a) as [[line rest]|] eqn:E.
  - pose proof (split_once_length _ _ _ _ E) as Hlen.
    rewrite IH by lia.
    pose proof (drain_remainder f rest (deliver float line latest)) as Hrem.
    apply drain_fuel; rewrite string_app_length; lia.
  - cbn [fst snd]. rewrite (drain_step f (a ++ b)), split_once_app, E.
    reflexivity.
Qed.

(** X17.  How the stream is cut into reads does not matter: receiving two
    chunks one after the other leaves the same buffer and the same stored
    frame as receiving them joined, so a telegram split across reads is
    handled like one that arrives whole. *)
Theorem receive_chunks (st : string * option NavigationData)
    (data1 data2 : string) :
  receive float (receive float st data1) data2
  = receive float st (data1 ++ data2).
Proof.
  destruct st as [buffer latest]. unfold receive. cbn [fst snd].
  rewrite decode_app, <- string_app_assoc.
  set (a := buffer ++ decode data1). set (b := decode data2).
  pose proof (drain_remainder (S (String.length a)) a latest) as Hrem.
  rewrite (drain_app (S (String.length (a ++ b))) a b latest)
    by (rewrite string_app_length; lia).
  rewrite (drain_fuel (S (String.length (a ++ b))) (S (String.length a))
             a latest) by (rewrite ?string_app_length; lia).
  apply drain_fuel; rewrite ?string_app_length; lia.
Qed.

Lemma split_once_none_drain f buffer latest :
  split_once "010" (fst (drain float f buffer latest)) = None
  \/ (f <= String.length buffer)%nat.
Proof.
  revert buffer latest. induction f as [|f IH]; intros buffer latest;
    [right; lia|].
  simpl. destruct (split_once "010" buffer) as [[line rest]|] eqn:E.
  - apply split_once_length in E.
    destruct (IH rest (deliver float line latest)) as [H|H];
      [left; exact H | right; lia].
  - left. exact E.
Qed.

(** X18.  After a read no complete line is left waiting: the buffer kept
    for the next read holds no line feed. *)
Theorem receive_leaves_no_line (st : string * option NavigationData)
    (data : string) :
  split_once "010" (fst (receive float st data)) = None.
Proof.
  unfold receive.
  destruct (split_once_none_drain
              (S (String.length (fst st ++ decode data)))
              (fst st ++ decode data) (snd st)) as [H|H];
    [exact H | lia].
Qed.

End IngestProperties.

Section Checksum.

Import DesBridge.

Local Open Scope string_scope.

Variable float : string -> option Q.

Lemma contains_app_sep sep a b : contains sep (a ++ String sep b) = true.
Proof.
  induction a as [|ch a IH]; simpl.
  - rewrite Ascii.eqb_refl. reflexivity.
  - rewrite IH. apply orb_true_r.
Qed.

Lemma split_head_app sep a b :
  contains sep a = false ->
  hd EmptyString (split sep (a ++ String sep b)) = a.
Proof.
  induction a as [|ch a IH]; simpl; intros H.
  - rewrite Ascii.eqb_refl. reflexivity.
  - apply orb_false_iff in H. destruct H as [Hch Ha]. rewrite Hch.
    specialize (IH Ha).
    destruct (split sep (a ++ String sep b)) as [|piece pieces];
      simpl in *; rewrite IH; reflexivity.
Qed.

(** X19.  What follows the first asterisk of a telegram plays no part:
    a telegram with a checksum is parsed exactly as the same telegram
    without it, whatever the checksum says. *)
Theorem checksum_is_ignored (message checksum : string)
    (latest : option NavigationData) :
  contains "*" message = false ->
  parse_navigation float latest (message ++ String "*" checksum)
  = parse_navigation float latest message.
Proof.
  intros H. unfold parse_navigation.
  replace (fields_of (message ++ String "*" checksum))
    with (fields_of message); [reflexivity|].
  unfold fields_of. rewrite contains_app_sep, H, split_head_app by exact H.
  reflexivity.
Qed.

End Checksum.

(** * The further properties at the sample plans *)

Section MoreInstances.

Import Controller Main Scenarios.



(** X5 on a tick of the short descent spent in [ASCEND]. *)
Lemma planned_depth_keeps_ticking_witness :
  current_z (fst (update (cfg 1) 0 (Some 2) short_descent))
  = current_z short_descent
    + current_step (fst (update (cfg 1) 0 (Some 2) short_descent)).
Proof.
  apply (planned_depth_keeps_ticking (cfg 1) 0 (Some 2) short_descent).
  vm_compute. reflexivity.
Defined.



(** X8 on the third tick of the smoothed descent. *)
Lemma transition_step_between_witness :
  0 <= current_step (run (cfg 5) clock safe 3 smoothed)
  /\ current_step (run (cfg 5) clock safe 3 smoothed) <= 1 # 5.
Proof.
  apply (transition_step_between (cfg 5) clock safe 10 20 (1 # 5) (1 # 2)
           true 0 2).
  - vm_compute. discriminate.
  - vm_compute. lia.
  - vm_compute. discriminate.
Defined.

(** X10 and X11 around the first valid request. *)
Lemma remembered_depth_always_posts_witness :
  List.length
    (Backseat.posted
       (Backseat.send_all exact (cfg 1)
          [(120, Backseat.Raises); (30, Backseat.Status 200)]
          {| Backseat._last_valid_depth := Some 50;
             Backseat.posted := [50] |})) = 3%nat
  /\ Backseat._last_valid_depth
       (Backseat.send_all exact (cfg 1)
          [(120, Backseat.Raises); (30, Backseat.Status 200)]
          {| Backseat._last_valid_depth := Some 50;
             Backseat.posted := [50] |}) <> None.
Proof.
  apply (remembered_depth_always_posts exact (cfg 1)
           [(120, Backseat.Raises); (30, Backseat.Status 200)]
           {| Backseat._last_valid_depth := Some 50;
              Backseat.posted := [50] |} 50).
  reflexivity.
Defined.

Lemma nothing_posted_before_first_valid_witness :
  Backseat.send_all exact (cfg 1)
    [(120, Backseat.Status 200); (-1, Backseat.Status 200)]
    (Backseat.initial exact)
  = Backseat.initial exact.
Proof.
  apply (nothing_posted_before_first_valid exact (cfg 1)).
  repeat constructor.
Defined.

(** The step of the descent of scenario S1 is positive. *)
Lemma calculate_step_sign_witness :
  (10 < 20 -> 0 < 10 # 50) /\ (20 < 10 -> 10 # 50 < 0).
Proof.
  apply (calculate_step_sign (cfg 1) 10 20 1 50 (10 # 50));
    reflexivity.
Defined.

End MoreInstances.

Section ServiceInstances.

Import DesBridge LineStart Ingest Scenarios.

Definition survey : BackseatGet.Mission :=
  {| BackseatGet.currentPhaseId := Some 3%Z;
     BackseatGet.name := Some "survey"%string;
     BackseatGet.state := Some "Enabled"%string |}.

(** X12: a fetch at second 10 serves the calls at 10.1 s and 10.4 s. *)
Lemma fresh_cache_serves_calls_witness :
  BackseatGet.poll
    [(101 # 10, BackseatGet.Raises); (104 # 10, BackseatGet.Raises)]
    (snd (BackseatGet.get_current_phase_info true 10
            (BackseatGet.Answer survey) BackseatGet.initial))
  = ([Some survey; Some survey],
     snd (BackseatGet.get_current_phase_info true 10
            (BackseatGet.Answer survey) BackseatGet.initial))
  /\ BackseatGet.requests
       (snd (BackseatGet.get_current_phase_info true 10
               (BackseatGet.Answer survey) BackseatGet.initial)) = 1%nat.
Proof.
  apply (fresh_cache_serves_calls 10 survey (BackseatGet.Answer survey)
           BackseatGet.initial
           [(101 # 10, BackseatGet.Raises); (104 # 10, BackseatGet.Raises)]).
  - reflexivity.
  - repeat constructor.
Defined.

(** X13: a failed request an hour later still returns the mission. *)
Lemma cache_survives_failures_witness :
  fst (BackseatGet.get_current_phase_info false 3610 BackseatGet.Raises
         (snd (BackseatGet.get_current_phase_info true 10
                 (BackseatGet.Answer survey) BackseatGet.initial)))
  = Some survey.
Proof.
  destruct (cache_survives_failures false 3610 BackseatGet.Raises
              (snd (BackseatGet.get_current_phase_info true 10
                      (BackseatGet.Answer survey) BackseatGet.initial))
              survey) as (_ & _ & H).
  - reflexivity.
  - destruct (H eq_refl) as [Hret _]. exact Hret.
Defined.

(** A flat-earth stand-in for the two geodesy functions, good enough to
    run the checks on sample frames: a degree is 111 km either way and the
    bearing of the line is north. *)
Definition flat_distance (lat1 lon1 lat2 lon2 : Q) : Q :=
  111000 * (Qabs (lat2 - lat1) + Qabs (lon2 - lon1)).

Definition north (lat1 lon1 lat2 lon2 : Q) : Q := 0.

Definition loose : Tolerances :=
  {| line_start_tolerance_lat_lon_meters := 50;
     line_start_tolerance_depth_meters := 2;
     line_start_tolerance_heading_degrees := 180;
     subphase_coordinates_tolerance_meters := 20 |}.

Definition leg : SubphaseData :=
  [("START_LAT"%string, 48); ("START_LON"%string, -4);
   ("START_Z"%string, 10); ("END_LAT"%string, 49);
   ("END_LON"%string, -4); ("END_Z"%string, 20);
   ("SPEED"%string, 1)].

Definition frame_of (message : string) : option NavigationData :=
  parse_navigation decimal_float None message.

Definition at_start : string :=
  "$NAVIGATION,48.0001,-4.0,0.3,10.5,7.25,19.75,0.1,0.2,0.0"%string.

Definition at_start_heading_south : string :=
  ("$NAVIGATION,48.0001,-4.0,0.3,10.5,7.25,19.75,0.1,0.2,0.0,0,0,0,0,"
   ++ "0,0,0,0,0,0,0,0,0,180.0")%string.

(** X16: with a heading tolerance of 180 degrees the frame that heads
    south is accepted like the one without heading. *)
Lemma wide_heading_tolerance_ignores_heading_witness :
  exists nav nav',
    frame_of at_start_heading_south = Some nav
    /\ frame_of at_start = Some nav'
    /\ heading nav = Some (1800 # 10)
    /\ check_line_start flat_distance north loose leg (Some nav)
       = check_line_start flat_distance north loose leg (Some nav').
Proof.
  eexists. eexists. split; [vm_compute; reflexivity|].
  split; [vm_compute; reflexivity|]. split; [reflexivity|].
  apply (wide_heading_tolerance_ignores_heading flat_distance north loose
           leg); try reflexivity.
  vm_compute. discriminate.
Defined.

(** X19 on the telegram of nine fields with a checksum appended. *)
Lemma checksum_is_ignored_witness :
  parse_navigation decimal_float None (nine_fields ++ String "*" "5A")
  = parse_navigation decimal_float None nine_fields.
Proof.
  apply (checksum_is_ignored decimal_float nine_fields "5A" None).
  reflexivity.
Defined.

(** A telegram that arrives in two reads, cut inside a field, with its
    carriage return and line feed: the frame is stored once the line is
    complete, and the buffer is empty again. *)
Example telegram_in_two_reads :
  receive decimal_float
    (receive decimal_float (EmptyString, None)
       "$NAVIGATION,48.1,-4.5,0.3,12.5,7.")
    ("25,19.75,0.1,0.2,0.0" ++ String "013" (String "010" EmptyString))
  = (EmptyString, parse_navigation decimal_float None nine_fields)
  /\ snd (receive decimal_float (EmptyString, None)
            "$NAVIGATION,48.1,-4.5,0.3,12.5,7.") = None.
Proof. split; vm_compute; reflexivity. Qed.

End ServiceInstances.

(** * The altitude of a tick: [main.py] and [src/test_altitude_source.py] *)

Module Loop.

Import DesBridge Controller.

Section Altitude.

Variable float : string -> option Q.

(** [get_bottom_depth]: [file] is the content of the depth file, [None]
    when it is not there or cannot be read. *)
Definition get_bottom_depth (file : option string) : Q :=
  match file with
  | Some content =>
      match float (strip content) with
      | Some value => value
      | None => 20
      end
  | None => 20
  end.

(** [get_test_altitude]: [None] stands for its [ValueError]. *)
Definition get_test_altitude (file : option string)
    (nav_data : option NavigationData) : option Q :=
  match nav_data with
  | None => None
  | Some nav =>
      match depth nav with
      | None => None
      | Some nav_depth =>
          let bottom_depth := get_bottom_depth file in
          Some (bottom_depth - nav_depth)
      end
  end.

(** The altitude the loop derives from the latest frame; the outer [None]
    is the exception of the test source, the inner one a missing
    altitude. *)
Definition tick_altitude (test_mode : bool) (file : option string)
    (nav_data : option NavigationData) : option (option Q) :=
  if test_mode then
    match get_test_altitude file nav_data with
    | Some simulated => Some (Some simulated)
    | None => None
    end
  else
    Some (match nav_data with
          | Some nav => altitude nav
          | None => None
          end).

(** One turn of the loop up to the call of [update]; [None] when the turn
    raises before it. *)
Definition tick (cfg : config.t) (test_mode : bool) (file : option string)
    (now : Q) (nav_data : option NavigationData) (c : DepthController)
  : option (DepthController * Q) :=
  match tick_altitude test_mode file nav_data with
  | Some altitude => Some (update cfg now altitude c)
  | None => None
  end.

End Altitude.

End Loop.

Section LoopProperties.

Import DesBridge Controller Loop.

Variable float : string -> option Q.
Variable cfg : config.t.


(** X21.  On simulated altitude the controller is never called without an
    altitude: a turn either raises before the call, exactly when there is no
    frame or the frame has no depth, or calls [update] with the bottom depth
    minus the vehicle depth, the bottom depth being 20 m when the depth file
    is missing or does not hold a number. *)
Theorem test_mode_altitude (file : option string) (now : Q)
    (nav_data : option NavigationData) (c : DepthController) :
  (tick float cfg true file now nav_data c = None
   <-> forall nav d, nav_data = Some nav -> depth nav <> Some d)
  /\ (forall nav d, nav_data = Some nav -> depth nav = Some d ->
      tick float cfg true file now nav_data c
      = Some (update cfg now (Some (get_bottom_depth float file - d)) c))
  /\ ((file = None \/ exists content,
         file = Some content /\ float (strip content) = None) ->
      get_bottom_depth float file = 20).
Proof.
  unfold tick, tick_altitude, get_test_altitude. split; [split|split].
  - destruct nav_data as [nav|]; [|intros _ nav d H; discriminate H].
    destruct (depth nav) as [d0|] eqn:E; [discriminate|].
    intros _ nav' d [= <-]. congruence.
  - destruct nav_data as [nav|]; [|reflexivity].
    destruct (depth nav) as [d0|] eqn:E; [|reflexivity].
    intros H. exfalso. apply (H nav d0 eq_refl E).
  - intros nav d -> ->. reflexivity.
  - unfold get_bottom_depth.
    intros [-> | (content & -> & ->)]; reflexivity.
Qed.

End LoopProperties.

Section LoopInstances.

Import DesBridge Controller Loop.

(** A frame whose altitude field is undefined. *)
Definition no_bottom_lock : string :=
  "$NAVIGATION,48.0001,-4.0,0.3,10.5,UNDEF,19.75,0.1,0.2,0.0"%string.


End LoopInstances.

(** * [src/phase_manager.py] and the monitor loop of [main.py] *)

Module phase_manager.

Import DesBridge LineStart.

Local Open Scope Z_scope.

(** What the phase manager is waiting for. *)
Inductive WaitingState := NONE | LINE_START | SUBPHASE.

(** The entry of a phase in the plan: a mapping from subphase id to
    subphase parameters, in the order of the file, or a scalar (a number,
    an empty entry), on which the [in] operator raises. *)
Inductive PhaseConfig :=
| Mapping (entries : list (string * SubphaseData))
| Scalar.

(** The task of a virtual-slope loop: the arguments it was created with. *)
Record Task := {
  task_subphase : string;
  task_data : SubphaseData;
  task_previous_step : Q
}.

Record PhaseManager := {
  current_mission_name : option string;
  phases_data : list (Z * PhaseConfig);
  last_phase_id : option Z;
  current_phase_id : option Z;
  current_subphase_id : option string;
  subphase_list : list string;
  current_subphase_index : Z;
  waiting_state : WaitingState;
  vs_task : option Task;
  last_step : Q
}.

(** Attribute assignment, one function per attribute. *)

Definition set_current_mission_name (v : option string) (m : PhaseManager)
  : PhaseManager :=
  {| current_mission_name := v; phases_data := phases_data m;
     last_phase_id := last_phase_id m; current_phase_id := current_phase_id m;
     current_subphase_id := current_subphase_id m;
     subphase_list := subphase_list m;
     current_subphase_index := current_subphase_index m;
     waiting_state := waiting_state m; vs_task := vs_task m;
     last_step := last_step m |}.

Definition set_phases_data (v : list (Z * PhaseConfig)) (m : PhaseManager)
  : PhaseManager :=
  {| current_mission_name := current_mission_name m; phases_data := v;
     last_phase_id := last_phase_id m; current_phase_id := current_phase_id m;
     current_subphase_id := current_subphase_id m;
     subphase_list := subphase_list m;
     current_subphase_index := current_subphase_index m;
     waiting_state := waiting_state m; vs_task := vs_task m;
     last_step := last_step m |}.

Definition set_last_phase_id (v : option Z) (m : PhaseManager)
  : PhaseManager :=
  {| current_mission_name := current_mission_name m;
     phases_data := phases_data m; last_phase_id := v;
     current_phase_id := current_phase_id m;
     current_subphase_id := current_subphase_id m;
     subphase_list := subphase_list m;
     current_subphase_index := current_subphase_index m;
     waiting_state := waiting_state m; vs_task := vs_task m;
     last_step := last_step m |}.

Definition set_current_phase_id (v : option Z) (m : PhaseManager)
  : PhaseManager :=
  {| current_mission_name := current_mission_name m;
     phases_data := phases_data m; last_phase_id := last_phase_id m;
     current_phase_id := v; current_subphase_id := current_subphase_id m;
     subphase_list := subphase_list m;
     current_subphase_index := current_subphase_index m;
     waiting_state := waiting_state m; vs_task := vs_task m;
     last_step := last_step m |}.

Definition set_current_subphase_id (v : option string) (m : PhaseManager)
  : PhaseManager :=
  {| current_mission_name := current_mission_name m;
     phases_data := phases_data m; last_phase_id := last_phase_id m;
     current_phase_id := current_phase_id m; current_subphase_id := v;
     subphase_list := subphase_list m;
     current_subphase_index := current_subphase_index m;
     waiting_state := waiting_state m; vs_task := vs_task m;
     last_step := last_step m |}.

Definition set_subphase_list (v : list string) (m : PhaseManager)
  : PhaseManager :=
  {| current_mission_name := current_mission_name m;
     phases_data := phases_data m; last_phase_id := last_phase_id m;
     current_phase_id := current_phase_id m;
     current_subphase_id := current_subphase_id m; subphase_list := v;
     current_subphase_index := current_subphase_index m;
     waiting_state := waiting_state m; vs_task := vs_task m;
     last_step := last_step m |}.

Definition set_current_subphase_index (v : Z) (m : PhaseManager)
  : PhaseManager :=
  {| current_mission_name := current_mission_name m;
     phases_data := phases_data m; last_phase_id := last_phase_id m;
     current_phase_id := current_phase_id m;
     current_subphase_id := current_subphase_id m;
     subphase_list := subphase_list m; current_subphase_index := v;
     waiting_state := waiting_state m; vs_task := vs_task m;
     last_step := last_step m |}.

Definition set_waiting_state (v : WaitingState) (m : PhaseManager)
  : PhaseManager :=
  {| current_mission_name := current_mission_name m;
     phases_data := phases_data m; last_phase_id := last_phase_id m;
     current_phase_id := current_phase_id m;
     current_subphase_id := current_subphase_id m;
     subphase_list := subphase_list m;
     current_subphase_index := current_subphase_index m; waiting_state := v;
     vs_task := vs_task m; last_step := last_step m |}.

Definition set_vs_task (v : option Task) (m : PhaseManager) : PhaseManager :=
  {| current_mission_name := current_mission_name m;
     phases_data := phases_data m; last_phase_id := last_phase_id m;
     current_phase_id := current_phase_id m;
     current_subphase_id := current_subphase_id m;
     subphase_list := subphase_list m;
     current_subphase_index := current_subphase_index m;
     waiting_state := waiting_state m; vs_task := v;
     last_step := last_step m |}.

Definition set_last_step (v : Q) (m : PhaseManager) : PhaseManager :=
  {| current_mission_name := current_mission_name m;
     phases_data := phases_data m; last_phase_id := last_phase_id m;
     current_phase_id := current_phase_id m;
     current_subphase_id := current_subphase_id m;
     subphase_list := subphase_list m;
     current_subphase_index := current_subphase_index m;
     waiting_state := waiting_state m; vs_task := vs_task m;
     last_step := v |}.

Definition initial : PhaseManager :=
  {| current_mission_name := None; phases_data := [];
     last_phase_id := None; current_phase_id := None;
     current_subphase_id := None; subphase_list := [];
     current_subphase_index := -1; waiting_state := NONE;
     vs_task := None; last_step := 0%Q |}.

(** ** Dictionaries and lists as Python reads them *)

Fixpoint assoc {A : Type} (key : string) (d : list (string * A))
  : option A :=
  match d with
  | [] => None
  | (k, v) :: rest => if String.eqb k key then Some v else assoc key rest
  end.

Fixpoint assoc_phase (key : Z) (d : list (Z * PhaseConfig))
  : option PhaseConfig :=
  match d with
  | [] => None
  | (k, v) :: rest => if Z.eqb k key then Some v else assoc_phase key rest
  end.

(** [l[i]]: a negative index counts from the end; [None] stands for
    [IndexError]. *)
Definition item {A : Type} (l : list A) (i : Z) : option A :=
  let n := Z.of_nat (List.length l) in
  if 0 <=? i then nth_error l (Z.to_nat i)
  else if - n <=? i then nth_error l (Z.to_nat (n + i))
  else None.

(** A mission name counts as given when it is a non-empty string. *)
Definition truthy (name : option string) : bool :=
  match name with
  | Some s => negb (String.eqb s EmptyString)
  | None => false
  end.

Definition same_name (a b : option string) : bool :=
  match a, b with
  | Some x, Some y => String.eqb x y
  | None, None => true
  | _, _ => false
  end.

Definition same_phase (a b : option Z) : bool :=
  match a, b with
  | Some x, Some y => Z.eqb x y
  | None, None => true
  | _, _ => false
  end.

(** ** The sort key and [sorted] *)

Section Keys.

(** The builtin [int] on strings: [None] stands for its [ValueError]. *)
Variable int : string -> option Z.

Definition subphase_sort_key (subphase_id : string) : Z * Z :=
  let parts := split "-" subphase_id in
  match nth_error parts 0 with
  | None => (0, 0)
  | Some major =>
      match int major with
      | None => (0, 0)
      | Some a =>
          match nth_error parts 1 with
          | None => (0, 0)
          | Some minor =>
              match int minor with
              | None => (0, 0)
              | Some b => (a, b)
              end
          end
      end
  end.

(** The order of pairs of integers. *)
Definition key_lt (a b : Z * Z) : bool :=
  (fst a <? fst b) || ((fst a =? fst b) && (snd a <? snd b)).

(** [sorted(ids, key=subphase_sort_key)]: a stable sort, here by insertion
    behind the ids whose key is not larger. *)
Fixpoint insert_sorted (x : string) (l : list string) : list string :=
  match l with
  | [] => [x]
  | y :: rest =>
      if key_lt (subphase_sort_key x) (subphase_sort_key y)
      then x :: l
      else y :: insert_sorted x rest
  end.

Definition sorted (ids : list string) : list string :=
  fold_left (fun done x => insert_sorted x done) ids [].

End Keys.

(** ** Methods that may raise *)

(** The outcome of a method: its result and the manager after it, or an
    exception that leaves the manager as it was when it was raised. *)
Inductive Outcome (A : Type) :=
| Done (result : A) (m : PhaseManager)
| Raised (m : PhaseManager).

Arguments Done {A} result m.
Arguments Raised {A} m.

Definition M (A : Type) : Type := PhaseManager -> Outcome A.

Definition ret {A : Type} (a : A) : M A := fun m => Done a m.

Definition bind {A B : Type} (c : M A) (k : A -> M B) : M B :=
  fun m =>
    match c m with
    | Done a m' => k a m'
    | Raised m' => Raised m'
    end.

Definition raise {A : Type} : M A := fun m => Raised m.

Definition self : M PhaseManager := fun m => Done m m.

Definition assign (f : PhaseManager -> PhaseManager) : M unit :=
  fun m => Done tt (f m).

Arguments ret {A} a m /.
Arguments bind {A B} c k m /.
Arguments raise {A} m /.
Arguments self m /.
Arguments assign f m /.

Notation "x <- c ;; k" := (bind c (fun x => k))
  (at level 61, c at next level, right associativity).
Notation "c ;; k" := (bind c (fun _ => k))
  (at level 61, right associativity).

(** ** What one call of [update] observes

    Each field is the answer of one call to the outside, in the order in
    which [update] makes them; a call that is not made leaves its field
    unread. *)

(** The task at the moment [stop_vs] cancels and awaits it: cancelled
    before its controller exists, where nothing is stored; inside its loop,
    where [finally] stores the step of its controller; or already ended by
    an error, which the [await] raises again.  A task that failed inside
    its loop has stored the step of its controller on its way out; the
    manager neither reads nor writes the step memory between that moment
    and the [await], so the store is placed at the [await]. *)
Inductive TaskStatus :=
| Starting
| InLoop (step : Q)
| Failed (saved : option Q).

Record Observations := {
  mission_name : option string;
  loaded_phases : list (Z * PhaseConfig);
  phase_id : option Z;
  enabled_for_stop : bool;
  nav_at_end : option NavigationData;
  enabled_for_start : bool;
  nav_at_start : option NavigationData;
  task_status : TaskStatus;
  nav_at_launch : option NavigationData
}.

Section Manager.

Variable int : string -> option Z.
Variable calculate_distance_meters : Q -> Q -> Q -> Q -> Q.
Variable calculate_heading_degrees : Q -> Q -> Q -> Q -> Q.
Variable tolerances : Tolerances.
Variable cfg : config.t.

Variable obs : Observations.

Definition stop_vs : M unit :=
  m <- self ;;
  match vs_task m with
  | None => ret tt
  | Some _ =>
      match task_status obs with
      | Starting => assign (set_vs_task None)
      | InLoop step =>
          assign (set_last_step step) ;;
          assign (set_vs_task None)
      | Failed saved =>
          match saved with
          | Some step => assign (set_last_step step)
          | None => ret tt
          end ;;
          raise
      end
  end.

Definition _check_mission_change : M unit :=
  m <- self ;;
  let new_mission := mission_name obs in
  if negb (same_name new_mission (current_mission_name m)) then
    stop_vs ;;
    assign (set_current_mission_name new_mission) ;;
    assign (set_waiting_state NONE) ;;
    assign (set_current_subphase_id None) ;;
    assign (set_current_subphase_index (-1)) ;;
    assign (set_subphase_list []) ;;
    assign (set_last_step 0%Q) ;;
    if truthy new_mission then assign (set_phases_data (loaded_phases obs))
    else assign (set_phases_data [])
  else ret tt.

Definition _check_should_stop_vs : M bool :=
  m <- self ;;
  match vs_task m with
  | None => ret false
  | Some _ =>
      if negb (same_phase (current_phase_id m) (last_phase_id m))
      then ret true
      else if negb (enabled_for_stop obs) then ret true
      else ret false
  end.

Definition _check_subphase_end_reached
  : M (option (string * SubphaseData)) :=
  m <- self ;;
  match current_phase_id m with
  | None => ret None
  | Some pid =>
  match assoc_phase pid (phases_data m) with
  | None => ret None
  | Some Scalar => raise
  | Some (Mapping phase_config) =>
  match current_subphase_id m with
  | None => ret None
  | Some sid =>
  match assoc sid phase_config with
  | None => ret None
  | Some subphase_data =>
  match nav_at_end obs with
  | None => ret None
  | Some nav_data =>
  match lookup "END_LAT" subphase_data, lookup "END_LON" subphase_data with
  | Some end_lat, Some end_lon =>
      if check_point calculate_distance_meters tolerances end_lat end_lon
                     (Some nav_data)
      then
        assign (set_current_subphase_index (current_subphase_index m + 1)) ;;
        m <- self ;;
        if current_subphase_index m
           <? Z.of_nat (List.length (subphase_list m))
        then
          match item (subphase_list m) (current_subphase_index m) with
          | None => raise
          | Some next_subphase_id =>
              match assoc next_subphase_id phase_config with
              | Some next_data =>
                  assign (set_current_subphase_id (Some next_subphase_id)) ;;
                  assign (set_waiting_state NONE) ;;
                  stop_vs ;;
                  ret (Some (next_subphase_id, next_data))
              | None => ret None
              end
          end
        else ret None
      else ret None
  | _, _ => raise
  end end end end end end.

Definition _handle_phase_change : M unit :=
  assign (set_current_subphase_id None) ;;
  assign (set_current_subphase_index (-1)) ;;
  assign (set_subphase_list []) ;;
  assign (set_waiting_state NONE) ;;
  assign (set_last_step 0%Q) ;;
  m <- self ;;
  let skip := assign (set_last_phase_id (current_phase_id m)) in
  match current_phase_id m with
  | None => skip
  | Some pid =>
      match assoc_phase pid (phases_data m) with
      | None => skip
      | Some phase_config =>
          if negb (enabled_for_start obs) then skip
          else
            match phase_config with
            | Scalar => skip
            | Mapping entries =>
                assign (set_subphase_list (sorted int (map fst entries))) ;;
                m <- self ;;
                if Nat.eqb (List.length (subphase_list m)) 0 then skip
                else
                  assign (set_waiting_state LINE_START) ;;
                  assign (set_last_phase_id (current_phase_id m))
            end
      end
  end.

Definition _check_start_conditions : M (option (string * SubphaseData)) :=
  match nav_at_start obs with
  | None => ret None
  | Some nav_data =>
  m <- self ;;
  match match current_phase_id m with
        | Some pid => assoc_phase pid (phases_data m)
        | None => None
        end with
  | None => assign (set_waiting_state NONE) ;; ret None
  | Some phase_config =>
      match waiting_state m with
      | LINE_START =>
          if Nat.eqb (List.length (subphase_list m)) 0 then ret None
          else
            match item (subphase_list m) 0 with
            | None => raise
            | Some first_subphase_id =>
                match phase_config with
                | Scalar => raise
                | Mapping entries =>
                    match assoc first_subphase_id entries with
                    | None => assign (set_waiting_state NONE) ;; ret None
                    | Some subphase_data =>
                        if check_line_start calculate_distance_meters
                             calculate_heading_degrees tolerances
                             subphase_data (Some nav_data)
                        then
                          assign (set_current_subphase_id
                                    (Some first_subphase_id)) ;;
                          assign (set_current_subphase_index 0) ;;
                          assign (set_waiting_state NONE) ;;
                          ret (Some (first_subphase_id, subphase_data))
                        else ret None
                    end
                end
            end
      | SUBPHASE =>
          if Z.of_nat (List.length (subphase_list m))
             <=? current_subphase_index m
          then assign (set_waiting_state NONE) ;; ret None
          else
            match item (subphase_list m) (current_subphase_index m) with
            | None => raise
            | Some next_subphase_id =>
                match phase_config with
                | Scalar => raise
                | Mapping entries =>
                    match assoc next_subphase_id entries with
                    | None => assign (set_waiting_state NONE) ;; ret None
                    | Some subphase_data =>
                        match lookup "START_LAT" subphase_data,
                              lookup "START_LON" subphase_data with
                        | Some start_lat, Some start_lon =>
                            if check_point calculate_distance_meters
                                 tolerances start_lat start_lon
                                 (Some nav_data)
                            then
                              assign (set_current_subphase_id
                                        (Some next_subphase_id)) ;;
                              assign (set_waiting_state NONE) ;;
                              ret (Some (next_subphase_id, subphase_data))
                            else ret None
                        | _, _ => raise
                        end
                    end
                end
            end
      | NONE => ret None
      end
  end
  end.

Definition _handle_no_connection
  : M (option (string * SubphaseData)) :=
  m <- self ;;
  match last_phase_id m with
  | Some _ => assign (set_last_phase_id None)
  | None => ret tt
  end ;;
  assign (set_waiting_state NONE) ;;
  ret None.

Definition is_none {A : Type} (x : option A) : bool :=
  match x with
  | None => true
  | Some _ => false
  end.

Definition waiting (w : WaitingState) : bool :=
  match w with
  | NONE => false
  | _ => true
  end.

Definition update : M (option (string * SubphaseData)) :=
  _check_mission_change ;;
  assign (set_current_phase_id (phase_id obs)) ;;
  m <- self ;;
  if is_none (current_phase_id m) then _handle_no_connection
  else
    should_stop <- _check_should_stop_vs ;;
    (if should_stop then stop_vs else ret tt) ;;
    m <- self ;;
    next_subphase <-
      (if negb (is_none (vs_task m))
          && negb (is_none (current_subphase_id m))
       then _check_subphase_end_reached
       else ret None) ;;
    match next_subphase with
    | Some next => stop_vs ;; ret (Some next)
    | None =>
        m <- self ;;
        (if negb (same_phase (current_phase_id m) (last_phase_id m))
         then _handle_phase_change else ret tt) ;;
        m <- self ;;
        if waiting (waiting_state m) then _check_start_conditions
        else ret None
    end.

(** One turn of the loop of [phase_monitor]: the manager after it and the
    task it has created, if any.  An exception anywhere in the turn is
    logged and the loop goes on. *)
Definition monitor_turn (m : PhaseManager) : PhaseManager * option Task :=
  match update m with
  | Raised m' => (m', None)
  | Done None m' => (m', None)
  | Done (Some (subphase_id, subphase_data)) m' =>
      let previous_step := last_step m' in
      let actual_start_z :=
        match nav_at_launch obs with
        | Some nav => depth nav
        | None => None
        end in
      match lookup "START_Z" subphase_data,
            lookup "END_Z" subphase_data,
            lookup "SPEED" subphase_data,
            lookup "START_LAT" subphase_data,
            lookup "START_LON" subphase_data,
            lookup "END_LAT" subphase_data,
            lookup "END_LON" subphase_data with
      | Some planned_start_z, Some end_z, Some speed,
        Some start_lat, Some start_lon, Some end_lat, Some end_lon =>
          let start_z :=
            match actual_start_z with
            | Some z => z
            | None => planned_start_z
            end in
          let distance :=
            calculate_distance_meters start_lat start_lon end_lat end_lon in
          match Main.calculate_step cfg start_z end_z speed distance with
          | None => (m', None)
          | Some current_step =>
              let task :=
                {| task_subphase := subphase_id;
                   task_data := subphase_data;
                   task_previous_step := previous_step |} in
              (set_vs_task (Some task) (set_last_step current_step m'),
               Some task)
          end
      | _, _, _, _, _, _, _ => (m', None)
      end
  end.

End Manager.

Section Monitor.

Variable int : string -> option Z.
Variable calculate_distance_meters : Q -> Q -> Q -> Q -> Q.
Variable calculate_heading_degrees : Q -> Q -> Q -> Q -> Q.
Variable tolerances : Tolerances.
Variable cfg : config.t.

(** The loop of [phase_monitor] over the observations of its turns, one
    element per turn: the manager after the last of them. *)
Fixpoint monitor_turns (turns : list Observations) (m : PhaseManager)
  : PhaseManager :=
  match turns with
  | [] => m
  | obs :: later =>
      monitor_turns later
        (fst (monitor_turn int calculate_distance_meters
                calculate_heading_degrees tolerances cfg obs m))
  end.

Definition phase_monitor (turns : list Observations) : PhaseManager :=
  monitor_turns turns initial.

End Monitor.

End phase_manager.

(** * Properties of the phase manager *)

(** Reads attributes of the manager through assignments and runs the
    sequencing of the methods, without opening the methods. *)
Ltac manager_state :=
  cbn [phase_manager.bind phase_manager.ret phase_manager.assign
       phase_manager.self phase_manager.raise
       phase_manager.current_mission_name phase_manager.phases_data
       phase_manager.last_phase_id phase_manager.current_phase_id
       phase_manager.current_subphase_id phase_manager.subphase_list
       phase_manager.current_subphase_index phase_manager.waiting_state
       phase_manager.vs_task phase_manager.last_step
       phase_manager.set_current_mission_name phase_manager.set_phases_data
       phase_manager.set_last_phase_id phase_manager.set_current_phase_id
       phase_manager.set_current_subphase_id phase_manager.set_subphase_list
       phase_manager.set_current_subphase_index
       phase_manager.set_waiting_state phase_manager.set_vs_task
       phase_manager.set_last_step phase_manager.is_none
       phase_manager.waiting negb andb fst snd] in *.

(** Case analysis on the innermost test of the goal. *)
Ltac manager_cases :=
  repeat (manager_state;
          match goal with
          | |- context [match ?x with _ => _ end] =>
              lazymatch x with
              | context [match _ with _ => _ end] => fail
              | _ => destruct x eqn:?
              end
          end).

Section ManagerProperties.

Import DesBridge LineStart phase_manager.

Variable int : string -> option Z.
Variable distance_meters heading_degrees : Q -> Q -> Q -> Q -> Q.
Variable tolerances : Tolerances.
Variable cfg : config.t.
Variable obs : Observations.

(** The mission, the phases and the position in the phase. *)
Definition same_plan (m m' : PhaseManager) : Prop :=
  current_mission_name m' = current_mission_name m
  /\ phases_data m' = phases_data m
  /\ last_phase_id m' = last_phase_id m
  /\ current_phase_id m' = current_phase_id m
  /\ current_subphase_id m' = current_subphase_id m
  /\ subphase_list m' = subphase_list m
  /\ current_subphase_index m' = current_subphase_index m
  /\ waiting_state m' = waiting_state m.

Definition same_task (m m' : PhaseManager) : Prop :=
  vs_task m' = vs_task m /\ last_step m' = last_step m.

Definition same_phase_ids (m m' : PhaseManager) : Prop :=
  last_phase_id m' = last_phase_id m
  /\ current_phase_id m' = current_phase_id m
  /\ current_mission_name m' = current_mission_name m.

(** The task that is stopped has not failed. *)
Definition stoppable : Prop :=
  forall saved, task_status obs <> Failed saved.

(** The step memory after the task registered in [m] has been stopped. *)
Definition handed_over (m m' : PhaseManager) : Prop :=
  match task_status obs with
  | Starting => last_step m' = last_step m
  | InLoop step => last_step m' = step
  | Failed _ => False
  end.

(** The task of [m] is still registered in [m'], or it has been stopped. *)
Definition kept_or_stopped (m m' : PhaseManager) : Prop :=
  vs_task m' = vs_task m \/ (vs_task m' = None /\ stoppable).

Lemma handed_over_stoppable m m' : handed_over m m' -> stoppable.
Proof.
  unfold handed_over, stoppable. intros H saved E. rewrite E in H. exact H.
Qed.

(** [stop_vs]: without a task nothing happens; a task that has not failed
    is taken off and has left its step; a failed task stays registered and
    its error is raised. *)
Lemma stop_vs_spec m :
  match stop_vs obs m with
  | Done _ m' =>
      same_plan m m' /\ vs_task m' = None
      /\ (vs_task m = None -> last_step m' = last_step m)
      /\ (vs_task m <> None -> handed_over m m')
  | Raised m' =>
      same_plan m m' /\ vs_task m' = vs_task m /\ vs_task m <> None
      /\ ~ stoppable
  end.
Proof.
  unfold stop_vs, same_plan, handed_over, stoppable.
  manager_cases; manager_state; repeat split; auto; try congruence;
    try (intros H; apply (H _ eq_refl));
    try (intros H; exfalso; apply H; reflexivity).
Qed.

(** [_check_mission_change]: with the mission unchanged nothing happens;
    otherwise the task is stopped first, and the manager is left without a
    task, not waiting and with the step memory at rest. *)
Lemma check_mission_change_spec m :
  match _check_mission_change obs m with
  | Done _ m' =>
      last_phase_id m' = last_phase_id m
      /\ current_phase_id m' = current_phase_id m
      /\ ((same_name (mission_name obs) (current_mission_name m) = true
           /\ m' = m)
          \/ (same_name (mission_name obs) (current_mission_name m) = false
              /\ vs_task m' = None /\ last_step m' = 0
              /\ waiting_state m' = NONE /\ current_subphase_id m' = None
              /\ current_mission_name m' = mission_name obs
              /\ (vs_task m <> None -> stoppable)))
  | Raised m' =>
      same_plan m m' /\ vs_task m' = vs_task m /\ vs_task m <> None
      /\ ~ stoppable
      /\ same_name (mission_name obs) (current_mission_name m) = false
  end.
Proof.
  pose proof (stop_vs_spec m) as Hstop.
  unfold _check_mission_change. manager_state.
  destruct (same_name (mission_name obs) (current_mission_name m)) eqn:E;
    manager_state.
  - repeat split. left. split; reflexivity.
  - destruct (stop_vs obs m) as [[] m1|m1]; manager_state.
    + destruct Hstop as (Hplan & Htask & _ & Hover).
      destruct Hplan as (_ & _ & Hlast & Hcur & _).
      destruct (truthy (mission_name obs)); manager_state;
        (split; [exact Hlast|]); (split; [exact Hcur|]); right;
        repeat split; auto;
        intros Hsome; exact (handed_over_stoppable _ _ (Hover Hsome)).
    + destruct Hstop as (Hplan & Htask & Hsome & Hfailed).
      split; [exact Hplan|]. split; [exact Htask|].
      split; [exact Hsome|]. split; [exact Hfailed|reflexivity].
Qed.

(** [_check_should_stop_vs] changes nothing and asks for a stop only with a
    task registered. *)
Lemma check_should_stop_vs_spec m :
  exists should_stop,
    _check_should_stop_vs obs m = Done should_stop m
    /\ (should_stop = true -> vs_task m <> None)
    /\ (should_stop = false ->
        vs_task m = None
        \/ same_phase (current_phase_id m) (last_phase_id m) = true)
    /\ (same_phase (current_phase_id m) (last_phase_id m) = false ->
        vs_task m <> None -> should_stop = true).
Proof.
  unfold _check_should_stop_vs. manager_state.
  destruct (same_phase (current_phase_id m) (last_phase_id m));
    destruct (enabled_for_stop obs); destruct (vs_task m);
    manager_state; eexists; (split; [reflexivity|]);
    repeat split; auto; try discriminate; try congruence.
Qed.

(** [_check_subphase_end_reached] hands out the next subphase only with the
    running task stopped, and otherwise leaves the task registered. *)
Lemma check_subphase_end_reached_spec m :
  match _check_subphase_end_reached distance_meters tolerances obs m with
  | Done (Some (sid, _)) m' =>
      same_phase_ids m m' /\ vs_task m' = None /\ waiting_state m' = NONE
      /\ current_subphase_id m' = Some sid
      /\ current_subphase_index m' = (current_subphase_index m + 1)%Z
      /\ (vs_task m <> None -> handed_over m m')
  | Done None m' =>
      same_phase_ids m m' /\ same_task m m'
      /\ waiting_state m' = waiting_state m
  | Raised m' =>
      same_phase_ids m m' /\ vs_task m' = vs_task m
      /\ (waiting_state m' = waiting_state m \/ waiting_state m' = NONE)
  end.
Proof.
  unfold _check_subphase_end_reached, stop_vs, same_task, same_phase_ids,
    handed_over.
  manager_cases; manager_state; repeat split; auto; try congruence;
    try (intros H; exfalso; apply H; reflexivity).
Qed.

(** A line start can be checked: the current phase has a mapping in the
    plan and the list of its subphases is not empty. *)
Definition armed (m : PhaseManager) : Prop :=
  exists pid entries,
    current_phase_id m = Some pid
    /\ assoc_phase pid (phases_data m) = Some (Mapping entries)
    /\ subphase_list m <> [].

(** [_handle_phase_change] never raises; it puts the step memory at rest
    and either arms the line start or leaves the manager not waiting. *)
Lemma handle_phase_change_spec m :
  exists m',
    _handle_phase_change int obs m = Done tt m'
    /\ vs_task m' = vs_task m /\ last_step m' = 0
    /\ last_phase_id m' = current_phase_id m
    /\ current_phase_id m' = current_phase_id m
    /\ current_mission_name m' = current_mission_name m
    /\ current_subphase_id m' = None
    /\ (waiting_state m' = NONE
        \/ (waiting_state m' = LINE_START /\ armed m')).
Proof.
  unfold _handle_phase_change, armed.
  manager_cases; manager_state; eexists; (split; [reflexivity|]);
    manager_state; repeat split; auto.
  right. split; [reflexivity|]. eexists. eexists. manager_state.
  repeat split; try eassumption.
  intros Hnil. rewrite Hnil in *. discriminate.
Qed.

(** [_check_start_conditions] touches the waiting state and the subphase
    position only; it hands out a subphase only with the waiting over, and
    at a line start that subphase is the first of the list. *)
Lemma check_start_conditions_spec m :
  match _check_start_conditions distance_meters heading_degrees tolerances
          obs m with
  | Done result m' =>
      same_task m m' /\ same_phase_ids m m'
      /\ (waiting_state m' = waiting_state m \/ waiting_state m' = NONE)
      /\ match result with
         | Some (sid, _) =>
             waiting_state m' = NONE /\ current_subphase_id m' = Some sid
             /\ (waiting_state m = LINE_START ->
                 current_subphase_index m' = 0%Z
                 /\ item (subphase_list m') 0 = Some sid)
         | None => True
         end
  | Raised m' => m' = m
  end.
Proof.
  unfold _check_start_conditions, same_task, same_phase_ids.
  manager_cases; manager_state; repeat split; auto;
    try discriminate; try congruence.
Qed.

(** An armed line start is checked without an exception. *)
Lemma check_start_conditions_armed m :
  armed m -> waiting_state m = LINE_START ->
  exists result m',
    _check_start_conditions distance_meters heading_degrees tolerances
      obs m = Done result m'.
Proof.
  intros (pid & entries & Hpid & Hconfig & Hlist) Hwait.
  unfold _check_start_conditions.
  destruct (nav_at_start obs); manager_state;
    [|eexists; eexists; reflexivity].
  rewrite Hpid, Hconfig, Hwait.
  destruct (subphase_list m) as [|first rest] eqn:El; [congruence|].
  manager_cases; manager_state; try (eexists; eexists; reflexivity).
  discriminate.
Qed.


(** While the manager waits for a line start no task is registered and the
    step memory is at rest; it never waits for a subphase start. *)
Definition at_rest (m : PhaseManager) : Prop :=
  match waiting_state m with
  | NONE => True
  | LINE_START => vs_task m = None /\ last_step m = 0
  | SUBPHASE => False
  end.

(** Steps 5 and 6 of [update]. *)
Definition start_phase : M (option (string * SubphaseData)) :=
  m <- self ;;
  (if negb (same_phase (current_phase_id m) (last_phase_id m))
   then _handle_phase_change int obs else ret tt) ;;
  m <- self ;;
  if waiting (waiting_state m)
  then _check_start_conditions distance_meters heading_degrees tolerances obs
  else ret None.

Lemma start_phase_spec m :
  at_rest m ->
  vs_task m = None
  \/ same_phase (current_phase_id m) (last_phase_id m) = true ->
  match start_phase m with
  | Done result m' =>
      at_rest m' /\ vs_task m' = vs_task m
      /\ (same_phase (current_phase_id m) (last_phase_id m) = false ->
          last_step m' = 0)
      /\ (same_phase (current_phase_id m) (last_phase_id m) = true ->
          last_step m' = last_step m)
      /\ match result with
         | Some (sid, _) =>
             vs_task m' = None /\ waiting_state m' = NONE
             /\ current_subphase_id m' = Some sid
             /\ current_subphase_index m' = 0%Z /\ last_step m' = 0
             /\ item (subphase_list m') 0 = Some sid
         | None => True
         end
  | Raised m' =>
      at_rest m' /\ vs_task m' = vs_task m
      /\ (same_phase (current_phase_id m) (last_phase_id m) = false ->
          last_step m' = 0)
  end.
Proof.
  intros Hrest Hfree. unfold start_phase. manager_state.
  assert (Hstart : forall m5,
    at_rest m5 -> vs_task m5 = vs_task m ->
    (same_phase (current_phase_id m) (last_phase_id m) = false ->
     vs_task m5 = None /\ last_step m5 = 0) ->
    (same_phase (current_phase_id m) (last_phase_id m) = true -> m5 = m) ->
    match
      (if waiting (waiting_state m5)
       then _check_start_conditions distance_meters heading_degrees
              tolerances obs
       else ret None) m5
    with
    | Done result m' =>
        at_rest m' /\ vs_task m' = vs_task m
        /\ (same_phase (current_phase_id m) (last_phase_id m) = false ->
            last_step m' = 0)
        /\ (same_phase (current_phase_id m) (last_phase_id m) = true ->
            last_step m' = last_step m)
        /\ match result with
           | Some (sid, _) =>
               vs_task m' = None /\ waiting_state m' = NONE
               /\ current_subphase_id m' = Some sid
               /\ current_subphase_index m' = 0%Z /\ last_step m' = 0
               /\ item (subphase_list m') 0 = Some sid
           | None => True
           end
    | Raised m' =>
        at_rest m' /\ vs_task m' = vs_task m
        /\ (same_phase (current_phase_id m) (last_phase_id m) = false ->
            last_step m' = 0)
    end).
  { intros m5 Hrest5 Htask5 Hchanged Hsame.
    pose proof (check_start_conditions_spec m5) as Hcheck.
    unfold at_rest in Hrest5.
    destruct (waiting_state m5) eqn:Ewait; manager_state.
    - repeat split; auto.
      + unfold at_rest. rewrite Ewait. exact I.
      + intros H. apply Hchanged. exact H.
      + intros H. rewrite (Hsame H). reflexivity.
    - destruct Hrest5 as [Hnone Hzero].
      destruct (_check_start_conditions distance_meters heading_degrees
                  tolerances obs m5) as [result m6|m6].
      + destruct Hcheck as ([Ht Hs] & _ & Hwait & Hresult).
        assert (Hrest6 : at_rest m6).
        { unfold at_rest.
          destruct Hwait as [-> | ->]; [|exact I].
          split; congruence. }
        repeat split; auto; try congruence.
        * intros H. rewrite Hs, (Hsame H). reflexivity.
        * destruct result as [[sid data]|]; [|exact I].
          destruct Hresult as (Hw & Hid & Hfirst).
          destruct (Hfirst eq_refl) as [Hindex Hitem].
          repeat split; auto; congruence.
      + subst m6. repeat split; auto.
        unfold at_rest. rewrite Ewait. split; assumption.
    - contradiction. }
  destruct (same_phase (current_phase_id m) (last_phase_id m)) eqn:Ephase;
    manager_state.
  - apply Hstart; auto; discriminate.
  - destruct Hfree as [Hnone|Hsame]; [|discriminate].
    destruct (handle_phase_change_spec m)
      as (m5 & E5 & Htask & Hstep & _ & _ & _ & _ & Hwait).
    rewrite E5. manager_state.
    apply Hstart; auto; try discriminate.
    + unfold at_rest.
      destruct Hwait as [-> | [-> _]]; [exact I|].
      split; congruence.
    + intros _. split; congruence.
Qed.

Lemma update_spec m :
  at_rest m ->
  match update int distance_meters heading_degrees tolerances obs m with
  | Done result m' =>
      at_rest m' /\ kept_or_stopped m m'
      /\ match result with
         | Some (sid, _) =>
             vs_task m' = None /\ waiting_state m' = NONE
             /\ current_subphase_id m' = Some sid
             /\ ((current_subphase_index m' = 0%Z /\ last_step m' = 0
                  /\ item (subphase_list m') 0 = Some sid)
                 \/ (vs_task m <> None
                     /\ current_subphase_index m'
                        = (current_subphase_index m + 1)%Z
                     /\ handed_over m m'))
         | None => True
         end
  | Raised m' => at_rest m' /\ kept_or_stopped m m'
  end.
Proof.
  intros Hrest. unfold update. fold start_phase. manager_state.
  pose proof (check_mission_change_spec m) as H1.
  destruct (_check_mission_change obs m) as [[] m1|m1]; manager_state.
  2: { destruct H1 as ((_ & _ & _ & _ & _ & _ & _ & Hwait) & Htask & Hsome
                       & _).
       split; [|left; exact Htask].
       unfold at_rest in *. rewrite Hwait.
       destruct (waiting_state m); auto. destruct Hrest. contradiction. }
  assert (Hm1 : at_rest m1 /\ kept_or_stopped m m1
                /\ (vs_task m1 = None \/ m1 = m)).
  { destruct H1 as (_ & _ & [[_ ->]
      | (_ & Htask & Hstep & Hwait & _ & _ & Hstoppable)]).
    - repeat split; auto. left. reflexivity.
    - split; [unfold at_rest; rewrite Hwait; exact I|].
      split; [|left; exact Htask].
      unfold kept_or_stopped. destruct (vs_task m) eqn:E.
      + right. split; [exact Htask|]. apply Hstoppable. discriminate.
      + left. exact Htask. }
  clear H1. destruct Hm1 as (Hrest1 & Hkept1 & Hsame1).
  destruct (phase_id obs) as [pid|]; manager_state.
  2: { unfold _handle_no_connection. manager_state.
       destruct (last_phase_id m1); manager_state;
         (split; [exact I|]); (split; [exact Hkept1|exact I]). }
  set (m2 := set_current_phase_id (Some pid) m1).
  assert (Hrest2 : at_rest m2) by exact Hrest1.
  assert (Htask2 : vs_task m2 = vs_task m1) by reflexivity.
  assert (Hstep2 : last_step m2 = last_step m1) by reflexivity.
  assert (Hindex2 : current_subphase_index m2 = current_subphase_index m1)
    by reflexivity.
  clearbody m2.
  destruct (check_should_stop_vs_spec m2)
    as (should_stop & E & Hstop & Hkeep & _).
  rewrite E. manager_state. clear E.
  assert (Hwait2 : vs_task m2 <> None -> waiting_state m2 = NONE).
  { intros Hsome. unfold at_rest in Hrest2.
    destruct (waiting_state m2); [reflexivity| |contradiction].
    destruct Hrest2. contradiction. }
  assert (Hfinish : forall m4,
    at_rest m4 -> kept_or_stopped m m4 ->
    vs_task m4 = None
    \/ same_phase (current_phase_id m4) (last_phase_id m4) = true ->
    match start_phase m4 with
    | Done result m' =>
        at_rest m' /\ kept_or_stopped m m'
        /\ match result with
           | Some (sid, _) =>
               vs_task m' = None /\ waiting_state m' = NONE
               /\ current_subphase_id m' = Some sid
               /\ ((current_subphase_index m' = 0%Z /\ last_step m' = 0
                    /\ item (subphase_list m') 0 = Some sid)
                   \/ (vs_task m <> None
                       /\ current_subphase_index m'
                          = (current_subphase_index m + 1)%Z
                       /\ handed_over m m'))
           | None => True
           end
    | Raised m' => at_rest m' /\ kept_or_stopped m m'
    end).
  { intros m4 Hrest4 Hkept4 Hfree4.
    pose proof (start_phase_spec m4 Hrest4 Hfree4) as Hs.
    assert (Hkept : forall m', vs_task m' = vs_task m4 ->
                               kept_or_stopped m m').
    { intros m' Ht. unfold kept_or_stopped in *. rewrite Ht.
      exact Hkept4. }
    destruct (start_phase m4) as [result m'|m'].
    - destruct Hs as (Hr & Ht & _ & _ & Hresult).
      split; [exact Hr|]. split; [exact (Hkept _ Ht)|].
      destruct result as [[sid data]|]; [|exact I].
      destruct Hresult as (? & ? & ? & ? & ? & ?).
      repeat split; auto.
    - destruct Hs as (Hr & Ht & _).
      split; [exact Hr|exact (Hkept _ Ht)]. }
  destruct should_stop; manager_state.
  - (* the task is stopped: phase changed or disabled *)
    specialize (Hstop eq_refl). specialize (Hwait2 Hstop).
    pose proof (stop_vs_spec m2) as H3.
    destruct (stop_vs obs m2) as [[] m3|m3].
    + destruct H3 as ((_ & _ & _ & _ & _ & _ & _ & Hwait3) & Hnone3 & _
                      & Hover).
      rewrite Hnone3. manager_state.
      apply Hfinish.
      * unfold at_rest. rewrite Hwait3, Hwait2. exact I.
      * right. split; [exact Hnone3|].
        exact (handed_over_stoppable _ _ (Hover Hstop)).
      * left. exact Hnone3.
    + destruct H3 as ((_ & _ & _ & _ & _ & _ & _ & Hwait3) & Htask3 & _).
      split.
      * unfold at_rest. rewrite Hwait3, Hwait2. exact I.
      * destruct Hkept1 as [Hk|[Hk _]]; [left; congruence|].
        exfalso. apply Hstop. congruence.
  - (* the task, if any, goes on *)
    specialize (Hkeep eq_refl).
    assert (Hkept2 : kept_or_stopped m m2).
    { unfold kept_or_stopped in *. rewrite Htask2. exact Hkept1. }
    destruct (vs_task m2) as [task|] eqn:Etask; manager_state;
      [|apply Hfinish; auto].
    destruct Hkeep as [Hkeep|Hphase]; [discriminate|].
    destruct (current_subphase_id m2) as [sid|] eqn:Esub; manager_state;
      [|apply Hfinish; auto].
    destruct Hsame1 as [Hnone1|Hm1]; [congruence|]. subst m1.
    specialize (Hwait2 ltac:(discriminate)).
    pose proof (check_subphase_end_reached_spec m2) as H4.
    destruct (_check_subphase_end_reached distance_meters tolerances obs m2)
      as [[[next data]|] m4|m4]; manager_state.
    + (* END reached: the next subphase is handed out *)
      destruct H4 as (_ & Hnone4 & Hwait4 & Hsub4 & Hindex4 & Hover4).
      specialize (Hover4 ltac:(rewrite Etask; discriminate)).
      pose proof (stop_vs_spec m4) as H5.
      destruct (stop_vs obs m4) as [[] m5|m5];
        [|destruct H5 as (_ & _ & Hsome & _); contradiction].
      destruct H5 as ((_ & _ & _ & _ & Hsub5 & _ & Hindex5 & Hwait5)
                      & Hnone5 & Hstep5 & _).
      specialize (Hstep5 Hnone4).
      split; [unfold at_rest; rewrite Hwait5, Hwait4; exact I|].
      split; [right; split;
              [exact Hnone5|exact (handed_over_stoppable _ _ Hover4)]|].
      repeat split; try congruence.
      right. repeat split.
      * rewrite <- Htask2. discriminate.
      * congruence.
      * unfold handed_over in *.
        destruct (task_status obs); congruence.
    + destruct H4 as ((Hlast4 & Hcur4 & _) & [Htask4 Hstep4] & Hwait4).
      apply Hfinish.
      * unfold at_rest. rewrite Hwait4, Hwait2. exact I.
      * left. congruence.
      * right. rewrite Hlast4, Hcur4. exact Hphase.
    + destruct H4 as (_ & Htask4 & Hwait4).
      split.
      * unfold at_rest.
        destruct Hwait4 as [-> | ->]; [rewrite Hwait2|]; exact I.
      * left. congruence.
Qed.

(** One turn of the loop, by the outcome of [update]. *)
Lemma monitor_turn_cases m :
  match update int distance_meters heading_degrees tolerances obs m with
  | Done (Some (sid, data)) m' =>
      monitor_turn int distance_meters heading_degrees tolerances cfg obs m
      = (m', None)
      \/ exists step,
           monitor_turn int distance_meters heading_degrees tolerances cfg
             obs m
           = (set_vs_task
                (Some {| task_subphase := sid; task_data := data;
                         task_previous_step := last_step m' |})
                (set_last_step step m'),
              Some {| task_subphase := sid; task_data := data;
                      task_previous_step := last_step m' |})
  | Done None m' | Raised m' =>
      monitor_turn int distance_meters heading_degrees tolerances cfg obs m
      = (m', None)
  end.
Proof.
  unfold monitor_turn.
  destruct (update int distance_meters heading_degrees tolerances obs m)
    as [[[sid data]|] m'|m']; try reflexivity.
  repeat match goal with
         | |- context [match ?x with _ => _ end] =>
             lazymatch x with
             | context [match _ with _ => _ end] => fail
             | _ => destruct x
             end
         end;
    try (left; reflexivity); right; eexists; reflexivity.
Qed.

(** A turn keeps the manager at rest while it waits. *)
Lemma monitor_turn_rest m :
  at_rest m ->
  at_rest (fst (monitor_turn int distance_meters heading_degrees tolerances
                  cfg obs m)).
Proof.
  intros Hrest.
  pose proof (update_spec m Hrest) as Hupdate.
  pose proof (monitor_turn_cases m) as Hturn.
  destruct (update int distance_meters heading_degrees tolerances obs m)
    as [[[sid data]|] m'|m'].
  - destruct Hupdate as (Hrest' & _ & _ & Hwait & _).
    destruct Hturn as [-> | [step ->]]; [exact Hrest'|].
    unfold at_rest. manager_state. rewrite Hwait. exact I.
  - rewrite Hturn. apply Hupdate.
  - rewrite Hturn. apply Hupdate.
Qed.

(** A turn that creates a task: what [update] has returned and left. *)
Lemma monitor_turn_launch m m2 task :
  at_rest m ->
  monitor_turn int distance_meters heading_degrees tolerances cfg obs m
  = (m2, Some task) ->
  exists m',
    update int distance_meters heading_degrees tolerances obs m
    = Done (Some (task_subphase task, task_data task)) m'
    /\ vs_task m' = None /\ kept_or_stopped m m'
    /\ task_previous_step task = last_step m'
    /\ vs_task m2 = Some task
    /\ current_subphase_id m2 = Some (task_subphase task)
    /\ current_subphase_index m2 = current_subphase_index m'
    /\ ((current_subphase_index m' = 0%Z /\ last_step m' = 0
         /\ item (subphase_list m') 0 = Some (task_subphase task))
        \/ (vs_task m <> None
            /\ current_subphase_index m'
               = (current_subphase_index m + 1)%Z
            /\ handed_over m m')).
Proof.
  intros Hrest Hlaunch.
  pose proof (update_spec m Hrest) as Hupdate.
  pose proof (monitor_turn_cases m) as Hturn.
  destruct (update int distance_meters heading_degrees tolerances obs m)
    as [[[sid data]|] m'|m']; try congruence.
  destruct Hturn as [Hturn | [step Hturn]]; [congruence|].
  rewrite Hturn in Hlaunch.
  injection Hlaunch as <- <-. manager_state.
  destruct Hupdate as (_ & Hkept & Hnone & _ & Hsub & Hcases).
  exists m'. repeat split; auto.
Qed.

(** A failed task stays registered and no task is created beside it. *)
Lemma failed_task_turn m :
  at_rest m -> vs_task m <> None -> ~ stoppable ->
  monitor_turn int distance_meters heading_degrees tolerances cfg obs m
  = (fst (monitor_turn int distance_meters heading_degrees tolerances cfg
            obs m), None)
  /\ vs_task (fst (monitor_turn int distance_meters heading_degrees
                     tolerances cfg obs m)) = vs_task m.
Proof.
  intros Hrest Hsome Hfailed.
  pose proof (update_spec m Hrest) as Hupdate.
  pose proof (monitor_turn_cases m) as Hturn.
  assert (Hkept : forall m', kept_or_stopped m m' -> vs_task m' = vs_task m).
  { intros m' [H|[_ H]]; [exact H|contradiction]. }
  destruct (update int distance_meters heading_degrees tolerances obs m)
    as [[[sid data]|] m'|m'].
  - destruct Hupdate as (_ & Hk & Hnone & _).
    apply Hkept in Hk. congruence.
  - rewrite Hturn. split; [reflexivity|]. apply Hkept, Hupdate.
  - rewrite Hturn. split; [reflexivity|]. apply Hkept, Hupdate.
Qed.

(** A poll without a phase id: the task is left alone and the last phase
    is forgotten. *)
Lemma no_connection_turn m :
  same_name (mission_name obs) (current_mission_name m) = true ->
  phase_id obs = None ->
  exists m',
    monitor_turn int distance_meters heading_degrees tolerances cfg obs m
    = (m', None)
    /\ vs_task m' = vs_task m /\ last_step m' = last_step m
    /\ last_phase_id m' = None /\ waiting_state m' = NONE
    /\ current_mission_name m' = current_mission_name m.
Proof.
  intros Hname Hphase.
  pose proof (monitor_turn_cases m) as Hturn.
  revert Hturn. unfold update. manager_state.
  pose proof (check_mission_change_spec m) as H1.
  destruct (_check_mission_change obs m) as [[] m1|m1].
  2: { destruct H1 as (_ & _ & _ & _ & Hother). congruence. }
  destruct H1 as (_ & _ & [[_ ->] | [Hchanged _]]); [|congruence].
  manager_state. rewrite Hphase. manager_state.
  unfold _handle_no_connection. manager_state.
  destruct (last_phase_id m) eqn:Elast; manager_state; intros ->;
    eexists; (split; [reflexivity|]); manager_state; repeat split; auto.
Qed.

(** A poll with another phase id than the last one: the task is stopped
    and the step memory is put at rest; what starts is a first subphase. *)
Lemma phase_change_turn m pid :
  at_rest m ->
  same_name (mission_name obs) (current_mission_name m) = true ->
  phase_id obs = Some pid ->
  same_phase (Some pid) (last_phase_id m) = false ->
  (vs_task m <> None -> stoppable) ->
  match update int distance_meters heading_degrees tolerances obs m with
  | Done result m' =>
      vs_task m' = None /\ last_step m' = 0
      /\ match result with
         | Some (sid, _) =>
             current_subphase_index m' = 0%Z
             /\ item (subphase_list m') 0 = Some sid
         | None => True
         end
  | Raised m' => vs_task m' = None /\ last_step m' = 0
  end.
Proof.
  intros Hrest Hname Hphase Hchanged Hstoppable.
  unfold update. fold start_phase. manager_state.
  pose proof (check_mission_change_spec m) as H1.
  destruct (_check_mission_change obs m) as [[] m1|m1].
  2: { destruct H1 as (_ & _ & Hsome & Hfailed & _).
       exfalso. apply Hfailed, Hstoppable, Hsome. }
  destruct H1 as (_ & _ & [[_ ->] | [Hother _]]); [|congruence].
  manager_state. rewrite Hphase. manager_state.
  set (m2 := set_current_phase_id (Some pid) m).
  assert (Hrest2 : at_rest m2) by exact Hrest.
  assert (Htask2 : vs_task m2 = vs_task m) by reflexivity.
  assert (Hphase2 : same_phase (current_phase_id m2) (last_phase_id m2)
                    = false) by exact Hchanged.
  clearbody m2.
  assert (Hstart : forall m3,
    at_rest m3 -> vs_task m3 = None ->
    same_phase (current_phase_id m3) (last_phase_id m3) = false ->
    match start_phase m3 with
    | Done result m' =>
        vs_task m' = None /\ last_step m' = 0
        /\ match result with
           | Some (sid, _) =>
               current_subphase_index m' = 0%Z
               /\ item (subphase_list m') 0 = Some sid
           | None => True
           end
    | Raised m' => vs_task m' = None /\ last_step m' = 0
    end).
  { intros m3 Hrest3 Hnone3 Hphase3.
    pose proof (start_phase_spec m3 Hrest3 (or_introl Hnone3)) as Hs.
    destruct (start_phase m3) as [result m'|m'].
    - destruct Hs as (_ & Ht & Hzero & _ & Hresult).
      split; [congruence|]. split; [exact (Hzero Hphase3)|].
      destruct result as [[sid data]|]; [|exact I].
      destruct Hresult as (_ & _ & _ & ? & _ & ?). split; assumption.
    - destruct Hs as (_ & Ht & Hzero).
      split; [congruence|exact (Hzero Hphase3)]. }
  destruct (check_should_stop_vs_spec m2)
    as (should_stop & E & Hstop & _ & Hmust).
  rewrite E. manager_state. clear E.
  destruct should_stop; manager_state.
  - specialize (Hstop eq_refl).
    pose proof (stop_vs_spec m2) as H3.
    destruct (stop_vs obs m2) as [[] m3|m3].
    + destruct H3 as ((_ & _ & Hlast3 & Hcur3 & _ & _ & _ & Hwait3)
                      & Hnone3 & _).
      rewrite Hnone3. manager_state. apply Hstart.
      * unfold at_rest in *. rewrite Hwait3, Hnone3.
        destruct (waiting_state m2); auto.
        destruct Hrest2. contradiction.
      * exact Hnone3.
      * rewrite Hlast3, Hcur3. exact Hphase2.
    + destruct H3 as (_ & _ & _ & Hfailed).
      exfalso. apply Hfailed, Hstoppable. congruence.
  - destruct (vs_task m2) eqn:Etask.
    + specialize (Hmust Hphase2 ltac:(discriminate)). discriminate.
    + manager_state. apply Hstart; assumption.
Qed.

(** A new mission under the phase id of the last poll: the task is stopped
    and nothing is armed. *)
Lemma mission_change_turn m pid :
  same_name (mission_name obs) (current_mission_name m) = false ->
  last_phase_id m = Some pid -> phase_id obs = Some pid ->
  (vs_task m <> None -> stoppable) ->
  exists m',
    monitor_turn int distance_meters heading_degrees tolerances cfg obs m
    = (m', None)
    /\ vs_task m' = None /\ waiting_state m' = NONE
    /\ last_phase_id m' = Some pid
    /\ current_mission_name m' = mission_name obs.
Proof.
  intros Hname Hlast Hphase Hstoppable.
  pose proof (monitor_turn_cases m) as Hturn.
  revert Hturn. unfold update. manager_state.
  pose proof (check_mission_change_spec m) as H1.
  destruct (_check_mission_change obs m) as [[] m1|m1].
  2: { destruct H1 as (_ & _ & Hsome & Hfailed & _).
       exfalso. apply Hfailed, Hstoppable, Hsome. }
  destruct H1 as (Hlast1 & _ & [[Hsame _]
    | (_ & Hnone1 & _ & Hwait1 & _ & Hname1 & _)]); [congruence|].
  manager_state. rewrite Hphase. manager_state.
  unfold _check_should_stop_vs. manager_state.
  repeat (rewrite Hnone1; manager_state).
  rewrite Hlast1, Hlast. cbn [same_phase]. rewrite Z.eqb_refl.
  manager_state. rewrite Hwait1. manager_state.
  intros ->. eexists. split; [reflexivity|]. manager_state.
  repeat split; auto. congruence.
Qed.

(** A turn without a task, not waiting, under the mission and the phase id
    of the last poll changes nothing. *)
Lemma idle_turn m pid :
  vs_task m = None -> waiting_state m = NONE ->
  same_name (mission_name obs) (current_mission_name m) = true ->
  last_phase_id m = Some pid -> phase_id obs = Some pid ->
  monitor_turn int distance_meters heading_degrees tolerances cfg obs m
  = (set_current_phase_id (Some pid) m, None).
Proof.
  intros Hnone Hwait Hname Hlast Hphase.
  pose proof (monitor_turn_cases m) as Hturn.
  revert Hturn. unfold update. manager_state.
  pose proof (check_mission_change_spec m) as H1.
  destruct (_check_mission_change obs m) as [[] m1|m1].
  2: { destruct H1 as (_ & _ & Hsome & _). contradiction. }
  destruct H1 as (_ & _ & [[_ ->] | [Hother _]]); [|congruence].
  manager_state. rewrite Hphase. manager_state.
  unfold _check_should_stop_vs. manager_state.
  repeat (rewrite Hnone; manager_state).
  rewrite Hlast. cbn [same_phase]. rewrite Z.eqb_refl.
  manager_state. rewrite Hwait. manager_state.
  intros ->. reflexivity.
Qed.

End ManagerProperties.

Section ManagerRuns.

Import DesBridge LineStart phase_manager.

Variable int : string -> option Z.
Variable distance_meters heading_degrees : Q -> Q -> Q -> Q -> Q.
Variable tolerances : Tolerances.
Variable cfg : config.t.

Lemma same_name_refl name : same_name name name = true.
Proof.
  destruct name as [s|]; [apply String.eqb_refl|reflexivity].
Qed.

Lemma monitor_turns_app before after m :
  monitor_turns int distance_meters heading_degrees tolerances cfg
    (before ++ after) m
  = monitor_turns int distance_meters heading_degrees tolerances cfg after
      (monitor_turns int distance_meters heading_degrees tolerances cfg
         before m).
Proof.
  revert m. induction before as [|obs before IH]; intros m;
    [reflexivity|].
  cbn [app monitor_turns]. apply IH.
Qed.

Lemma monitor_turns_rest turns m :
  at_rest m ->
  at_rest (monitor_turns int distance_meters heading_degrees tolerances cfg
             turns m).
Proof.
  revert m. induction turns as [|obs turns IH]; intros m Hrest;
    [exact Hrest|].
  cbn [monitor_turns]. apply IH, monitor_turn_rest, Hrest.
Qed.

Lemma phase_monitor_rest turns :
  at_rest (phase_monitor int distance_meters heading_degrees tolerances cfg
             turns).
Proof.
  apply monitor_turns_rest. exact I.
Qed.

(** With a failed task registered, turn after turn. *)
Lemma failed_task_turns failures m :
  at_rest m -> vs_task m <> None ->
  Forall (fun obs => exists saved, task_status obs = Failed saved)
    failures ->
  vs_task (monitor_turns int distance_meters heading_degrees tolerances cfg
             failures m) = vs_task m.
Proof.
  revert m. induction failures as [|obs failures IH];
    intros m Hrest Hsome Hfailed; [reflexivity|].
  apply Forall_cons_iff in Hfailed. destruct Hfailed as [[saved E] Hlater].
  destruct (failed_task_turn int distance_meters heading_degrees tolerances
              cfg obs m Hrest Hsome) as [_ Hkept].
  { intros H. exact (H saved E). }
  cbn [monitor_turns]. rewrite IH; auto.
  - apply monitor_turn_rest, Hrest.
  - rewrite Hkept. exact Hsome.
Qed.

(** Without a task, not waiting, under one mission and one phase id. *)
Definition idle (name : option string) (pid : Z) (m : PhaseManager)
  : Prop :=
  vs_task m = None /\ waiting_state m = NONE
  /\ last_phase_id m = Some pid /\ current_mission_name m = name.

Lemma idle_turns name pid later m :
  idle name pid m ->
  Forall (fun obs => mission_name obs = name /\ phase_id obs = Some pid)
    later ->
  idle name pid
    (monitor_turns int distance_meters heading_degrees tolerances cfg
       later m).
Proof.
  revert m. induction later as [|obs later IH]; intros m Hidle Hsame;
    [exact Hidle|].
  apply Forall_cons_iff in Hsame. destruct Hsame as [[Hname Hphase] Hlater].
  destruct Hidle as (Hnone & Hwait & Hlast & Hmission).
  cbn [monitor_turns].
  rewrite (idle_turn int distance_meters heading_degrees tolerances cfg
             obs m pid); auto.
  - apply IH; [|exact Hlater]. repeat split; assumption.
  - rewrite Hname, Hmission. apply same_name_refl.
Qed.

(** X22: the manager never waits for the start of a subphase: whatever the
    turns of the monitor have observed since the start of the process,
    [waiting_state] is not SUBPHASE, so the coordinate check of
    [_check_start_conditions] is never run. *)
Theorem never_waits_for_subphase turns :
  waiting_state
    (phase_monitor int distance_meters heading_degrees tolerances cfg turns)
  <> SUBPHASE.
Proof.
  pose proof (phase_monitor_rest turns) as Hrest.
  unfold at_rest in Hrest. intros E. rewrite E in Hrest. exact Hrest.
Qed.

(** X23: one task at a time: a turn of the monitor creates a task only
    when [update] has handed out a subphase and left no task registered; a
    task that was registered before the turn has been cancelled and
    awaited, without an error, in this turn. *)
Theorem one_task_at_a_time turns obs m' task :
  monitor_turn int distance_meters heading_degrees tolerances cfg obs
    (phase_monitor int distance_meters heading_degrees tolerances cfg turns)
  = (m', Some task) ->
  (exists m'',
     update int distance_meters heading_degrees tolerances obs
       (phase_monitor int distance_meters heading_degrees tolerances cfg
          turns)
     = Done (Some (task_subphase task, task_data task)) m''
     /\ vs_task m'' = None)
  /\ (vs_task (phase_monitor int distance_meters heading_degrees tolerances
                 cfg turns) <> None ->
      forall saved, task_status obs <> Failed saved)
  /\ vs_task m' = Some task.
Proof.
  intros Hlaunch.
  destruct (monitor_turn_launch int distance_meters heading_degrees
              tolerances cfg obs _ _ _ (phase_monitor_rest turns) Hlaunch)
    as (m'' & Hupdate & Hnone & Hkept & _ & Htask & _).
  split; [exists m''; split; assumption|]. split; [|exact Htask].
  intros Hsome. destruct Hkept as [Hsame|[_ Hstoppable]].
  - congruence.
  - exact Hstoppable.
Qed.

(** X24: the step a new controller starts from: the task of the first
    subphase of a phase is created with previous_step 0; the task of a
    following subphase is created with the step that the controller it
    replaces has left (or, if that task was cancelled before it had a
    controller, with the step stored when it was created). *)
Theorem step_memory_at_launch turns obs m' task :
  monitor_turn int distance_meters heading_degrees tolerances cfg obs
    (phase_monitor int distance_meters heading_degrees tolerances cfg turns)
  = (m', Some task) ->
  (current_subphase_index m' = 0%Z /\ task_previous_step task = 0)
  \/ (vs_task (phase_monitor int distance_meters heading_degrees tolerances
                 cfg turns) <> None
      /\ current_subphase_index m'
         = (current_subphase_index
              (phase_monitor int distance_meters heading_degrees tolerances
                 cfg turns) + 1)%Z
      /\ match task_status obs with
         | Starting =>
             task_previous_step task
             = last_step (phase_monitor int distance_meters heading_degrees
                            tolerances cfg turns)
         | InLoop step => task_previous_step task = step
         | Failed _ => False
         end).
Proof.
  intros Hlaunch.
  destruct (monitor_turn_launch int distance_meters heading_degrees
              tolerances cfg obs _ _ _ (phase_monitor_rest turns) Hlaunch)
    as (m'' & _ & _ & _ & Hprevious & _ & _ & Hindex
        & [(Hfirst & Hzero & _) | (Hsome & Hnext & Hover)]).
  - left. split; congruence.
  - right. split; [exact Hsome|]. split; [congruence|].
    unfold handed_over in Hover. rewrite Hprevious.
    destruct (task_status obs); exact Hover.
Qed.

(** X25: a task that has ended with an error is never replaced: as long
    as the awaited task raises its error, it stays registered and no turn
    creates a task. *)
Theorem failed_task_is_never_replaced turns failures :
  vs_task (phase_monitor int distance_meters heading_degrees tolerances cfg
             turns) <> None ->
  Forall (fun obs => exists saved, task_status obs = Failed saved)
    failures ->
  vs_task (phase_monitor int distance_meters heading_degrees tolerances cfg
             (turns ++ failures))
  = vs_task (phase_monitor int distance_meters heading_degrees tolerances
               cfg turns)
  /\ forall before obs after,
       failures = before ++ obs :: after ->
       snd (monitor_turn int distance_meters heading_degrees tolerances cfg
              obs
              (phase_monitor int distance_meters heading_degrees tolerances
                 cfg (turns ++ before)))
       = None.
Proof.
  intros Hsome Hfailed. unfold phase_monitor. split.
  - rewrite monitor_turns_app.
    apply failed_task_turns; auto. apply phase_monitor_rest.
  - intros before obs after ->.
    apply Forall_app in Hfailed. destruct Hfailed as [Hbefore Hrest].
    apply Forall_cons_iff in Hrest. destruct Hrest as [[saved E] _].
    rewrite monitor_turns_app.
    destruct (failed_task_turn int distance_meters heading_degrees
                tolerances cfg obs
                (monitor_turns int distance_meters heading_degrees
                   tolerances cfg before
                   (monitor_turns int distance_meters heading_degrees
                      tolerances cfg turns initial))) as [Hturn _].
    + apply monitor_turns_rest, phase_monitor_rest.
    + rewrite failed_task_turns; auto. apply phase_monitor_rest.
    + intros H. exact (H saved E).
    + rewrite Hturn. reflexivity.
Qed.

(** X26: a poll without a phase id restarts the phase: the turn that gets
    no phase id leaves the task and the step memory alone, and the next
    turn that gets one, even the id of before, stops the task and starts
    over: if it creates a task, that task is the one of a first subphase
    and starts from previous_step 0. *)
Theorem missing_phase_id_restarts_phase turns lost back pid :
  same_name (mission_name lost)
    (current_mission_name
       (phase_monitor int distance_meters heading_degrees tolerances cfg
          turns)) = true ->
  same_name (mission_name back)
    (current_mission_name
       (phase_monitor int distance_meters heading_degrees tolerances cfg
          turns)) = true ->
  phase_id lost = None -> phase_id back = Some pid ->
  (forall saved, task_status back <> Failed saved) ->
  let m :=
    phase_monitor int distance_meters heading_degrees tolerances cfg turns in
  let first :=
    monitor_turn int distance_meters heading_degrees tolerances cfg lost m in
  let second :=
    monitor_turn int distance_meters heading_degrees tolerances cfg back
      (fst first) in
  snd first = None
  /\ vs_task (fst first) = vs_task m /\ last_step (fst first) = last_step m
  /\ match snd second with
     | Some task =>
         task_previous_step task = 0
         /\ current_subphase_index (fst second) = 0%Z
     | None => vs_task (fst second) = None
     end.
Proof.
  intros Hlost Hback Hnone Hsome Hstoppable m first second.
  destruct (no_connection_turn int distance_meters heading_degrees
              tolerances cfg lost m Hlost Hnone)
    as (m1 & Hturn & Htask1 & Hstep1 & Hlast1 & Hwait1 & Hname1).
  subst second first. rewrite Hturn. cbn [fst snd].
  split; [reflexivity|]. split; [exact Htask1|]. split; [exact Hstep1|].
  assert (Hrest1 : at_rest m1).
  { unfold at_rest. rewrite Hwait1. exact I. }
  pose proof (phase_change_turn int distance_meters heading_degrees
                tolerances back m1 pid Hrest1) as Hchange.
  rewrite Hname1, Hlast1 in Hchange.
  specialize (Hchange Hback Hsome eq_refl (fun _ => Hstoppable)).
  pose proof (monitor_turn_cases int distance_meters heading_degrees
                tolerances cfg back m1) as Hcases.
  destruct (update int distance_meters heading_degrees tolerances back m1)
    as [[[sid data]|] m2|m2].
  - destruct Hchange as (Hnone2 & Hzero & Hindex & _).
    destruct Hcases as [-> | [step ->]]; cbn [fst snd]; [exact Hnone2|].
    split; [exact Hzero|exact Hindex].
  - rewrite Hcases. apply Hchange.
  - rewrite Hcases. apply Hchange.
Qed.

(** X27: a new mission under the phase id of the last poll starts nothing:
    the turn that sees the new mission name stops the task, and as long as
    the polls give that mission and that phase id no task is created and
    the manager waits for nothing. *)
Theorem new_mission_same_phase_stays_idle m obs pid later :
  same_name (mission_name obs) (current_mission_name m) = false ->
  last_phase_id m = Some pid -> phase_id obs = Some pid ->
  (vs_task m <> None -> forall saved, task_status obs <> Failed saved) ->
  Forall (fun o => mission_name o = mission_name obs
                   /\ phase_id o = Some pid) later ->
  (forall before o after,
     obs :: later = before ++ o :: after ->
     snd (monitor_turn int distance_meters heading_degrees tolerances cfg o
            (monitor_turns int distance_meters heading_degrees tolerances
               cfg before m)) = None)
  /\ vs_task (monitor_turns int distance_meters heading_degrees tolerances
                cfg (obs :: later) m) = None
  /\ waiting_state (monitor_turns int distance_meters heading_degrees
                      tolerances cfg (obs :: later) m) = NONE.
Proof.
  intros Hname Hlast Hphase Hstoppable Hlater.
  destruct (mission_change_turn int distance_meters heading_degrees
              tolerances cfg obs m pid Hname Hlast Hphase Hstoppable)
    as (m1 & Hturn & Hnone1 & Hwait1 & Hlast1 & Hname1).
  assert (Hidle : idle (mission_name obs) pid m1)
    by (repeat split; assumption).
  split.
  - intros [|first before] o after Hsplit.
    + injection Hsplit as <- _. cbn [monitor_turns]. rewrite Hturn.
      reflexivity.
    + injection Hsplit as <- ->. cbn [monitor_turns]. rewrite Hturn.
      cbn [fst].
      apply Forall_app in Hlater. destruct Hlater as [Hbefore Hrest].
      apply Forall_cons_iff in Hrest. destruct Hrest as [[Hn Hp] _].
      destruct (idle_turns _ _ _ _ Hidle Hbefore)
        as (Hnone & Hwait & Hlast' & Hmission).
      rewrite (idle_turn int distance_meters heading_degrees tolerances cfg
                 o _ pid); auto.
      rewrite Hn, Hmission. apply same_name_refl.
  - cbn [monitor_turns]. rewrite Hturn. cbn [fst].
    destruct (idle_turns _ _ _ _ Hidle Hlater) as (Hnone & Hwait & _).
    split; assumption.
Qed.

End ManagerRuns.

Section ManagerInstances.

Import DesBridge LineStart phase_manager.

(** A stand-in for the builtin [int] on strings of decimal digits. *)
Fixpoint digits (s : string) (value : Z) : option Z :=
  match s with
  | EmptyString => Some value
  | String ch rest =>
      match digit_value ch with
      | Some d => digits rest (10 * value + d)%Z
      | None => None
      end
  end.

Definition decimal_int (s : string) : option Z :=
  match s with
  | EmptyString => None
  | _ => digits s 0
  end.

(** A phase of two legs, listed out of order in the file. *)
Definition second_leg : SubphaseData :=
  [("START_LAT"%string, 49); ("START_LON"%string, -4);
   ("START_Z"%string, 20); ("END_LAT"%string, 50);
   ("END_LON"%string, -4); ("END_Z"%string, 30);
   ("SPEED"%string, 1)].

Definition plan : list (Z * PhaseConfig) :=
  [(3%Z, Mapping [("1-2"%string, second_leg); ("1-1"%string, leg)])].

(** The vehicle at the start of the first leg, phase 3 of the mission
    enabled; a running controller would leave the step [step]. *)
Definition on_station (mission : string) (status : TaskStatus)
  : Observations :=
  {| mission_name := Some mission; loaded_phases := plan;
     phase_id := Some 3%Z; enabled_for_stop := true;
     nav_at_end := frame_of at_start; enabled_for_start := true;
     nav_at_start := frame_of at_start; task_status := status;
     nav_at_launch := frame_of at_start |}.

(** The vehicle at the end of the first leg. *)
Definition at_end : string :=
  "$NAVIGATION,49.0,-4.0,0.3,19.5,7.25,19.75,0.1,0.2,0.0"%string.

Definition leg_done (mission : string) (status : TaskStatus)
  : Observations :=
  {| mission_name := Some mission; loaded_phases := plan;
     phase_id := Some 3%Z; enabled_for_stop := true;
     nav_at_end := frame_of at_end; enabled_for_start := true;
     nav_at_start := frame_of at_end; task_status := status;
     nav_at_launch := frame_of at_end |}.

(** The same poll without a phase id. *)
Definition no_phase (mission : string) : Observations :=
  {| mission_name := Some mission; loaded_phases := plan;
     phase_id := None; enabled_for_stop := true;
     nav_at_end := frame_of at_start; enabled_for_start := true;
     nav_at_start := frame_of at_start; task_status := InLoop (1 # 5);
     nav_at_launch := frame_of at_start |}.

Definition first_task : Task :=
  {| task_subphase := "1-1"; task_data := leg; task_previous_step := 0 |}.

Definition turn (obs : Observations) (m : PhaseManager)
  : PhaseManager * option Task :=
  monitor_turn decimal_int flat_distance north loose (Scenarios.cfg 3) obs m.

Definition monitor (turns : list Observations) : PhaseManager :=
  phase_monitor decimal_int flat_distance north loose (Scenarios.cfg 3) turns.

(** The first turn on station creates the task of leg 1-1. *)
Example first_turn_launches :
  snd (turn (on_station "survey" Starting) initial) = Some first_task.
Proof. vm_compute. reflexivity. Qed.

(** The turn at the end of leg 1-1 replaces its task by the one of leg
    1-2, which starts from the step the controller has left. *)
Example second_leg_inherits_step :
  snd (turn (leg_done "survey" (InLoop (1 # 5)))
         (monitor [on_station "survey" Starting]))
  = Some {| task_subphase := "1-2"; task_data := second_leg;
            task_previous_step := 1 # 5 |}.
Proof. vm_compute. reflexivity. Qed.

(** X23 on the first turn: [update] hands out leg 1-1 with no task
    registered. *)
Lemma one_task_at_a_time_witness :
  (exists m'',
     update decimal_int flat_distance north loose
       (on_station "survey" Starting) (monitor [])
     = Done (Some ("1-1"%string, leg)) m''
     /\ vs_task m'' = None)
  /\ (vs_task (monitor []) <> None ->
      forall saved, Starting <> Failed saved)
  /\ vs_task (fst (turn (on_station "survey" Starting) initial))
     = Some first_task.
Proof.
  apply (one_task_at_a_time decimal_int flat_distance north loose
           (Scenarios.cfg 3) [] (on_station "survey" Starting)
           (fst (turn (on_station "survey" Starting) initial))
           first_task).
  vm_compute. reflexivity.
Defined.

(** X24 at the end of leg 1-1: the task of leg 1-2 starts from the step
    0.2 of the controller it replaces. *)
Lemma step_memory_at_launch_witness :
  (current_subphase_index
     (fst (turn (leg_done "survey" (InLoop (1 # 5)))
             (monitor [on_station "survey" Starting]))) = 0%Z
   /\ 1 # 5 = 0)
  \/ (vs_task (monitor [on_station "survey" Starting]) <> None
      /\ current_subphase_index
           (fst (turn (leg_done "survey" (InLoop (1 # 5)))
                   (monitor [on_station "survey" Starting])))
         = (current_subphase_index
              (monitor [on_station "survey" Starting]) + 1)%Z
      /\ 1 # 5 = 1 # 5).
Proof.
  apply (step_memory_at_launch decimal_int flat_distance north loose
           (Scenarios.cfg 3) [on_station "survey" Starting]
           (leg_done "survey" (InLoop (1 # 5)))
           (fst (turn (leg_done "survey" (InLoop (1 # 5)))
                   (monitor [on_station "survey" Starting])))
           {| task_subphase := "1-2"; task_data := second_leg;
              task_previous_step := 1 # 5 |}).
  vm_compute. reflexivity.
Defined.

(** X25 after the first turn: two turns with the task failed. *)
Lemma failed_task_is_never_replaced_witness :
  vs_task (monitor ([on_station "survey" Starting]
                    ++ [leg_done "survey" (Failed None);
                        on_station "transit" (Failed (Some (1 # 5)))]))
  = vs_task (monitor [on_station "survey" Starting])
  /\ forall before obs after,
       [leg_done "survey" (Failed None);
        on_station "transit" (Failed (Some (1 # 5)))]
       = before ++ obs :: after ->
       snd (turn obs (monitor ([on_station "survey" Starting] ++ before)))
       = None.
Proof.
  apply (failed_task_is_never_replaced decimal_int flat_distance north loose
           (Scenarios.cfg 3) [on_station "survey" Starting]
           [leg_done "survey" (Failed None);
            on_station "transit" (Failed (Some (1 # 5)))]).
  - vm_compute. discriminate.
  - repeat constructor; eexists; reflexivity.
Defined.

(** X26 after the first turn: a poll without a phase id, then phase 3
    again. *)
Lemma missing_phase_id_restarts_phase_witness :
  snd (turn (no_phase "survey") (monitor [on_station "survey" Starting]))
  = None
  /\ vs_task (fst (turn (no_phase "survey")
                     (monitor [on_station "survey" Starting])))
     = vs_task (monitor [on_station "survey" Starting])
  /\ last_step (fst (turn (no_phase "survey")
                       (monitor [on_station "survey" Starting])))
     = last_step (monitor [on_station "survey" Starting])
  /\ match
       snd (turn (on_station "survey" (InLoop (1 # 5)))
              (fst (turn (no_phase "survey")
                      (monitor [on_station "survey" Starting]))))
     with
     | Some task =>
         task_previous_step task = 0
         /\ current_subphase_index
              (fst (turn (on_station "survey" (InLoop (1 # 5)))
                      (fst (turn (no_phase "survey")
                              (monitor [on_station "survey" Starting])))))
            = 0%Z
     | None =>
         vs_task
           (fst (turn (on_station "survey" (InLoop (1 # 5)))
                   (fst (turn (no_phase "survey")
                           (monitor [on_station "survey" Starting])))))
         = None
     end.
Proof.
  apply (missing_phase_id_restarts_phase decimal_int flat_distance north
           loose (Scenarios.cfg 3) [on_station "survey" Starting]
           (no_phase "survey") (on_station "survey" (InLoop (1 # 5))) 3%Z).
  - vm_compute. reflexivity.
  - vm_compute. reflexivity.
  - reflexivity.
  - reflexivity.
  - intros saved H. discriminate H.
Defined.

(** The restart of X26 does create a task: leg 1-1 again, from rest. *)
Example restart_launches_first_leg :
  snd (turn (on_station "survey" (InLoop (1 # 5)))
         (monitor [on_station "survey" Starting; no_phase "survey"]))
  = Some first_task.
Proof. vm_compute. reflexivity. Qed.

(** X27 after the first turn: the mission changes to one that is in phase
    3 as well. *)
Lemma new_mission_same_phase_stays_idle_witness :
  (forall before o after,
     on_station "transit" (InLoop (1 # 5))
     :: [on_station "transit" Starting; on_station "transit" Starting]
     = before ++ o :: after ->
     snd (monitor_turn decimal_int flat_distance north loose
            (Scenarios.cfg 3) o
            (monitor_turns decimal_int flat_distance north loose
               (Scenarios.cfg 3) before
               (monitor [on_station "survey" Starting]))) = None)
  /\ vs_task (monitor_turns decimal_int flat_distance north loose
                (Scenarios.cfg 3)
                (on_station "transit" (InLoop (1 # 5))
                 :: [on_station "transit" Starting;
                     on_station "transit" Starting])
                (monitor [on_station "survey" Starting])) = None
  /\ waiting_state (monitor_turns decimal_int flat_distance north loose
                      (Scenarios.cfg 3)
                      (on_station "transit" (InLoop (1 # 5))
                       :: [on_station "transit" Starting;
                           on_station "transit" Starting])
                      (monitor [on_station "survey" Starting])) = NONE.
Proof.
  apply (new_mission_same_phase_stays_idle decimal_int flat_distance north
           loose (Scenarios.cfg 3) (monitor [on_station "survey" Starting])
           (on_station "transit" (InLoop (1 # 5))) 3%Z
           [on_station "transit" Starting; on_station "transit" Starting]).
  - vm_compute. reflexivity.
  - vm_compute. reflexivity.
  - reflexivity.
  - intros _ saved H. discriminate H.
  - repeat constructor.
Defined.

End ManagerInstances.
